(** * NADpools: half-life, turnover, labelling percentages and fold changes

    A shallow embedding of the numerical core of the NADpools analysis
    scripts:

    - [scripts/half_life_estimation.py]   (modules [HalfLifeEstimation],
      [Gradients], [Fitting])
    - [turnover_calculation/new_utils.py] (modules [NewUtils], [Pools],
      [Fitting])
    - [python_scripts/convert_csv.py]     (modules [ConvertCsv],
      [ModelOutput], [Metabolites])
    - [python_scripts/plot_function.py]   (module [PlotFunction])
    - [proteomics_analyses/calculate_fold_changes_p001.py]
      (modules [FoldChanges], [GeneNames])

    Python floats are IEEE binary64 numbers.  The arithmetic that the
    scripts perform is written once, over an interface [Arith] of the
    operations [+ - * / sqrt] and comparisons, and read in two ways:

    - at [float] (Rocq's primitive binary64 numbers), which is bit for bit
      what CPython and numpy compute;
    - at [R], the exact real numbers, which is the arithmetic the formulas
      are meant to approximate.

    [exp] and [log] have no binary64 implementation here, so code that uses
    them (interface [Elementary]) is read at [R] only; a statement about it
    is a statement about the formula, not about its rounding. *)

From Stdlib Require Import ZArith List String Ascii Bool Lia.
From Stdlib Require Import QArith Qround Qabs.
From Stdlib Require Import Reals Lra.
From Stdlib Require Import Floats.PrimFloat Floats.SpecFloat Floats.FloatOps.
From Stdlib Require Import DecimalString.
Import ListNotations.

Set Warnings "-inexact-float".

(** ** Python exceptions and fallible results *)

Inductive exn : Set :=
| ValueError
| KeyError
| TypeError
| IndexError
| OverflowError
| ZeroDivisionError
| NotImplementedError.

Inductive result (A : Type) : Type :=
| Ok (a : A)
| Raise (e : exn).
Arguments Ok {A} a.
Arguments Raise {A} e.

Definition bind {A B} (m : result A) (k : A -> result B) : result B :=
  match m with
  | Ok a => k a
  | Raise e => Raise e
  end.

Declare Scope py_scope.
Delimit Scope py_scope with py.
Notation "x <- m ;; k" := (bind m (fun x => k))
  (at level 61, m at next level, right associativity) : py_scope.

(** [for x in l: ...] where the body may raise: the first exception wins. *)
Fixpoint mapM {A B} (f : A -> result B) (l : list A) : result (list B) :=
  match l with
  | [] => Ok []
  | x :: xs =>
      match f x with
      | Raise e => Raise e
      | Ok y =>
          match mapM f xs with
          | Raise e => Raise e
          | Ok ys => Ok (y :: ys)
          end
      end
  end.

(** [series.iloc[0]]: the first element, [IndexError] on an empty selection. *)
Definition iloc0 {A} (l : list A) : result A :=
  match l with
  | [] => Raise IndexError
  | x :: _ => Ok x
  end.

(** ** The arithmetic interface *)

Class Arith (T : Type) : Type := {
  lit  : Z -> T;                 (* an integer literal used as a number *)
  add  : T -> T -> T;
  sub  : T -> T -> T;
  mul  : T -> T -> T;
  div  : T -> T -> T;
  neg  : T -> T;
  sqrt : T -> T;                 (* np.sqrt *)
  eqb  : T -> T -> bool;
  ltb  : T -> T -> bool;
  leb  : T -> T -> bool
}.

Class Elementary (T : Type) `{Arith T} : Type := {
  exp : T -> T;                  (* np.exp *)
  log : T -> T                   (* np.log, math.log *)
}.

Declare Scope num_scope.
Delimit Scope num_scope with num.
Notation "x + y" := (add x y) : num_scope.
Notation "x - y" := (sub x y) : num_scope.
Notation "x * y" := (mul x y) : num_scope.
Notation "x / y" := (div x y) : num_scope.
Notation "- x" := (neg x) : num_scope.
Notation "x =? y" := (eqb x y) : num_scope.
Notation "x <? y" := (ltb x y) : num_scope.
Notation "x <=? y" := (leb x y) : num_scope.

(** [x ** 2]; numpy and CPython both square by one multiplication. *)
Definition sqr {T} `{Arith T} (x : T) : T := (x * x)%num.

(** *** Binary64 *)

(** [float(n)] for a Python int: the nearest binary64 number, ties to even. *)
Definition float_of_int (n : Z) : float :=
  SF2Prim (binary_normalize prec emax n 0 false).

#[export] Instance Arith_float : Arith float := {
  lit  := float_of_int;
  add  := PrimFloat.add;
  sub  := PrimFloat.sub;
  mul  := PrimFloat.mul;
  div  := PrimFloat.div;
  neg  := PrimFloat.opp;
  sqrt := PrimFloat.sqrt;
  eqb  := PrimFloat.eqb;
  ltb  := PrimFloat.ltb;
  leb  := PrimFloat.leb
}.

(** *** Exact reals.  [Rdiv x 0], [ln] of a non-positive number and
    [sqrt] of a negative number are total here with an arbitrary value
    ([0]); numpy yields [inf] or [nan] there.  Statements over [R] are
    therefore made inside the domain: positive arguments of [log],
    non-negative arguments of [sqrt], non-zero divisors. *)

Definition Reqb (x y : R) : bool := if Req_dec_T x y then true else false.
Definition Rltb (x y : R) : bool := if Rlt_dec x y then true else false.
Definition Rleb (x y : R) : bool := if Rle_dec x y then true else false.

#[export] Instance Arith_R : Arith R := {
  lit  := IZR;
  add  := Rplus;
  sub  := Rminus;
  mul  := Rmult;
  div  := Rdiv;
  neg  := Ropp;
  sqrt := R_sqrt.sqrt;
  eqb  := Reqb;
  ltb  := Rltb;
  leb  := Rleb
}.

#[export] Instance Elementary_R : Elementary R := {
  exp := Rtrigo_def.exp;
  log := ln
}.

(** ** CPython float and int primitives used by the scripts *)

(** The number that a finite binary64 value stands for: sign times
    mantissa times a power of two. *)
Definition float_value (x : float) : option Q :=
  match Prim2SF x with
  | S754_zero _ => Some 0%Q
  | S754_finite s m e =>
      let n := if s then Zneg m else Zpos m in
      Some (match e with
            | Z0 => inject_Z n
            | Zpos p => inject_Z (n * 2 ^ Zpos p)
            | Zneg p => Qmake n (2 ^ p)
            end)
  | _ => None
  end.

Definition signed_zero (s : bool) : float := if s then neg_zero else zero.

(** [int(x)]: truncation towards zero. *)
Definition py_int (x : float) : result Z :=
  match Prim2SF x with
  | S754_nan => Raise ValueError
  | S754_infinity _ => Raise OverflowError
  | S754_zero _ => Ok 0%Z
  | S754_finite s m e =>
      let q := Z.shiftl (Zpos m) e in
      Ok (if s then Z.opp q else q)
  end.

(** [round(x)] with one argument: the nearest integer, ties to even. *)
Definition py_round (x : float) : result Z :=
  match Prim2SF x with
  | S754_nan => Raise ValueError
  | S754_infinity _ => Raise OverflowError
  | S754_zero _ => Ok 0%Z
  | S754_finite s m e =>
      let q :=
        if (0 <=? e)%Z then Z.shiftl (Zpos m) e
        else
          let d := Z.pow 2 (Z.opp e) in
          let q0 := Z.div (Zpos m) d in
          let r := Z.modulo (Zpos m) d in
          match Z.compare (2 * r) d with
          | Lt => q0
          | Gt => Z.succ q0
          | Eq => if Z.even q0 then q0 else Z.succ q0
          end in
      Ok (if s then Z.opp q else q)
  end.

(** [math.modf(x)]: [(fractional part, integral part)], both carrying the
    sign of [x]. *)
Definition math_modf (x : float) : float * float :=
  match Prim2SF x with
  | S754_nan => (x, x)
  | S754_infinity s => (signed_zero s, x)
  | S754_zero _ => (x, x)
  | S754_finite s m e =>
      let whole :=
        if (0 <=? e)%Z then x
        else
          match Z.shiftl (Zpos m) e with
          | Zpos q => SF2Prim (S754_finite s q 0)
          | _ => signed_zero s
          end in
      let frac := PrimFloat.sub x whole in
      (if PrimFloat.is_zero frac then signed_zero s else frac, whole)
  end.

(** [a / b] on Python ints ("true division").  CPython returns the
    correctly rounded quotient; both operands at the one call site
    ([whole / 24], [whole] the integral part of a double) are binary64
    numbers, so that quotient is the binary64 division of the converted
    operands. *)
Definition int_truediv (a b : Z) : result float :=
  if (b =? 0)%Z then Raise ZeroDivisionError
  else
    let fa := float_of_int a in
    let fb := float_of_int b in
    if PrimFloat.is_infinity fa || PrimFloat.is_infinity fb
    then Raise OverflowError
    else Ok (PrimFloat.div fa fb).

(** [str(n)] / ["{}".format(n)] for an int. *)
Definition py_str (n : Z) : string := NilZero.string_of_int (Z.to_int n).

(** ** python_scripts/convert_csv.py *)

Module ConvertCsv.

Section Columns.
Context {T : Type} `{Arith T}.
Local Open Scope num_scope.

(** One line of an LC-MS csv file as [pd.read_csv] delivers it; [None] is
    a missing value (NA). *)
Record raw_row : Type := {
  raw_Time_in_minutes : option T;
  raw_Experiment : string;
  raw_No_label : option T;
  raw_N15 : option T;
  raw_5C13 : option T;
  raw_5C13N15 : option T;
  raw_10C13 : option T;
  raw_10C13N15 : option T
}.

(** The frame after [fillna(0)] and [set_index(["Time in hours"])]; this is
    also what the isotopologue correction consumes and returns. *)
Record row : Type := {
  Time_in_hours : T;
  Experiment : string;
  No_label : T;
  N15 : T;
  _5C13 : T;
  _5C13N15 : T;
  _10C13 : T;
  _10C13N15 : T
}.

(** A line of the frame that [analyse_rawfiles] returns (the optional
    [nad_*] columns, which are products of the two percent columns with a
    constant, are left out). *)
Record out_row : Type := {
  out_Time_in_hours : T;
  out_Experiment : string;
  out_No_label : T;
  sum_labelled : T;
  no_label_percent : T;
  sum_labelled_percent : T;
  intermediates : list (string * T);
  Exp : string
}.

Definition subset (r : raw_row) : list (option T) :=
  [raw_No_label r; raw_N15 r; raw_5C13 r; raw_5C13N15 r; raw_10C13 r;
   raw_10C13N15 r].

(** [x != 0] on a cell: NA compares unequal to everything. *)
Definition cell_ne_0 (c : option T) : bool :=
  match c with
  | None => true
  | Some x => negb (x =? lit 0)
  end.

Definition isna (c : option T) : bool :=
  match c with
  | None => true
  | Some _ => false
  end.

Definition fillna0 (c : option T) : T :=
  match c with
  | None => lit 0
  | Some x => x
  end.

(** [df.loc[(df[subset] != 0).any(axis=1)]], [df.dropna(how="all",
    subset=subset)], [df.fillna(0)] and the [Time in hours] column. *)
Definition clean (df : list raw_row) : list row :=
  let df := filter (fun r => existsb cell_ne_0 (subset r)) df in
  let df := filter (fun r => negb (forallb isna (subset r))) df in
  map (fun r =>
         {| Time_in_hours := fillna0 (raw_Time_in_minutes r) / lit 60;
            Experiment := raw_Experiment r;
            No_label := fillna0 (raw_No_label r);
            N15 := fillna0 (raw_N15 r);
            _5C13 := fillna0 (raw_5C13 r);
            _5C13N15 := fillna0 (raw_5C13N15 r);
            _10C13 := fillna0 (raw_10C13 r);
            _10C13N15 := fillna0 (raw_10C13N15 r) |}) df.

(** The computed columns of one line. *)
Definition percent_columns (show_intermediates : bool) (exp_name : string)
    (r : row) : out_row :=
  let sum_labelled :=
    N15 r + _5C13 r + _5C13N15 r + _10C13 r + _10C13N15 r in
  let total := No_label r + sum_labelled in
  {| out_Time_in_hours := Time_in_hours r;
     out_Experiment := Experiment r;
     out_No_label := No_label r;
     sum_labelled := sum_labelled;
     no_label_percent := No_label r / total * lit 100;
     sum_labelled_percent := sum_labelled / total * lit 100;
     intermediates :=
       if show_intermediates then
         let cols := [("N15", N15 r); ("5C13", _5C13 r);
                      ("5C13N15", _5C13N15 r); ("10C13", _10C13 r);
                      ("10C13N15", _10C13N15 r)]%string in
         cols ++ map (fun c => ((fst c ++ "_percent")%string,
                                snd c / total * lit 100)) cols
       else [];
     Exp := exp_name |}.

(** What [input_data[1]] can be. *)
Inductive py_obj : Type :=
| ObjStr (s : string)
| ObjDataFrame (df : list raw_row)
| ObjOther.

(** [input_data]: a glob (a str) or a tuple of a name and an object. *)
Inductive input_data : Type :=
| InputStr (file_glob : string)
| InputTuple (name : string) (second : py_obj).

Definition getitem1 (i : input_data) : result py_obj :=
  match i with
  | InputStr s =>
      match String.get 1 s with
      | Some c => Ok (ObjStr (String c EmptyString))
      | None => Raise IndexError
      end
  | InputTuple _ second => Ok second
  end.

Section Analyse.
(** The file system and the two library calls, taken as given:
    [read_glob g] is the list of frames read from the files matching [g]
    (each already carrying its [Experiment] column), [splitext_basename] is
    [os.path.splitext(os.path.basename(g))[0]]. *)
Variable read_glob : string -> list (list raw_row).
Variable splitext_basename : string -> string.
Variable sort_index : list row -> list row.
Variable calc_isotopologue_correction : list row -> list row.

(** [pd.concat(data, sort=False)]: raises [ValueError] on an empty list. *)
Definition pd_concat {A} (data : list (list A)) : result (list A) :=
  match data with
  | [] => Raise ValueError
  | _ => Ok (List.concat data)
  end.

(** The dispatch on [isinstance(input_data[1], ...)].  Indexing a str
    gives a str (or fails on a str of fewer than two characters), so a str
    input always takes the glob branch; a tuple whose second item is a str
    takes it too, and [glob.glob] then refuses the tuple. *)
Definition load (i : input_data) : result (list raw_row * string) :=
  (second <- getitem1 i ;;
   match i, second with
   | InputStr file_glob, _ =>
       df <- pd_concat (read_glob file_glob) ;;
       Ok (df, splitext_basename file_glob)
   | InputTuple _ _, ObjStr _ => Raise TypeError
   | InputTuple name _, ObjDataFrame df => Ok (df, name)
   | InputTuple _ _, ObjOther => Raise ValueError
   end)%py.

Definition analyse_rawfiles (i : input_data)
    (isotopologue_correction show_intermediates : bool)
  : result (list out_row) :=
  (loaded <- load i ;;
   let df := sort_index (clean (fst loaded)) in
   let df := if isotopologue_correction
             then calc_isotopologue_correction df else df in
   Ok (map (percent_columns show_intermediates (snd loaded)) df))%py.

End Analyse.

(** *** Frames with arbitrary columns, line by line *)

Definition frame_row : Type := list (string * T).

Fixpoint getcol (k : string) (r : frame_row) : result T :=
  match r with
  | [] => Raise KeyError
  | (k', v) :: r' => if String.eqb k' k then Ok v else getcol k r'
  end.

(** [df[k] = v]: overwrite the column in place or append it. *)
Fixpoint setcol (k : string) (v : T) (r : frame_row) : frame_row :=
  match r with
  | [] => [(k, v)]
  | (k', v') :: r' =>
      if String.eqb k' k then (k, v) :: r' else (k', v') :: setcol k v r'
  end.

(** [df.rename(columns=mapping)]: every column name that is a key of the
    dict is replaced, all at once; other names stay. *)
Fixpoint renamed (mapping : list (string * string)) (k : string) : string :=
  match mapping with
  | [] => k
  | (old, new) :: mapping' =>
      if String.eqb k old then new else renamed mapping' k
  end.

Definition rename (mapping : list (string * string)) (r : frame_row)
  : frame_row :=
  map (fun c => (renamed mapping (fst c), snd c)) r.

End Columns.

End ConvertCsv.

(** ** numpy helpers shared by the two fitting modules *)

Section Numpy.
Context {T : Type} `{Arith T}.

(** [np.diag(m)] of a two-dimensional array given by its rows. *)
Fixpoint diag_from (i : nat) (m : list (list T)) : list T :=
  match m with
  | [] => []
  | r :: m' =>
      match nth_error r i with
      | Some v => v :: diag_from (S i) m'
      | None => []
      end
  end.

Definition np_diag (m : list (list T)) : list T := diag_from 0 m.

(** [l[i]] on a sequence. *)
Definition getitem (l : list T) (i : nat) : result T :=
  match nth_error l i with
  | Some v => Ok v
  | None => Raise IndexError
  end.

End Numpy.

(** ** Arithmetic on Python floats that raises *)

Section PythonFloat.
Context {T : Type} `{Arith T}.
Local Open Scope num_scope.

(** Neither an infinity nor NaN. *)
Definition is_finite (x : T) : bool := (x - x) =? lit 0.

(** [x ** 2] on a Python float: [OverflowError] when the square of a
    finite number is not finite. *)
Definition py_square (x : T) : result T :=
  let y := x * x in
  if is_finite x && negb (is_finite y) then Raise OverflowError else Ok y.

(** [x / y] on Python floats (or ints): [ZeroDivisionError] on a zero
    divisor, where numpy would return an infinity or NaN. *)
Definition py_truediv (x y : T) : result T :=
  if y =? lit 0 then Raise ZeroDivisionError else Ok (x / y).

End PythonFloat.

(** ** scripts/half_life_estimation.py *)

Module HalfLifeEstimation.

Section Fit.
Context {T : Type} `{Elementary T}.
Local Open Scope num_scope.

Definition func_exp_decay (x prefactor exp_factor : T) : T :=
  prefactor * exp (- exp_factor * x).

Definition func_exp_growth (x prefactor exp_factor : T) : T :=
  - prefactor * exp (- exp_factor * x) + lit 1.

Definition func_decay_cell
    (x exp_factor_cyto prefac_cyto exp_factor_mito prefac_mito
       nad_amount_cyto nad_amount_mito : T) : T :=
  let mito_term := prefac_mito * nad_amount_mito * exp (- exp_factor_mito * x) in
  let cyto_term := prefac_cyto * nad_amount_cyto * exp (- exp_factor_cyto * x) in
  cyto_term + mito_term.

Definition calc_half_life (prefactor exp_factor : T) : T :=
  log (lit 2 * prefactor) / exp_factor.

(** The tuple assignment [sd_prefactor, sd_exp_factor = ...] raises
    [ValueError] unless the diagonal has exactly two entries. *)
Definition calc_half_life_standard_deviation
    (prefactor exp_factor : T) (cov : list (list T)) : result T :=
  match map sqrt (np_diag cov) with
  | [sd_prefactor; sd_exp_factor] =>
      let prefac_term := sqr (sd_prefactor / (prefactor * exp_factor)) in
      let exp_term :=
        sqr (log (lit 2 * prefactor) * sd_exp_factor / sqr exp_factor) in
      let sd_half_life := sqrt (prefac_term + exp_term) in
      Ok sd_half_life
  | _ => Raise ValueError
  end.

Definition calc_turnover_cell (prefactor exp_factor nad_amount_cell : T) : T :=
  let t := lit 1 in
  let nad_amount_1h := func_exp_decay t prefactor exp_factor * nad_amount_cell in
  let turnover_cell := nad_amount_cell - nad_amount_1h in
  turnover_cell.

End Fit.

Definition pretty_print_time (time : float) : result string :=
  (let (frac, whole) := math_modf time in
   whole <- py_int whole ;;
   frac <- py_round (PrimFloat.mul frac (float_of_int 60)) ;;
   if (whole =? 0)%Z then
     Ok (py_str frac ++ "min")%string
   else if (whole <? 24)%Z then
     Ok (py_str whole ++ "h " ++ py_str frac ++ "min")%string
   else
     q <- int_truediv whole 24 ;;
     days <- py_int q ;;
     let hours := (whole mod 24)%Z in
     Ok (py_str days ++ "d " ++ py_str hours ++ "h "
           ++ py_str frac ++ "min")%string)%py.

(** *** calc_half_life_table: which branch runs and which exception leaves.
    The frames, the Python objects that are put into the table, and every
    function that is called on them (of pandas, of [convert_csv], the
    estimators with their call of scipy's [curve_fit], the plotting) are
    taken as given; each call may raise. *)

Section Table.
Variable DataFrame : Type.                 (* the measurements *)
Variable obj : Type.                       (* an entry of a list or a table *)
Variable resample_kw : Type.               (* keyword arguments *)
Variable table : Type.                     (* the frame that is returned *)
Variable analyse_rawfiles : string -> result DataFrame.
Variable pd_concat : list DataFrame -> result DataFrame.
Variable os_path_join : string -> string -> string.
Variable estimate_half_life_cyto_mito :
  DataFrame -> obj -> obj -> obj -> obj -> bool -> bool -> result (list obj).
Variable calc_gradient_zero_cyto_mito :
  list obj -> obj -> obj -> result (list obj).
Variable groupby_Exp : DataFrame -> result (list (string * DataFrame)).
Variable n_samples : DataFrame -> result obj.
Variable estimate_half_life : DataFrame -> bool -> bool -> result (list obj).
Variable half_life_resampling :
  DataFrame -> bool -> bool -> resample_kw -> result (list obj).
Variable plot_fit :
  string -> DataFrame -> obj -> obj -> option string -> result unit.
Variable from_dict : list (string * list obj) -> list string -> result table.
Variable to_csv : table -> string -> result unit.

Inductive table_input : Type :=
| InputList (glob_list : list string)
| InputFrame (df : DataFrame)
| InputOther.                               (* neither a list nor a frame *)

(** [resample] is [False], [True] or a dict of keyword arguments: it is
    [None] here when it is falsy and [Some kw] otherwise ([kw] the empty
    dict for [True]).  [cyto_mito] is a dict (or [None]), given by its
    items; it is falsy when it has none. *)

(** [if s:] on an optional string. *)
Definition truthy (s : option string) : option string :=
  match s with
  | Some EmptyString => None
  | _ => s
  end.

(** [l[i]] on a list of objects. *)
Definition item (l : list obj) (i : nat) : result obj :=
  match nth_error l i with
  | Some v => Ok v
  | None => Raise IndexError
  end.

Definition columns_cyto_mito (show_factors : bool) : list string :=
  (if show_factors then
     ["half_life_time_cyto"; "half_life_time_mito"; "exp_prefactor_cyto";
      "exp_prefactor_mito"; "prefactor_cyto"; "prefactor_mito";
      "std_exp_factor_cyto"; "std_exp_factor_mito"; "std_prefactor_cyto";
      "std_prefactor_mito"; "cell_gradient_at_0h"; "cyto_gradient_at_0h";
      "mito_gradient_at_0h"; "std_cell_gradient_at_0h";
      "std_cyto_gradient_at_0h"; "std_mito_gradient_at_0h";
      "nad_amount_cyto"; "nad_amount_mito"]
   else ["half_life_time_cyto"; "half_life_time_mito"])%string.

Definition columns_single (show_factors : bool) : list string :=
  (if show_factors then
     ["half_life_time"; "standard_deviation"; "prefactor"; "std_prefactor";
      "exp_prefactor"; "std_exp_factor"; "n_samples"]
   else ["half_life_time"; "standard_deviation"; "n_samples"])%string.

(** The first branch: the frame to work on. *)
Definition load_input (input_data : table_input)
    (input_suffix input_folder : option string) : result DataFrame :=
  match input_data with
  | InputList glob_list =>
      (dfs <- mapM (fun glob =>
                      let glob := match truthy input_suffix with
                                  | Some s => (glob ++ s)%string
                                  | None => glob
                                  end in
                      let glob := match truthy input_folder with
                                  | Some f => os_path_join f glob
                                  | None => glob
                                  end in
                      analyse_rawfiles glob) glob_list ;;
       pd_concat dfs)%py
  | InputFrame df => Ok df
  | InputOther => Raise TypeError
  end.

(** The body of [for name, factors in cyto_mito.items()]; the tuple
    assignment raises [ValueError] unless [factors] has four items. *)
Definition cyto_mito_entry (df : DataFrame) (pretty_print show_factors : bool)
    (entry : string * list obj) : result (string * list obj) :=
  let '(name, factors) := entry in
  match factors with
  | [glob_wcl; glob_mito; nad_amount_cyto; nad_amount_mito] =>
      (results <- estimate_half_life_cyto_mito df glob_wcl glob_mito
                    nad_amount_cyto nad_amount_mito pretty_print
                    show_factors ;;
       if show_factors then
         turnover <- calc_gradient_zero_cyto_mito results nad_amount_cyto
                       nad_amount_mito ;;
         Ok (name, results ++ turnover ++ [nad_amount_cyto; nad_amount_mito])
       else Ok (name, results))%py
  | _ => Raise ValueError
  end.

(** The body of [for name, data in df.groupby("Exp")]. *)
Definition single_entry (resample : option resample_kw)
    (show_factors pretty_print plot_fit_graphs : bool)
    (graphs_outfolder : option string) (group : string * DataFrame)
  : result (string * list obj) :=
  let '(name, data) := group in
  (n <- n_samples data ;;
   hl <- match resample with
         | Some kw => half_life_resampling data show_factors pretty_print kw
         | None => estimate_half_life data pretty_print show_factors
         end ;;
   let hl := hl ++ [n] in
   if plot_fit_graphs && show_factors then
     prefactor <- item hl 2 ;;
     exp_factor <- item hl 4 ;;
     _ <- plot_fit name data prefactor exp_factor graphs_outfolder ;;
     Ok (name, hl)
   else if plot_fit_graphs && negb show_factors then Raise ValueError
   else Ok (name, hl))%py.

Definition calc_half_life_table
    (input_data : table_input)
    (cyto_mito : list (string * list obj))
    (resample : option resample_kw)
    (show_factors : bool)
    (input_suffix input_folder : option string)
    (pretty_print plot_fit_graphs : bool)
    (graphs_outfolder outputfile : option string)
  : result table :=
  (df <- load_input input_data input_suffix input_folder ;;
   filled <-
     match cyto_mito with
     | _ :: _ =>
         match resample with
         | Some _ => Raise NotImplementedError
         | None =>
             half_life <-
               mapM (cyto_mito_entry df pretty_print show_factors) cyto_mito ;;
             Ok (half_life, columns_cyto_mito show_factors)
         end
     | [] =>
         groups <- groupby_Exp df ;;
         half_life <-
           mapM (single_entry resample show_factors pretty_print
                   plot_fit_graphs graphs_outfolder) groups ;;
         Ok (half_life, columns_single show_factors)
     end ;;
   half_life <- from_dict (fst filled) (snd filled) ;;
   match truthy outputfile with
   | Some file => _ <- to_csv half_life file ;; Ok half_life
   | None => Ok half_life
   end)%py.

End Table.

End HalfLifeEstimation.

(** ** turnover_calculation/new_utils.py *)

Module NewUtils.

Section Fit.
Context {T : Type} `{Elementary T}.
Local Open Scope num_scope.

Definition exponential_decay (x a b : T) : T :=
  a * exp (- b * x).

Definition exponential_growth (x a b : T) : T :=
  a * exp (b * x).

Definition calculate_standard_error (pcov : list (list T)) : list T :=
  let std_err := map sqrt (np_diag pcov) in
  std_err.

(** [half_life(popt, pcov)] with the default [verbose=False]. *)
Definition half_life (popt : list T) (pcov : list (list T)) : result (T * T) :=
  (popt1 <- getitem popt 1 ;;
   let half_life := log (lit 2) / popt1 in
   se1 <- getitem (calculate_standard_error pcov) 1 ;;
   let half_life_error := half_life * sqrt (sqr (se1 / popt1)) in
   Ok (half_life, half_life_error))%py.

End Fit.

Definition pretty_print_time (time : float) : result string :=
  (let (frac, whole) := math_modf time in
   whole <- py_int whole ;;
   frac <- py_round (PrimFloat.mul frac (float_of_int 60)) ;;
   if (whole =? 0)%Z then
     Ok (py_str frac ++ "min")%string
   else if (whole <? 24)%Z then
     Ok (py_str whole ++ "h " ++ py_str frac ++ "min")%string
   else
     q <- int_truediv whole 24 ;;
     days <- py_int q ;;
     let hours := (whole mod 24)%Z in
     Ok (py_str days ++ "d " ++ py_str hours ++ "h "
           ++ py_str frac ++ "min")%string)%py.

Section Turnover.
Context {T : Type} `{Arith T}.
Local Open Scope num_scope.

(** A line of the parameter table [dpars].  The four columns that
    [get_turnover] writes may not exist yet (or hold NaN): [None]. *)
Record dpars_row : Type := {
  cell_type : string;
  dp_half_life : T;
  dp_half_life_error : T;
  growth_rate : T;
  growth_rate_standard_error : T;
  poolsize : option T;
  poolsize_sd : option T;
  turnover : option T;
  turnover_error : option T
}.

(** A line of the concentration table [nad_conc]. *)
Record conc_row : Type := {
  conc_cell_type : string;
  mean : T;
  sd : T
}.

(** With [growth_correction] the error is a Series over the lines of
    [cell] (the growth columns are not reduced with [.iloc[0]]); assigning
    it through [.loc] aligns it on the index, so a selected line that is
    not a line of [cell] receives NaN.  Index labels are taken to be
    unique. *)
Definition get_turnover (dpars : list dpars_row) (nad_conc : list conc_row)
    (cell cell_line : string) (growth_correction : bool)
  : result (list dpars_row) :=
  (let this := filter (fun r => String.eqb (cell_type r) cell) dpars in
   hl <- iloc0 (map dp_half_life this) ;;
   hle <- iloc0 (map dp_half_life_error this) ;;
   let cell' := if String.eqb cell cell_line then "wt"%string else cell in
   let pool := filter (fun r => String.eqb (conc_cell_type r) cell') nad_conc in
   poolsize <- iloc0 (map mean pool) ;;
   poolsize_error <- iloc0 (map sd pool) ;;
   let turnover := (poolsize / lit 2) / hl in
   let turnover_error (r : dpars_row) : option T :=
     if growth_correction then
       if String.eqb (cell_type r) cell then
         Some (turnover *
               sqrt (sqr (poolsize_error / poolsize) + sqr (hle / hl)
                     + sqr (growth_rate_standard_error r / growth_rate r)))
       else None
     else
       Some (turnover *
             sqrt (sqr (poolsize_error / poolsize) + sqr (hle / hl))) in
   let cell'' := if String.eqb cell' "wt" then cell_line else cell' in
   Ok (map (fun r =>
              if String.eqb (cell_type r) cell'' then
                {| cell_type := cell_type r;
                   dp_half_life := dp_half_life r;
                   dp_half_life_error := dp_half_life_error r;
                   growth_rate := growth_rate r;
                   growth_rate_standard_error := growth_rate_standard_error r;
                   poolsize := Some poolsize;
                   poolsize_sd := Some poolsize_error;
                   turnover := Some turnover;
                   turnover_error := turnover_error r |}
              else r) dpars))%py.

End Turnover.

End NewUtils.

(** ** The two decay fits: calls of scipy's [curve_fit] *)

Module Fitting.

Section Fitting.
Context {T : Type} `{Elementary T}.
Local Open Scope num_scope.

(** [scipy.optimize.curve_fit(f, xdata, ydata, p0=p0, bounds=bounds)],
    taken as given: the optimal parameters and their covariance matrix, or
    an exception. *)
Variable curve_fit :
  (T -> T -> T -> T) -> list T -> list T -> T * T -> (T * T) * (T * T) ->
  result (list T * list (list T)).

(** [fit_exponential_decay(x, y)] of new_utils.py, with the default
    [verbose=False]. *)
Definition fit_exponential_decay (x y : list T)
  : result (list T * list (list T)) :=
  let bounds := ((lit 0, lit 0), (lit 1000, lit 10)) in
  curve_fit NewUtils.exponential_decay x y (lit 1, lit 1) bounds.

(** The frame that [fit_unlabelled] reads: its index (the times) and its
    column [no_label_percent], which may be absent. *)
Record fit_frame : Type := {
  fit_index : list T;
  fit_no_label_percent : option (list T)
}.

(** [fit_unlabelled(df)] of half_life_estimation.py, with the default
    [plot_label=None]. *)
Definition fit_unlabelled (df : fit_frame)
  : result (list T * list (list T)) :=
  let func := HalfLifeEstimation.func_exp_decay in
  let xdata := fit_index df in
  match fit_no_label_percent df with
  | None => Raise KeyError
  | Some column =>
      let ydata := map (fun v => v / lit 100) column in
      let bounds := ((lit 0, lit 0), (lit 1000, lit 10)) in
      let start_values := (lit 1, lit 1) in
      curve_fit func xdata ydata start_values bounds
  end.

End Fitting.
End Fitting.

(** ** proteomics_analyses/calculate_fold_changes_p001.py *)

Module FoldChanges.

Inductive category : Set :=
| mitoParp | cytoParp | erParp | pexParp
| mitoParp_pj | cytoParp_pj | erParp_pj | pexParp_pj
| control | control_pj.

Definition categories : list category :=
  [mitoParp; cytoParp; erParp; pexParp; mitoParp_pj; cytoParp_pj;
   erParp_pj; pexParp_pj; control; control_pj].

(** The sample tags of each condition ([mp], [cp], ... in the script). *)
Definition tags (c : category) : string * string * string :=
  (match c with
   | mitoParp => ("F3, 127N", "F2, 130N", "F1, 129C")
   | erParp => ("F3, 129C", "F1, 130C", "F2, 131C")
   | pexParp => ("F1, 128N", "F2, 130C", "F3, 130C")
   | cytoParp => ("F1, 128C", "F2, 128C", "F3, 131N")
   | mitoParp_pj => ("F1, 129N", "F2, 131N", "F3, 131C")
   | erParp_pj => ("F3, 128N", "F2, 129N", "F1, 130N")
   | pexParp_pj => ("F2, 128N", "F3, 129N", "F1, 131C")
   | cytoParp_pj => ("F3, 127C", "F2, 129C", "F1, 131N")
   | control => ("F1, 127N", "F2, 127C", "F3, 128C")
   | control_pj => ("F2, 127N", "F1, 127C", "F3, 130N")
   end)%string.

(** [tag in x] on strings. *)
Fixpoint contains (tag x : string) : bool :=
  String.prefix tag x ||
  match x with
  | EmptyString => false
  | String _ x' => contains tag x'
  end.

Definition find_cols (tags : string * string * string)
    (cols_to_search : list string) : list string :=
  let '(t0, t1, t2) := tags in
  filter (fun x => contains t0 x || contains t1 x || contains t2 x)
    cols_to_search.

Section Comparison.
Context {T : Type} `{Elementary T}.
Local Open Scope num_scope.

(** A protein line of the abundance table: its accession and the value
    of every abundance-ratio column. *)
Record protein : Type := {
  Accession : string;
  abundance : string -> T
}.

(** scipy's [ttest_ind(...).pvalue] on the two groups of one line. *)
Variable ttest_ind_pvalue : list T -> list T -> T.

(** [.mean(axis=1)] on one line. *)
Definition row_mean (l : list T) : T :=
  fold_left add l (lit 0) / lit (Z.of_nat (List.length l)).

(** A binary64 quotient or logarithm that need not be finite.  The exact
    numbers have no [inf] and no [nan], so the two places of the script
    where they arise (a mean of zero in the denominator, and the logarithm
    of such a ratio) carry them explicitly. *)
Inductive extended : Type :=
| Finite (x : T)
| PosInf
| NegInf
| NaN.

(** [avg1 / avg2] on float64 Series: division by zero does not raise.
    (A zero mean is taken to be [+0.0]; abundances are not negative.) *)
Definition np_divide (x y : T) : extended :=
  if y =? lit 0 then
    if lit 0 <? x then PosInf
    else if x <? lit 0 then NegInf
    else NaN
  else Finite (x / y).

(** [math.log(x, base)] for a finite [base > 1]: [ValueError] ("math
    domain error") unless [x > 0] or [x] is NaN. *)
Definition math_log (x : extended) (base : T) : result extended :=
  match x with
  | Finite x =>
      if x <=? lit 0 then Raise ValueError else Ok (Finite (log x / log base))
  | PosInf => Ok PosInf
  | NegInf => Raise ValueError
  | NaN => Ok NaN
  end.

(** [.001]: the binary64 number nearest to 1/1000, which is what the
    correctly rounded quotient 1/1000 is. *)
Definition p_cutoff : T := lit 1 / lit 1000.

(** One line of the table before the p-value filter. *)
Definition fold_change (cat1_col cat2_col : list string) (r : protein)
  : result (string * extended * T) :=
  (let data1 := map (abundance r) cat1_col in
   let data2 := map (abundance r) cat2_col in
   let avg1 := row_mean data1 in
   let avg2 := row_mean data2 in
   let p := ttest_ind_pvalue data1 data2 in
   let ratio := np_divide avg1 avg2 in
   l <- math_log ratio (lit 2) ;;
   Ok (Accession r, l, p))%py.

(** The body of the double loop: the value stored in
    [comparison.loc[cat1, cat2]].  The lines are listed in the order of
    [data]; nothing below depends on the order. *)
Definition compare_pair (data : list protein) (cat1_col cat2_col : list string)
  : result (list (string * extended * T)) :=
  (df <- mapM (fold_change cat1_col cat2_col) data ;;
   Ok (filter (fun e => snd e <? p_cutoff) df))%py.

Definition comparison (data : list protein) (ar_cols : list string)
    (cat1 cat2 : category) : result (list (string * extended * T)) :=
  compare_pair data (find_cols (tags cat1) ar_cols)
    (find_cols (tags cat2) ar_cols).

End Comparison.

End FoldChanges.

(** ** Concrete inputs used in the statements below *)

Module Examples.
Import ConvertCsv.

(** One measurement: [No label = 1], [N15 = 2], nothing else labelled. *)
Definition one_to_two {T} `{Arith T} : raw_row (T:=T) :=
  {| raw_Time_in_minutes := Some (lit 0);
     raw_Experiment := "exp";
     raw_No_label := Some (lit 1);
     raw_N15 := Some (lit 2);
     raw_5C13 := Some (lit 0);
     raw_5C13N15 := Some (lit 0);
     raw_10C13 := Some (lit 0);
     raw_10C13N15 := Some (lit 0) |}.

(** [analyse_rawfiles(("exp", df), isotopologue_correction=False)] on a
    frame, with an index that is already sorted. *)
Definition analyse_frame {T} `{Arith T} (df : list (raw_row (T:=T)))
  : result (list (out_row (T:=T))) :=
  analyse_rawfiles (fun _ => []) (fun g => g) (fun d => d) (fun d => d)
    (InputTuple "exp" (ObjDataFrame df)) false false.

(** A parameter table and a concentration table for [get_turnover]. *)
Definition dpars_hela {T} `{Arith T} : list (NewUtils.dpars_row (T:=T)) :=
  [ {| NewUtils.cell_type := "HeLa";
       NewUtils.dp_half_life := lit 4;
       NewUtils.dp_half_life_error := lit 1;
       NewUtils.growth_rate := lit 1;
       NewUtils.growth_rate_standard_error := lit 1;
       NewUtils.poolsize := None;
       NewUtils.poolsize_sd := None;
       NewUtils.turnover := None;
       NewUtils.turnover_error := None |};
    {| NewUtils.cell_type := "mP";
       NewUtils.dp_half_life := lit 2;
       NewUtils.dp_half_life_error := lit 1;
       NewUtils.growth_rate := lit 1;
       NewUtils.growth_rate_standard_error := lit 1;
       NewUtils.poolsize := None;
       NewUtils.poolsize_sd := None;
       NewUtils.turnover := None;
       NewUtils.turnover_error := None |} ]%string.

Definition nad_conc_hela {T} `{Arith T} : list (NewUtils.conc_row (T:=T)) :=
  [ {| NewUtils.conc_cell_type := "wt";
       NewUtils.mean := lit 10;
       NewUtils.sd := lit 0 |};
    {| NewUtils.conc_cell_type := "mP";
       NewUtils.mean := lit 6;
       NewUtils.sd := lit 0 |} ]%string.

(** Two proteins, one control channel and one mitoPARP channel. *)
Definition proteins : list (FoldChanges.protein (T:=R)) :=
  [ {| FoldChanges.Accession := "P12345";
       FoldChanges.abundance := fun col =>
         (if String.eqb col "Abundance Ratio: (F3, 127N) / (F1, 126)"
          then 4 else 1)%R |};
    {| FoldChanges.Accession := "Q67890";
       FoldChanges.abundance := fun _ => 1%R |} ]%string.

Definition ar_cols : list string :=
  [ "Abundance Ratio: (F1, 127N) / (F1, 126)";
    "Abundance Ratio: (F3, 127N) / (F1, 126)" ]%string.

(** A stand-in for the t-test: significant exactly when the group means
    differ. *)
Definition pvalue_by_means (data1 data2 : list R) : R :=
  if Req_dec_T (FoldChanges.row_mean data1) (FoldChanges.row_mean data2)
  then 1%R else 0%R.

End Examples.

(** ** scripts/half_life_estimation.py, continued: turnover and gradients *)

Module Gradients.
Import HalfLifeEstimation.

Section Gradients.
Context {T : Type} `{Elementary T}.
Local Open Scope num_scope.

(** [math.sqrt]: [ValueError] ("math domain error") on a negative
    argument. *)
Definition math_sqrt (x : T) : result T :=
  if x <? lit 0 then Raise ValueError else Ok (sqrt x).

(** [factors] is the list that [estimate_half_life_cyto_mito] returns
    with [show_factors]; only its numeric entries 2 to 9 are read. *)
Definition calc_turnover_cyto_mito (factors : list T)
    (nad_amount_cyto nad_amount_mito : T) : result (T * T * T) :=
  (let t := lit 1 in
   exp_factor_cyto <- getitem factors 2 ;;
   exp_factor_mito <- getitem factors 3 ;;
   prefac_cyto <- getitem factors 4 ;;
   prefac_mito <- getitem factors 5 ;;
   let conc_cell :=
     func_decay_cell t exp_factor_cyto prefac_cyto exp_factor_mito
       prefac_mito nad_amount_cyto nad_amount_mito in
   let turnover_cell := (nad_amount_cyto + nad_amount_mito) - conc_cell in
   let conc_cyto := func_exp_decay t prefac_cyto exp_factor_cyto in
   let turnover_cyto := nad_amount_cyto * (lit 1 - conc_cyto) in
   let conc_mito := func_exp_decay t prefac_mito exp_factor_mito in
   let turnover_mito := nad_amount_mito * (lit 1 - conc_mito) in
   Ok (turnover_cell, turnover_cyto, turnover_mito))%py.

(** The arguments are Python floats, as the docstrings say: a division by
    zero raises [ZeroDivisionError] and a square out of range raises
    [OverflowError]. *)
Definition _calc_gradient_variance
    (prefactor prefactor_std exp_factor exp_factor_std nad_amount_cell
       nad_amount_cell_std : T) : result T :=
  (q <- py_truediv prefactor_std prefactor ;;
   gradient_var <- py_square q ;;
   q <- py_truediv exp_factor_std exp_factor ;;
   term <- py_square q ;;
   let gradient_var := gradient_var + term in
   q <- py_truediv nad_amount_cell_std nad_amount_cell ;;
   term <- py_square q ;;
   let gradient_var := gradient_var + term in
   Ok gradient_var)%py.

Definition calc_gradient_zero_cell
    (prefactor prefactor_std exp_factor exp_factor_std nad_amount_cell
       nad_amount_cell_std : T) : result (T * T) :=
  (let gradient := prefactor * exp_factor * nad_amount_cell in
   gradient_var <-
     _calc_gradient_variance prefactor prefactor_std exp_factor
       exp_factor_std nad_amount_cell nad_amount_cell_std ;;
   gradient_std <- math_sqrt gradient_var ;;
   Ok (gradient, gradient_std))%py.

(** The two calls of [_calc_gradient_variance] leave out the last
    argument, which then is its default [1]. *)
Definition calc_gradient_zero_cyto_mito (factors : list T)
    (nad_amount_cyto nad_amount_mito : T)
  : result (T * T * T * T * T * T) :=
  (exp_factor_cyto <- getitem factors 2 ;;
   exp_factor_mito <- getitem factors 3 ;;
   prefactor_cyto <- getitem factors 4 ;;
   prefactor_mito <- getitem factors 5 ;;
   std_exp_factor_cyto <- getitem factors 6 ;;
   std_exp_factor_mito <- getitem factors 7 ;;
   std_prefac_cyto <- getitem factors 8 ;;
   std_prefac_mito <- getitem factors 9 ;;
   let gradient_cyto := prefactor_cyto * exp_factor_cyto * nad_amount_cyto in
   let gradient_mito := prefactor_mito * exp_factor_mito * nad_amount_mito in
   let gradient_cell := gradient_cyto + gradient_mito in
   gradient_var_cyto <-
     _calc_gradient_variance prefactor_cyto std_prefac_cyto exp_factor_cyto
       std_exp_factor_cyto nad_amount_cyto (lit 1) ;;
   gradient_std_cyto <- math_sqrt gradient_var_cyto ;;
   gradient_var_mito <-
     _calc_gradient_variance prefactor_mito std_prefac_mito exp_factor_mito
       std_exp_factor_mito nad_amount_mito (lit 1) ;;
   gradient_std_mito <- math_sqrt gradient_var_mito ;;
   gradient_std_cell <- math_sqrt (gradient_var_cyto + gradient_var_mito) ;;
   Ok (gradient_cell, gradient_cyto, gradient_mito, gradient_std_cell,
       gradient_std_cyto, gradient_std_mito))%py.

End Gradients.
End Gradients.

(** ** python_scripts/convert_csv.py, continued *)

Module ModelOutput.
Import ConvertCsv.

Section ModelOutput.
Context {T : Type} `{Arith T}.
Local Open Scope num_scope.

(** The six data values of a cleaned line, in the order of [subset]. *)
Definition labels (o : row) : list T :=
  [No_label o; N15 o; _5C13 o; _5C13N15 o; _10C13 o; _10C13N15 o].

(** The optional columns of [analyse_rawfiles] for [nad_protein] and for
    [nad_conc]: [(no_label_percent * k / 100, sum_labelled_percent * k /
    100)], present when [k] is given and not zero ([if k:]). *)
Definition scaled_columns (k : option T) (o : out_row)
  : option (T * T) :=
  match k with
  | None => None
  | Some k =>
      if k =? lit 0 then None
      else Some (no_label_percent o * k / lit 100,
                 sum_labelled_percent o * k / lit 100)
  end.

(** A line of a simulation output file: the columns [Time],
    [Values[NAD_labelled_sum]] and [[NAD]]. *)
Record model_row : Type := {
  Time : T;
  Values_NAD_labelled_sum : T;
  NAD : T
}.

(** A line of the frame that [read_model_output] returns. *)
Record model_out : Type := {
  mo_Time_in_hours : T;                       (* the index *)
  mo_Time_in_minutes : T;
  mo_sum_labelled : T;
  mo_No_label : T;
  mo_no_label_percent : T;
  mo_sum_labelled_percent : T;
  mo_Exp : string
}.

Section Files.
Variable read_csv : string -> list model_row.
Variable basename_splitext : string -> string.

(** The body of [for file in files]: the shifted time, the lines at or
    after time 0, then the two percent columns. *)
Definition read_one (start_time : T) (file : string) : list model_out :=
  let name := basename_splitext file in
  let df := map (fun r => (Time r - start_time, r)) (read_csv file) in
  let df := map (fun tr => (fst tr / lit 60, tr)) df in
  let df := filter (fun htr => lit 0 <=? fst htr) df in
  map (fun htr =>
         let '(hours, (minutes, r)) := htr in
         let total := NAD r + Values_NAD_labelled_sum r in
         {| mo_Time_in_hours := hours;
            mo_Time_in_minutes := minutes;
            mo_sum_labelled := Values_NAD_labelled_sum r;
            mo_No_label := NAD r;
            mo_no_label_percent := NAD r / total * lit 100;
            mo_sum_labelled_percent :=
              Values_NAD_labelled_sum r / total * lit 100;
            mo_Exp := name |}) df.

(** [files] is one path or a list of paths. *)
Definition read_model_output (files : string + list string) (start_time : T)
  : result (list model_out) :=
  let files := match files with
               | inl file => [file]
               | inr files => files
               end in
  pd_concat (map (read_one start_time) files).

End Files.
End ModelOutput.
End ModelOutput.

(** ** Python str and list primitives used on labels *)

(** [s.split(sep)] for a one-character separator: never empty. *)
Fixpoint py_split (sep : ascii) (s : string) : list string :=
  match s with
  | EmptyString => [EmptyString]
  | String c s' =>
      if Ascii.eqb c sep then EmptyString :: py_split sep s'
      else
        match py_split sep s' with
        | [] => [String c EmptyString]
        | w :: ws => String c w :: ws
        end
  end.

(** [sep.join(l)]. *)
Definition py_join (sep : ascii) (l : list string) : string :=
  String.concat (String sep EmptyString) l.

(** [l[-1]]. *)
Fixpoint py_last {A} (l : list A) : result A :=
  match l with
  | [] => Raise IndexError
  | [x] => Ok x
  | _ :: l' => py_last l'
  end.

(** [l.index(x)] on a list of str: [ValueError] when [x] is absent. *)
Fixpoint py_index (x : string) (l : list string) : result nat :=
  match l with
  | [] => Raise ValueError
  | y :: l' =>
      if String.eqb y x then Ok 0%nat
      else match py_index x l' with
           | Ok i => Ok (S i)
           | Raise e => Raise e
           end
  end.

(** [s[:-1]]. *)
Fixpoint drop_last (s : string) : string :=
  match s with
  | EmptyString => EmptyString
  | String c EmptyString => EmptyString
  | String c s' => String c (drop_last s')
  end.

(** [c in s] for a character. *)
Fixpoint has_char (c : ascii) (s : string) : bool :=
  match s with
  | EmptyString => false
  | String c' s' => Ascii.eqb c' c || has_char c s'
  end.

(** [series.unique()]: the distinct values in the order in which they
    first appear. *)
Fixpoint unique (l : list string) : list string :=
  match l with
  | [] => []
  | x :: l' => x :: filter (fun y => negb (String.eqb y x)) (unique l')
  end.

(** ** turnover_calculation/new_utils.py, continued: labels, percentages
    and pools *)

Module Pools.
Import ConvertCsv FoldChanges NewUtils.

(** *** Sample labels *)

(** The lambda of [add_time_column]: the last word. *)
Definition time_of (sample : string) : result string :=
  py_last (py_split " " sample).

(** The lambda of [add_cell_type_column]: the words before the first
    word "Cell". *)
Definition cell_type_of (sample : string) : result string :=
  (let x := py_split " " sample in
   i <- py_index "Cell" x ;;
   Ok (py_join " " (firstn i x)))%py.

(** The lambda of [add_replicate_column]: what follows the last '#'. *)
Definition replicate_of (replicate : string) : result string :=
  py_last (py_split "#" replicate).

(** [df[column].str.split(separator, expand=True)] with the new column
    names: one column per part of the longest split, shorter lines padded
    with missing values; assigning a list of names of another length
    raises [ValueError]. *)
Definition split_column_into_multiple_columns (column : list string)
    (separator : ascii) (new_column_names : list string)
  : result (list (list (option string))) :=
  let parts := map (py_split separator) column in
  let width := fold_right Nat.max 0%nat (map (@List.length string) parts) in
  if Nat.eqb width (List.length new_column_names) then
    Ok (map (fun p => map Some p
                        ++ repeat None (width - List.length p)) parts)
  else Raise ValueError.

(** The branch [if 'Sample' in sample_identity.columns] of [read_data],
    on the column [Sample]: the three new columns [time], [cell type] and
    [replicate number], each computed for all lines before the next.  A
    missing replicate part is not a str, and indexing it raises
    [TypeError]. *)
Definition read_sample_labels (samples : list string)
  : result (list (string * string * string)) :=
  (df <- split_column_into_multiple_columns samples ","
           ["Sample"; "replicate"; "date"]%string ;;
   let sample row := match nth 0 row None with
                     | Some s => s
                     | None => EmptyString
                     end in
   times <- mapM (fun row => time_of (sample row)) df ;;
   cell_types <- mapM (fun row => cell_type_of (sample row)) df ;;
   replicates <- mapM (fun row => match nth 1 row None with
                                  | Some r => replicate_of r
                                  | None => Raise TypeError
                                  end) df ;;
   Ok (combine (combine times cell_types) replicates))%py.

(** [update_cell_type]: the dict of the cell line; for any other cell line
    the name [cell_type_dict] is unbound. *)
Definition cell_type_dict (cell_line : string)
  : option (list (string * string)) :=
  (if String.eqb cell_line "HeLa" then
     Some [("HeLa wt", "HeLa"); ("HeLa mP", "mP"); ("HeLa pP", "pP");
           ("HeLa cP", "cP"); ("HeLa erP", "erP")]
   else if String.eqb cell_line "U2OS" then
     Some [("U2OS wt", "U2OS"); ("U2OS mP", "mP"); ("U2OS pP", "pP");
           ("U2OS cP", "cP"); ("U2OS erP", "erP")]
   else if String.eqb cell_line "293" then
     Some [("CytoPARP", "cP"); ("mitoPARP", "mP"); ("pexPARP", "pP");
           ("ER_PARP", "erP"); ("293", "293")]
   else None)%string.

Fixpoint dict_get (d : list (string * string)) (k : string) : option string :=
  match d with
  | [] => None
  | (k', v) :: d' => if String.eqb k' k then Some v else dict_get d' k
  end.

(** The [cell type] column after [update_cell_type]: [series.map(dict)]
    turns a label that is not a key into NaN ([None]); a label that is
    already NaN stays NaN.  The outer [None] is the [UnboundLocalError] of
    an unknown cell line. *)
Definition update_cell_type (cell_types : list (option string))
    (cell_line : string) : option (list (option string)) :=
  match cell_type_dict cell_line with
  | None => None
  | Some d =>
      Some (map (fun c => match c with
                          | Some label => dict_get d label
                          | None => None
                          end) cell_types)
  end.

Definition get_filename_and_figtitle (cell_line cell growth_or_decay : string)
  : string * string :=
  (if String.eqb cell cell_line then
     (cell_line ++ " wt",
      growth_or_decay ++ "_estimation_" ++ cell_line ++ "_wt.svg")
   else
     let figtitle_prefix :=
       if contains cell_line cell then cell else cell_line ++ " " ++ cell in
     (figtitle_prefix,
      growth_or_decay ++ "_estimation_" ++ cell_line ++ "_" ++ cell
        ++ ".svg"))%string.

Section Percent.
Context {T : Type} `{Arith T}.
Local Open Scope num_scope.

(** The text of a column name before its first '_'. *)
Definition column_prefix (name : string) : string :=
  hd EmptyString (py_split "_" name).

(** [[i for i in df.columns if i.split('_')[0] == met]], with the values
    of one line. *)
Definition met_columns (met : string) (r : frame_row (T:=T))
  : frame_row (T:=T) :=
  filter (fun c => String.eqb (column_prefix (fst c)) met) r.

(** [.sum(axis=1)] on one line. *)
Definition row_sum (values : list T) : T := fold_left add values (lit 0).

(** [x * 100] on a quotient that need not be finite. *)
Definition times_100 (x : extended (T:=T)) : extended (T:=T) :=
  match x with
  | Finite x => Finite (x * lit 100)
  | other => other
  end.

(** [.replace(np.nan, 0.0)]. *)
Definition replace_nan (x : extended (T:=T)) : extended (T:=T) :=
  match x with
  | NaN => Finite (lit 0)
  | other => other
  end.

(** [_df.div(_df.sum(axis=1), axis=0).mul(100, axis=0)] followed by the
    replacement of NaN, on the selected columns of one line. *)
Definition percent_block (cols : frame_row (T:=T))
  : list (string * extended (T:=T)) :=
  let total := row_sum (map snd cols) in
  map (fun c => (fst c, replace_nan (times_100 (np_divide (snd c) total))))
    cols.

(** The frame keeps its lines as soon as there is one metabolite; with
    none the result is the empty frame. *)
Definition transform_percent (df : list (frame_row (T:=T)))
    (list_of_mets : list string)
  : list (list (string * extended (T:=T))) :=
  match list_of_mets with
  | [] => []
  | _ =>
      map (fun r =>
             flat_map (fun met => percent_block (met_columns met r))
               list_of_mets) df
  end.

(** [df[df.columns.intersection(columns)]] joined with the columns of the
    metabolite. *)
Definition get_specific_columns (met : string) (columns : list string)
    (r : frame_row (T:=T)) : frame_row (T:=T) :=
  filter (fun c => existsb (String.eqb (fst c)) columns) r
    ++ met_columns met r.

(** [df[names]]: for each name, every column that carries it. *)
Definition select (names : list string) (r : frame_row (T:=T))
  : frame_row (T:=T) :=
  flat_map (fun n => filter (fun c => String.eqb (fst c) n) r) names.

(** [.max().max()]: [None] stands for the NaN of a frame without values. *)
Fixpoint max_of (values : list T) : option T :=
  match values with
  | [] => None
  | v :: values' =>
      match max_of values' with
      | None => Some v
      | Some m => Some (if m <? v then v else m)
      end
  end.

(** The column names of a frame are those of its lines; a frame without
    lines is returned as it is. *)
Definition remove_low_values (df_raw1 : list (frame_row (T:=T)))
    (met : string) (threshold : T) (columns : list string)
  : list (frame_row (T:=T)) :=
  let df_raw_nad := map (get_specific_columns met columns) df_raw1 in
  match df_raw_nad with
  | [] => []
  | first :: _ =>
      let list_of_mets :=
        filter (fun i => String.eqb (column_prefix i) met) (map fst first) in
      let values r := map snd (select list_of_mets r) in
      match max_of (flat_map values df_raw_nad) with
      | None => []
      | Some max_value =>
          filter (fun r => threshold * max_value <? row_sum (values r))
            df_raw_nad
      end
  end.

(** *** Pool correction *)

(** A line of the percentage frame: the cell type, the column [sum
    labelled] and the column of the metabolite. *)
Record percent_row : Type := {
  pr_cell_type : string;
  pr_sum_labelled : T;
  pr_met : T
}.

Record pool_row : Type := {
  pool_source : percent_row;
  pool_corr : T;
  pool_corr_sd : T;
  pool_corr_unlabelled : T;
  pool_corr_unlabelled_sd : T
}.

(** [nad_conc[nad_conc.index == cell][column].iloc[0]]; here [nad_conc]
    carries its index as [conc_cell_type]. *)
Definition conc_of (nad_conc : list (conc_row (T:=T))) (cell : string)
  : result (conc_row (T:=T)) :=
  iloc0 (filter (fun c => String.eqb (conc_cell_type c) cell) nad_conc).

(** [try: ... except IndexError: ...]: the entry of the cell, or else the
    entry "wt"; an [IndexError] in the handler is not caught. *)
Definition pool_entry (nad_conc : list (conc_row (T:=T))) (cell : string)
  : result (conc_row (T:=T)) :=
  match conc_of nad_conc cell with
  | Ok c => Ok c
  | Raise IndexError => conc_of nad_conc "wt"
  | Raise e => Raise e
  end.

Definition get_pool_corrected (iso_corr_percent : list percent_row)
    (nad_conc : list (conc_row (T:=T))) : result (list pool_row) :=
  (groups <-
     mapM (fun cell =>
             let _df := filter (fun r => String.eqb (pr_cell_type r) cell)
                          iso_corr_percent in
             c <- pool_entry nad_conc cell ;;
             Ok (map (fun r =>
                        {| pool_source := r;
                           pool_corr := pr_sum_labelled r * (mean c / lit 100);
                           pool_corr_sd := pr_sum_labelled r * (sd c / lit 100);
                           pool_corr_unlabelled := pr_met r * (mean c / lit 100);
                           pool_corr_unlabelled_sd :=
                             pr_met r * (sd c / lit 100) |}) _df))
       (unique (map pr_cell_type iso_corr_percent)) ;;
   Ok (List.concat groups))%py.

(** *** The loop of estimate_turnover *)

(** The lookups of [get_turnover], by name: the half-life of a cell, the
    name under which its pool is listed, its pool size, and the cell type
    whose lines are written. *)
Definition half_life_of (dpars : list (dpars_row (T:=T))) (cell : string)
  : result T :=
  iloc0 (map dp_half_life
           (filter (fun r => String.eqb (cell_type r) cell) dpars)).

Definition pool_name (cell cell_line : string) : string :=
  if String.eqb cell cell_line then "wt"%string else cell.

Definition pool_of (nad_conc : list (conc_row (T:=T)))
    (cell cell_line : string) : result T :=
  iloc0 (map mean
           (filter (fun r => String.eqb (conc_cell_type r)
                               (pool_name cell cell_line)) nad_conc)).

Definition written_cell (cell cell_line : string) : string :=
  if String.eqb (pool_name cell cell_line) "wt" then cell_line
  else pool_name cell cell_line.

Fixpoint get_turnover_loop (dpars : list (dpars_row (T:=T)))
    (nad_conc : list (conc_row (T:=T))) (cells : list string)
    (cell_line : string) (growth_correction : bool)
  : result (list (dpars_row (T:=T))) :=
  match cells with
  | [] => Ok dpars
  | cell :: cells' =>
      match get_turnover dpars nad_conc cell cell_line growth_correction with
      | Raise e => Raise e
      | Ok dpars' =>
          get_turnover_loop dpars' nad_conc cells' cell_line growth_correction
      end
  end.

(** [for cell in dpars['cell type'].unique(): dpars = get_turnover(...)]. *)
Definition estimate_turnover_loop (dpars : list (dpars_row (T:=T)))
    (nad_conc : list (conc_row (T:=T))) (cell_line : string)
    (growth_correction : bool) : result (list (dpars_row (T:=T))) :=
  get_turnover_loop dpars nad_conc (unique (map cell_type dpars)) cell_line
    growth_correction.

End Percent.
End Pools.

(** ** python_scripts/convert_csv.py, continued: [analyse_metabolites] *)

Module Metabolites.
Import ConvertCsv FoldChanges.

Section Metabolites.
Context {T : Type} `{Arith T}.
Local Open Scope num_scope.

(** A cell of the frame: a float64 number (NaN is also the missing value
    of pandas) or a str. *)
Inductive cell : Type :=
| Val (x : extended (T:=T))
| Str (s : string).

(** A frame, column by column: the columns that [set_index] has moved
    into the index, and the data columns in their order.  Every column has
    one entry per line, and the names of the data columns are taken to be
    distinct, as [pd.read_csv] and [pd.read_excel] deliver them. *)
Record frame : Type := {
  index : list (string * list cell);
  columns : list (string * list cell)
}.

(** float64 addition and division where an operand need not be finite
    (a zero divisor is taken to be [+0.0], as in [np_divide]). *)
Definition ext_add (x y : extended (T:=T)) : extended (T:=T) :=
  match x, y with
  | NaN, _ | _, NaN => NaN
  | Finite a, Finite b => Finite (a + b)
  | PosInf, NegInf | NegInf, PosInf => NaN
  | PosInf, _ | _, PosInf => PosInf
  | NegInf, _ | _, NegInf => NegInf
  end.

Definition ext_div (x y : extended (T:=T)) : extended (T:=T) :=
  match x, y with
  | NaN, _ | _, NaN => NaN
  | Finite a, Finite b => np_divide a b
  | Finite _, _ => Finite (lit 0)
  | PosInf, Finite b => if b <? lit 0 then NegInf else PosInf
  | NegInf, Finite b => if b <? lit 0 then PosInf else NegInf
  | _, _ => NaN
  end.

(** [100 - x]. *)
Definition hundred_minus (x : extended (T:=T)) : extended (T:=T) :=
  match x with
  | Finite a => Finite (lit 100 - a)
  | PosInf => NegInf
  | NegInf => PosInf
  | NaN => NaN
  end.

(** [df[k]]: [KeyError] when there is no such column. *)
Fixpoint getcolumn (k : string) (cols : list (string * list cell))
  : result (list cell) :=
  match cols with
  | [] => Raise KeyError
  | (k', c) :: cols' => if String.eqb k' k then Ok c else getcolumn k cols'
  end.

(** [df[k] = c]: overwrite the column in place or append it. *)
Fixpoint setcolumn (k : string) (c : list cell)
    (cols : list (string * list cell)) : list (string * list cell) :=
  match cols with
  | [] => [(k, c)]
  | (k', c') :: cols' =>
      if String.eqb k' k then (k, c) :: cols'
      else (k', c') :: setcolumn k c cols'
  end.

Definition has_column (k : string) (cols : list (string * list cell)) : bool :=
  existsb (fun c => String.eqb (fst c) k) cols.

Definition rename_columns (mapping : list (string * string)) (df : frame)
  : frame :=
  {| index := index df;
     columns := map (fun c => (renamed mapping (fst c), snd c)) (columns df) |}.

(** *** The in-place clean-up *)

Definition notna (c : cell) : bool :=
  match c with
  | Val NaN => false
  | _ => true
  end.

(** The lines without a missing value, as a mask over the lines. *)
Fixpoint mask_and (mask : list bool) (column : list cell) : list bool :=
  match mask, column with
  | b :: mask', c :: column' => (b && notna c) :: mask_and mask' column'
  | _, _ => []
  end.

Fixpoint select_lines {A} (mask : list bool) (column : list A) : list A :=
  match mask, column with
  | b :: mask', c :: column' =>
      if b then c :: select_lines mask' column'
      else select_lines mask' column'
  | _, _ => []
  end.

Definition nlines (df : frame) : nat :=
  match columns df with
  | [] => 0
  | c :: _ => List.length (snd c)
  end.

(** [df.dropna(axis="index", how="any")]. *)
Definition dropna (df : frame) : frame :=
  let mask :=
    fold_left mask_and (map snd (columns df)) (repeat true (nlines df)) in
  {| index := map (fun c => (fst c, select_lines mask (snd c))) (index df);
     columns :=
       map (fun c => (fst c, select_lines mask (snd c))) (columns df) |}.

(** [df.drop(columns=labels)]: [KeyError] when a label is not a column. *)
Definition drop_columns (labels : list string) (df : frame) : result frame :=
  if forallb (fun k => has_column k (columns df)) labels then
    Ok {| index := index df;
          columns :=
            filter (fun c => negb (existsb (String.eqb (fst c)) labels))
              (columns df) |}
  else Raise KeyError.

(** [df.replace(293, "293")]: every number equal to 293, in whatever
    column it stands, becomes the str "293". *)
Definition replace_293 (c : cell) : cell :=
  match c with
  | Val (Finite x) => if x =? lit 293 then Str "293" else c
  | _ => c
  end.

(** [df.set_index(keys)]: [KeyError] when a key is not a column; the key
    columns leave the data columns. *)
Definition set_index (keys : list string) (df : frame) : result frame :=
  (idx <- mapM (fun k => c <- getcolumn k (columns df) ;; Ok (k, c)) keys ;;
   Ok {| index := idx;
         columns :=
           filter (fun c => negb (existsb (String.eqb (fst c)) keys))
             (columns df) |})%py.

Definition clean_up (df : frame) : result frame :=
  (let df := dropna df in
   let df := rename_columns [("Hours", "Time in hours")]%string df in
   df <- drop_columns ["Timepoint"; "Replicate"]%string df ;;
   let df :=
     {| index := index df;
        columns := map (fun c => (fst c, map replace_293 (snd c)))
                     (columns df) |} in
   set_index ["Cell line"; "Time in hours"]%string df)%py.

(** *** The loop over the metabolites *)

(** One entry of [df[unlabelled] / (df[unlabelled] + df[labelled]) * 100].
    A str in either column stops the expression with [TypeError]: at the
    sum (a number and a str) or, for two strs, which [+] concatenates, at
    the division. *)
Definition cell_percent (ul : cell * cell) : result cell :=
  match ul with
  | (Val u, Val l) => Ok (Val (Pools.times_100 (ext_div u (ext_add u l))))
  | _ => Raise TypeError
  end.

(** One entry of [100 - df[unlabelled_per]]. *)
Definition cell_hundred_minus (c : cell) : result cell :=
  match c with
  | Val x => Ok (Val (hundred_minus x))
  | Str _ => Raise TypeError
  end.

Section Loop.
(** [calc_isotopologue_correction] of the package [isotope_correction],
    taken as given. *)
Variable correction : string -> list string -> frame -> result frame.

(** The body of [for metabolite in metabolites].  ([label_used] is the
    text that the f-strings insert, "5" by default.) *)
Definition analyse_metabolite (label_used : string)
    (isotopologue_correction : bool) (df : frame) (metabolite : string)
  : result frame :=
  (let unlabelled := (metabolite ++ ":No label")%string in
   let labelled := (metabolite ++ ":" ++ label_used ++ "C13")%string in
   let df :=
     rename_columns [(metabolite, unlabelled);
                     ((metabolite ++ "+" ++ label_used)%string, labelled)]
       df in
   df <- (if isotopologue_correction
          then correction metabolite [unlabelled; labelled] df
          else Ok df) ;;
   let unlabelled_per := (unlabelled ++ "_percent")%string in
   let labelled_per := (labelled ++ "_percent")%string in
   u <- getcolumn unlabelled (columns df) ;;
   l <- getcolumn labelled (columns df) ;;
   per <- mapM cell_percent (combine u l) ;;
   let df := {| index := index df;
                columns := setcolumn unlabelled_per per (columns df) |} in
   per <- getcolumn unlabelled_per (columns df) ;;
   rest <- mapM cell_hundred_minus per ;;
   Ok {| index := index df;
         columns := setcolumn labelled_per rest (columns df) |})%py.

Fixpoint analyse_loop (label_used : string) (isotopologue_correction : bool)
    (df : frame) (metabolites : list string) : result frame :=
  match metabolites with
  | [] => Ok df
  | m :: ms =>
      (df <- analyse_metabolite label_used isotopologue_correction df m ;;
       analyse_loop label_used isotopologue_correction df ms)%py
  end.

Definition analyse_metabolites (df : frame) (metabolites : list string)
    (label_used : string) (isotopologue_correction : bool) : result frame :=
  (df <- clean_up df ;;
   analyse_loop label_used isotopologue_correction df metabolites)%py.

End Loop.
End Metabolites.
End Metabolites.

(** ** Further concrete inputs *)

(** ** proteomics_analyses/calculate_fold_changes_p001.py, continued: the
    gene names *)

Module GeneNames.

Definition tab : ascii := "009"%char.
Definition newline : ascii := "010"%char.

(** The body of the loop over the lines of [gene_names.txt]:
    [x = line.split('\t'); gene_translation[x[0]] = x[1][:-1]].  The dict
    is kept as the list of its assignments, the latest first. *)
Definition gene_line (gene_translation : list (string * string))
    (line : string) : result (list (string * string)) :=
  match py_split tab line with
  | x0 :: x1 :: _ => Ok ((x0, drop_last x1) :: gene_translation)
  | _ => Raise IndexError
  end.

Fixpoint read_gene_names (gene_translation : list (string * string))
    (lines : list string) : result (list (string * string)) :=
  match lines with
  | [] => Ok gene_translation
  | line :: lines' =>
      (d <- gene_line gene_translation line ;;
       read_gene_names d lines')%py
  end.

(** [gene_translation[x]] inside [try ... except KeyError: pass]: a
    protein without a name keeps NaN. *)
Definition gene_name (gene_translation : list (string * string))
    (x : string) : option string :=
  Pools.dict_get gene_translation x.

(** A line of the file as it is meant to be written. *)
Definition line_of (entry : string * string) : string :=
  (fst entry ++ String tab (snd entry ++ String newline EmptyString))%string.

End GeneNames.

(** ** python_scripts/plot_function.py: [calc_nad_mean] *)

Module PlotFunction.
Section NadMean.
Context {T : Type} `{Arith T}.
Local Open Scope num_scope.

(** [if x:] on a float or [None]. *)
Definition truthy (x : option T) : option T :=
  match x with
  | Some v => if v =? lit 0 then None else Some v
  | None => None
  end.

(** [groups] holds, for every time in increasing order, the mean and the
    standard deviation of [sum_labelled_percent] that
    [df.groupby("Time in hours")] gives. *)
Definition calc_nad_mean (groups : list (T * T))
    (nad_measured_mean nad_measured_std : option T)
  : result (list T * list T) :=
  let ms_mean := map (fun g => fst g / lit 100) groups in
  let ms_std := map (fun g => snd g / lit 100) groups in
  match truthy nad_measured_mean with
  | Some m =>
      let nad_mean := map (fun mu => m * mu) ms_mean in
      match truthy nad_measured_std with
      | Some s =>
          (q <- py_square (s / m) ;;
           Ok (nad_mean,
               map (fun e => fst e * sqrt (q + sqr (snd (snd e) / fst (snd e))))
                 (combine nad_mean (combine ms_mean ms_std))))%py
      | None =>
          Ok (nad_mean,
              map (fun e => fst e * snd e) (combine nad_mean ms_std))
      end
  | None =>
      Ok (map (fun mu => mu * lit 100) ms_mean,
          map (fun sd => sd * lit 100) ms_std)
  end.

End NadMean.
End PlotFunction.

Module MoreExamples.
Import ConvertCsv.

(** A measurement with a missing unlabelled value and zeros elsewhere. *)
Definition na_and_zeros {T} `{Arith T} : raw_row (T:=T) :=
  {| raw_Time_in_minutes := Some (lit 0);
     raw_Experiment := "exp";
     raw_No_label := None;
     raw_N15 := Some (lit 0);
     raw_5C13 := Some (lit 0);
     raw_5C13N15 := Some (lit 0);
     raw_10C13 := Some (lit 0);
     raw_10C13N15 := Some (lit 0) |}.

(** Two lines of raw intensities: a measurement and an empty one. *)
Definition raw_nad {T} `{Arith T} : list (frame_row (T:=T)) :=
  [ [("time", lit 0); ("NAD", lit 5); ("NAD_N15", lit 1); ("ATP", lit 7)];
    [("time", lit 1); ("NAD", lit 0); ("NAD_N15", lit 0); ("ATP", lit 7)]
  ]%string.

(** A parameter table in which one line is called "wt". *)
Definition dpars_with_wt {T} `{Arith T} : list (NewUtils.dpars_row (T:=T)) :=
  [ {| NewUtils.cell_type := "HeLa";
       NewUtils.dp_half_life := lit 4;
       NewUtils.dp_half_life_error := lit 1;
       NewUtils.growth_rate := lit 1;
       NewUtils.growth_rate_standard_error := lit 1;
       NewUtils.poolsize := None;
       NewUtils.poolsize_sd := None;
       NewUtils.turnover := None;
       NewUtils.turnover_error := None |};
    {| NewUtils.cell_type := "wt";
       NewUtils.dp_half_life := lit 2;
       NewUtils.dp_half_life_error := lit 1;
       NewUtils.growth_rate := lit 1;
       NewUtils.growth_rate_standard_error := lit 1;
       NewUtils.poolsize := None;
       NewUtils.poolsize_sd := None;
       NewUtils.turnover := None;
       NewUtils.turnover_error := None |} ]%string.

(** Percentages of three measurements; "pP" has no pool of its own. *)
Definition percentages {T} `{Arith T} : list (Pools.percent_row (T:=T)) :=
  [ {| Pools.pr_cell_type := "mP";
       Pools.pr_sum_labelled := lit 25; Pools.pr_met := lit 75 |};
    {| Pools.pr_cell_type := "pP";
       Pools.pr_sum_labelled := lit 50; Pools.pr_met := lit 50 |};
    {| Pools.pr_cell_type := "mP";
       Pools.pr_sum_labelled := lit 100; Pools.pr_met := lit 0 |} ]%string.

(** The parts of a sample label as the experiment sheets write it:
    [cell type Cell time,text#number,date]. *)
Record label_parts : Type := {
  lp_cell_type : string;
  lp_time : string;
  lp_text : string;
  lp_number : string;
  lp_date : string
}.

Definition label_of (p : label_parts) : string :=
  ((lp_cell_type p ++ " Cell " ++ lp_time p) ++ ","
     ++ (lp_text p ++ "#" ++ lp_number p) ++ "," ++ lp_date p)%string.

Definition hela_4h : label_parts :=
  {| lp_cell_type := "HeLa wt"; lp_time := "4h"; lp_text := " replicate ";
     lp_number := "2"; lp_date := " 2021-03-01" |}.

(** A raw frame for [analyse_metabolites]: one line of the cell line
    HeLa with the two measurements of ATP. *)
Definition atp_frame {T} `{Arith T} (atp atp_5 : T)
  : Metabolites.frame (T:=T) :=
  {| Metabolites.index := [];
     Metabolites.columns :=
       [("Cell line", [Metabolites.Str "HeLa"]);
        ("Hours", [Metabolites.Val (FoldChanges.Finite (lit 0))]);
        ("Timepoint", [Metabolites.Val (FoldChanges.Finite (lit 1))]);
        ("Replicate", [Metabolites.Val (FoldChanges.Finite (lit 1))]);
        ("ATP", [Metabolites.Val (FoldChanges.Finite atp)]);
        ("ATP+5", [Metabolites.Val (FoldChanges.Finite atp_5)])]%string |}.

End MoreExamples.

(** ** Proof automation *)

(** Turn an order statement between rationals into one between integers. *)
Ltac to_Z_order :=
  unfold Qle, Qminus, Qplus, Qopp, inject_Z; cbn [Qnum Qden].

(** Close a goal that is a conjunction of facts at hand, possibly under
    existential quantifiers. *)
Ltac leaf :=
  solve [eassumption
        | repeat first [split | eexists];
          first [eassumption | reflexivity | discriminate]].

(** Prove a disjunction by its first disjunct that [leaf] closes. *)
Ltac some_disjunct :=
  repeat match goal with
         | H : exists _, _ |- _ => destruct H
         end;
  repeat match goal with
         | |- _ \/ _ => first [left; leaf | right]
         end;
  leaf.

(** * Properties *)

(** ** pretty_print_time *)

(** The two copies of [pretty_print_time] are the same function. *)
Lemma pretty_print_time_same :
  NewUtils.pretty_print_time = HalfLifeEstimation.pretty_print_time.
Proof. reflexivity. Qed.

(** The shape of the output, in terms of the truncated hours [w] and the
    rounded minutes [m]. *)
Lemma pretty_print_time_format (t : float) (w m : Z) :
  py_int (snd (math_modf t)) = Ok w ->
  py_round (PrimFloat.mul (fst (math_modf t)) (float_of_int 60)) = Ok m ->
  HalfLifeEstimation.pretty_print_time t =
    if (w =? 0)%Z then Ok (py_str m ++ "min")%string
    else if (w <? 24)%Z then Ok (py_str w ++ "h " ++ py_str m ++ "min")%string
    else (q <- int_truediv w 24 ;;
          days <- py_int q ;;
          Ok (py_str days ++ "d " ++ py_str (w mod 24) ++ "h "
                ++ py_str m ++ "min")%string)%py.
Proof.
  intros Hw Hm. unfold HalfLifeEstimation.pretty_print_time.
  destruct (math_modf t) as [frac whole]. cbn [fst snd] in Hw, Hm.
  rewrite Hw. cbn [bind]. rewrite Hm. cbn [bind]. reflexivity.
Qed.

Lemma pretty_print_time_0_999 :
  HalfLifeEstimation.pretty_print_time 0.999%float = Ok "60min"%string.
Proof. vm_compute. reflexivity. Qed.

Lemma pretty_print_time_24 :
  HalfLifeEstimation.pretty_print_time 24.0%float = Ok "1d 0h 0min"%string.
Proof. vm_compute. reflexivity. Qed.

(** [int] is the floor on non-negative numbers. *)
Lemma py_int_floor (x : float) (v : Q) :
  float_value x = Some v -> (0 <= v)%Q -> py_int x = Ok (Qfloor v).
Proof.
  unfold float_value, py_int.
  destruct (Prim2SF x) as [s|s| |s m e]; try discriminate.
  - intros [= <-] _. reflexivity.
  - intros [= <-] Hv. destruct s.
    + exfalso. destruct e as [|p|p]; unfold Qle in Hv.
      * cbn in Hv. lia.
      * assert (0 < 2 ^ Zpos p)%Z by (apply Z.pow_pos_nonneg; lia).
        unfold inject_Z in Hv. cbn [Qnum Qden] in Hv. nia.
      * cbn in Hv. lia.
    + f_equal. destruct e as [|p|p].
      * cbn. now rewrite Z.div_1_r.
      * rewrite Qfloor_Z, Z.shiftl_mul_pow2 by lia. reflexivity.
      * cbn [Qfloor]. change (Zneg p) with (- Zpos p)%Z.
        rewrite Z.shiftl_opp_r, Z.shiftr_div_pow2 by lia.
        now rewrite Pos2Z.inj_pow.
Qed.

(** [round] returns an integer at distance at most 1/2. *)
Lemma py_round_nearest (x : float) (v : Q) :
  float_value x = Some v ->
  exists q, py_round x = Ok q /\ (Qabs (v - inject_Z q) <= 1 # 2)%Q.
Proof.
  unfold float_value, py_round.
  destruct (Prim2SF x) as [s|s| |s m e]; try discriminate.
  - intros [= <-]. exists 0%Z. split; [reflexivity|]. discriminate.
  - intros [= <-]. eexists. split; [reflexivity|].
    apply Qabs_Qle_condition.
    destruct e as [|p|p].
    + cbn [Z.leb Z.compare]. cbn match. rewrite Z.shiftl_0_r.
      destruct s; to_Z_order; change (Zneg m) with (- Zpos m)%Z; split; lia.
    + replace (0 <=? Zpos p)%Z with true by reflexivity.
      rewrite Z.shiftl_mul_pow2 by lia.
      assert (0 < 2 ^ Zpos p)%Z by (apply Z.pow_pos_nonneg; lia).
      destruct s; to_Z_order; change (Zneg m) with (- Zpos m)%Z; nia.
    + replace (0 <=? Zneg p)%Z with false by reflexivity.
      change (- Zneg p)%Z with (Zpos p).
      set (d := (2 ^ Zpos p)%Z).
      assert (Hd : (0 < d)%Z) by (apply Z.pow_pos_nonneg; lia).
      assert (Ed : Zpos (2 ^ p) = d) by (unfold d; now rewrite Pos2Z.inj_pow).
      pose proof (Z.div_mod (Zpos m) d ltac:(lia)) as Hdm.
      pose proof (Z.mod_pos_bound (Zpos m) d Hd) as Hr.
      set (q0 := (Zpos m / d)%Z) in *. set (r := (Zpos m mod d)%Z) in *.
      assert (Hcases :
        forall q, (2 * Z.abs (Zpos m - q * d) <= d)%Z ->
          ((- (1 # 2) <= ((if s then Zneg m else Zpos m) # (2 ^ p))
                 - inject_Z (if s then (- q)%Z else q))%Q /\
           (((if s then Zneg m else Zpos m) # (2 ^ p))
                 - inject_Z (if s then (- q)%Z else q) <= 1 # 2)%Q)).
      { intros q Hq.
        destruct s; to_Z_order; rewrite ?Pos2Z.inj_mul, ?Ed;
          change (Zneg m) with (- Zpos m)%Z; split; nia. }
      apply Hcases.
      destruct (Z.compare_spec (2 * r) d).
      * destruct (Z.even q0); nia.
      * nia.
      * nia.
Qed.

(** C4, as stated, fails: 0.999 h is 59.94 min, which [round] takes to 60,
    so the output is "60min" and not "59min". *)
Lemma pretty_print_time_0_999_not_59min :
  HalfLifeEstimation.pretty_print_time 0.999%float <> Ok "59min"%string /\
  NewUtils.pretty_print_time 0.999%float <> Ok "59min"%string.
Proof.
  rewrite pretty_print_time_same, pretty_print_time_0_999.
  split; discriminate.
Qed.

(** C4 (amended): [pretty_print_time] prints the whole hours [w] (the
    floor of the integral part of a non-negative time, split into days and
    hours from 24 h on) and the minutes [m] (the integer nearest to the
    fractional part times 60, not carried into the hours), in the form
    "Zmin", "Yh Zmin" or "Xd Yh Zmin"; in particular 0.999 h gives
    "60min" and 24.0 h gives "1d 0h 0min". *)
Theorem pretty_print_time_truncates_and_rounds (t : float) (w m : Z) :
  py_int (snd (math_modf t)) = Ok w ->
  py_round (PrimFloat.mul (fst (math_modf t)) (float_of_int 60)) = Ok m ->
  NewUtils.pretty_print_time t = HalfLifeEstimation.pretty_print_time t /\
  HalfLifeEstimation.pretty_print_time t =
    (if (w =? 0)%Z then Ok (py_str m ++ "min")%string
     else if (w <? 24)%Z then
       Ok (py_str w ++ "h " ++ py_str m ++ "min")%string
     else (q <- int_truediv w 24 ;;
           days <- py_int q ;;
           Ok (py_str days ++ "d " ++ py_str (w mod 24) ++ "h "
                 ++ py_str m ++ "min")%string)%py) /\
  (forall v, float_value (snd (math_modf t)) = Some v -> (0 <= v)%Q ->
             w = Qfloor v) /\
  (forall v, float_value (PrimFloat.mul (fst (math_modf t)) (float_of_int 60))
               = Some v ->
             (Qabs (v - inject_Z m) <= 1 # 2)%Q) /\
  HalfLifeEstimation.pretty_print_time 0.999%float = Ok "60min"%string /\
  HalfLifeEstimation.pretty_print_time 24.0%float = Ok "1d 0h 0min"%string.
Proof.
  intros Hw Hm. split; [now rewrite pretty_print_time_same|].
  split; [now apply pretty_print_time_format|].
  split; [|split].
  - intros v Hv Hpos. rewrite (py_int_floor _ _ Hv Hpos) in Hw.
    now injection Hw.
  - intros v Hv. destruct (py_round_nearest _ _ Hv) as (q & Eq & Hq).
    rewrite Eq in Hm. now injection Hm as <-.
  - split; [apply pretty_print_time_0_999 | apply pretty_print_time_24].
Qed.

Lemma pretty_print_time_truncates_and_rounds_witness :
  HalfLifeEstimation.pretty_print_time 49.75%float = Ok "2d 1h 45min"%string.
Proof.
  destruct (pretty_print_time_truncates_and_rounds 49.75%float 49 45)
    as (_ & H & _).
  - vm_compute. reflexivity.
  - vm_compute. reflexivity.
  - rewrite H. vm_compute. reflexivity.
Defined.

(** C10: when the minutes round to 60 they are printed as 60; the hours
    stay the truncated hours [w] and are not incremented. *)
Theorem pretty_print_time_no_carry (t : float) (w : Z) :
  py_int (snd (math_modf t)) = Ok w ->
  py_round (PrimFloat.mul (fst (math_modf t)) (float_of_int 60)) = Ok 60%Z ->
  NewUtils.pretty_print_time t = HalfLifeEstimation.pretty_print_time t /\
  (w = 0%Z ->
   HalfLifeEstimation.pretty_print_time t = Ok "60min"%string) /\
  (w <> 0%Z -> (w < 24)%Z ->
   HalfLifeEstimation.pretty_print_time t =
     Ok (py_str w ++ "h 60min")%string) /\
  ((24 <= w)%Z ->
   HalfLifeEstimation.pretty_print_time t =
     (q <- int_truediv w 24 ;;
      days <- py_int q ;;
      Ok (py_str days ++ "d " ++ py_str (w mod 24) ++ "h 60min")%string)%py).
Proof.
  intros Hw Hm. split; [now rewrite pretty_print_time_same|].
  rewrite (pretty_print_time_format t w 60 Hw Hm).
  repeat split.
  - intros ->. reflexivity.
  - intros Hne Hlt.
    destruct (Z.eqb_spec w 0) as [|_]; [contradiction|].
    destruct (Z.ltb_spec w 24) as [_|]; [reflexivity | lia].
  - intros Hge.
    destruct (Z.eqb_spec w 0) as [|_]; [lia|].
    destruct (Z.ltb_spec w 24) as [|_]; [lia | reflexivity].
Qed.

Lemma pretty_print_time_no_carry_witness :
  HalfLifeEstimation.pretty_print_time 0.999%float = Ok "60min"%string /\
  HalfLifeEstimation.pretty_print_time 23.9999%float = Ok "23h 60min"%string /\
  HalfLifeEstimation.pretty_print_time 47.9999%float
    = Ok "1d 23h 60min"%string.
Proof.
  split; [|split].
  - destruct (pretty_print_time_no_carry 0.999%float 0) as (_ & H & _).
    + vm_compute. reflexivity.
    + vm_compute. reflexivity.
    + apply H. reflexivity.
  - destruct (pretty_print_time_no_carry 23.9999%float 23) as (_ & _ & H & _).
    + vm_compute. reflexivity.
    + vm_compute. reflexivity.
    + rewrite H; [vm_compute; reflexivity | lia | lia].
  - destruct (pretty_print_time_no_carry 47.9999%float 47) as (_ & _ & _ & H).
    + vm_compute. reflexivity.
    + vm_compute. reflexivity.
    + rewrite H; [vm_compute; reflexivity | lia].
Defined.

(** ** The labelling percentages of convert_csv.py *)

Section PercentColumns.
Import ConvertCsv.
Local Open Scope R_scope.

(** In exact arithmetic the two percentages of a line add up to 100. *)
Lemma percent_columns_sum_R (show : bool) (name : string) (r : row (T:=R)) :
  let o := percent_columns show name r in
  out_No_label o + sum_labelled o <> 0 ->
  no_label_percent o + sum_labelled_percent o = 100.
Proof.
  cbn. intros Hne. field. exact Hne.
Qed.

Lemma getcol_setcol_same (k : string) (v : R) (r : frame_row (T:=R)) :
  getcol k (setcol k v r) = Ok v.
Proof.
  induction r as [|[k' v'] r IH]; cbn.
  - now rewrite String.eqb_refl.
  - destruct (String.eqb k' k) eqn:E; cbn.
    + now rewrite String.eqb_refl.
    + now rewrite E.
Qed.

Lemma getcol_setcol_other (k k' : string) (v : R) (r : frame_row (T:=R)) :
  k <> k' -> getcol k (setcol k' v r) = getcol k r.
Proof.
  intros Hne. induction r as [|[k0 v0] r IH]; cbn.
  - destruct (String.eqb_spec k' k) as [->|_]; [contradiction | reflexivity].
  - destruct (String.eqb_spec k0 k') as [->|Hk0]; cbn.
    + destruct (String.eqb_spec k' k) as [->|_]; [contradiction|].
      reflexivity.
    + destruct (String.eqb k0 k); [reflexivity | exact IH].
Qed.

Lemma append_cancel_l (p a b : string) :
  (p ++ a)%string = (p ++ b)%string -> a = b.
Proof.
  induction p as [|c p IH]; cbn; intros E; [exact E|].
  injection E as E. now apply IH.
Qed.

Lemma length_append (a b : string) :
  String.length (a ++ b) = (String.length a + String.length b)%nat.
Proof.
  induction a as [|c a IH]; cbn; [reflexivity | now rewrite IH].
Qed.

Lemma append_assoc (a b c : string) :
  ((a ++ b) ++ c)%string = (a ++ (b ++ c))%string.
Proof.
  induction a as [|x a IH]; cbn; [reflexivity | now rewrite IH].
Qed.

(** The two percent columns of a metabolite never share a name. *)
Lemma percent_names_differ (metabolite label_used : string) :
  ((metabolite ++ ":No label") ++ "_percent")%string <>
  ((metabolite ++ ":" ++ label_used ++ "C13") ++ "_percent")%string.
Proof.
  intros E. rewrite !append_assoc in E.
  apply append_cancel_l in E. cbn in E. injection E as E.
  assert (L := f_equal String.length E).
  rewrite length_append in L. cbn in L.
  destruct label_used as [|c1 [|c2 [|c3 [|c4 [|c5 [|c6 l]]]]]];
    cbn in L; try lia.
  cbn in E. discriminate E.
Qed.

Lemma mapM_In {A B} (f : A -> result B) (l : list A) (l' : list B) (y : B) :
  mapM f l = Ok l' -> In y l' -> exists x, In x l /\ f x = Ok y.
Proof.
  revert l'. induction l as [|a l IH]; cbn; intros l' E Hy.
  - injection E as <-. destruct Hy.
  - destruct (f a) as [b|e] eqn:Ea; [|discriminate].
    destruct (mapM f l) as [bs|e] eqn:El; [|discriminate].
    injection E as <-. destruct Hy as [<-|Hy].
    + exists a. split; [now left | exact Ea].
    + destruct (IH bs eq_refl Hy) as (x & Hx & Ex).
      exists x. split; [now right | exact Ex].
Qed.

Lemma mapM_Raise {A B} (f : A -> result B) (l : list A) (e : exn) :
  mapM f l = Raise e -> exists x, In x l /\ f x = Raise e.
Proof.
  induction l as [|a l IH]; cbn; intros E; [discriminate|].
  destruct (f a) as [b|e'] eqn:Ea.
  - destruct (mapM f l) as [bs|e''] eqn:El; [discriminate|].
    injection E as ->. destruct (IH eq_refl) as (x & Hx & Ex).
    exists x. split; [now right | exact Ex].
  - injection E as ->. exists a. split; [now left | exact Ea].
Qed.

Lemma Reqb_false (x y : R) : x <> y -> Reqb x y = false.
Proof.
  intros Hne. unfold Reqb. destruct (Req_dec_T x y); [contradiction|].
  reflexivity.
Qed.

Lemma mapM_nth_error {A B} (f : A -> result B) (l : list A) (l' : list B)
    (i : nat) (x : A) :
  mapM f l = Ok l' -> nth_error l i = Some x ->
  exists y, nth_error l' i = Some y /\ f x = Ok y.
Proof.
  revert l' i. induction l as [|a l IH]; intros l' i E Hx.
  - destruct i; discriminate.
  - cbn in E. destruct (f a) as [b|e] eqn:Ea; [|discriminate].
    destruct (mapM f l) as [bs|e] eqn:El; [|discriminate].
    injection E as <-. destruct i as [|i]; cbn in Hx |- *.
    + injection Hx as <-. now exists b.
    + exact (IH bs i eq_refl Hx).
Qed.

Lemma nth_error_combine {A B} (l : list A) (l' : list B) (i : nat)
    (a : A) (b : B) :
  nth_error l i = Some a -> nth_error l' i = Some b ->
  nth_error (combine l l') i = Some (a, b).
Proof.
  revert l' i. induction l as [|x l IH]; intros l' i Ha Hb.
  - destruct i; discriminate.
  - destruct l' as [|y l']; [destruct i; discriminate|].
    destruct i as [|i]; cbn in *.
    + now injection Ha as <-; injection Hb as <-.
    + now apply IH.
Qed.

Section MetaboliteColumns.
Import Metabolites FoldChanges.

Lemma getcolumn_setcolumn_same (k : string) (c : list (cell (T:=R)))
    (cols : list (string * list cell)) :
  getcolumn k (setcolumn k c cols) = Ok c.
Proof.
  induction cols as [|[k' c'] cols IH]; cbn.
  - now rewrite String.eqb_refl.
  - destruct (String.eqb k' k) eqn:E; cbn.
    + now rewrite String.eqb_refl.
    + now rewrite E.
Qed.

Lemma getcolumn_setcolumn_other (k k' : string) (c : list (cell (T:=R)))
    (cols : list (string * list cell)) :
  k <> k' -> getcolumn k (setcolumn k' c cols) = getcolumn k cols.
Proof.
  intros Hne. induction cols as [|[k0 c0] cols IH]; cbn.
  - destruct (String.eqb_spec k' k) as [->|_]; [contradiction | reflexivity].
  - destruct (String.eqb_spec k0 k') as [->|Hk0]; cbn.
    + destruct (String.eqb_spec k' k) as [->|_]; [contradiction|].
      reflexivity.
    + destruct (String.eqb k0 k); [reflexivity | exact IH].
Qed.

(** A column name is not the name of a percent column of the same
    metabolite. *)
Lemma not_own_percent (name : string) : name <> (name ++ "_percent")%string.
Proof.
  intros E. assert (L := f_equal String.length E).
  rewrite length_append in L. cbn in L. lia.
Qed.

Lemma unlabelled_not_labelled_percent (metabolite label_used : string) :
  (metabolite ++ ":No label")%string <>
  ((metabolite ++ ":" ++ label_used ++ "C13") ++ "_percent")%string.
Proof.
  intros E. rewrite !append_assoc in E.
  apply append_cancel_l in E. cbn in E. injection E as E.
  assert (L := f_equal String.length E).
  rewrite length_append in L. cbn in L. lia.
Qed.

Lemma labelled_not_unlabelled_percent (metabolite label_used : string) :
  (metabolite ++ ":" ++ label_used ++ "C13")%string <>
  ((metabolite ++ ":No label") ++ "_percent")%string.
Proof.
  intros E. rewrite !append_assoc in E.
  apply append_cancel_l in E. cbn in E. injection E as E.
  assert (L := f_equal String.length E).
  rewrite length_append in L. cbn in L.
  do 14 (destruct label_used as [|? label_used]; cbn in L; try lia).
  cbn in E. discriminate E.
Qed.

(** The entries of the two percent columns on a line with a non-zero
    total. *)
Lemma cell_percent_R (a b : R) :
  a + b <> 0 ->
  cell_percent (Val (Finite a), Val (Finite b))
  = Ok (Val (Finite (a / (a + b) * 100))).
Proof.
  intros Hne. unfold cell_percent, ext_add, ext_div, np_divide. cbn.
  now rewrite (Reqb_false (a + b) 0 Hne).
Qed.

(** What the last lines of the loop body leave in the four columns of a
    metabolite. *)
Lemma percent_step (unlabelled labelled : string)
    (cols : list (string * list (cell (T:=R)))) (u l per rest : list cell) :
  unlabelled <> (unlabelled ++ "_percent")%string ->
  unlabelled <> (labelled ++ "_percent")%string ->
  labelled <> (unlabelled ++ "_percent")%string ->
  labelled <> (labelled ++ "_percent")%string ->
  (unlabelled ++ "_percent")%string <> (labelled ++ "_percent")%string ->
  getcolumn unlabelled cols = Ok u ->
  getcolumn labelled cols = Ok l ->
  mapM cell_percent (combine u l) = Ok per ->
  mapM cell_hundred_minus per = Ok rest ->
  let cols' :=
    setcolumn (labelled ++ "_percent") rest
      (setcolumn (unlabelled ++ "_percent") per cols) in
  getcolumn unlabelled cols' = Ok u /\
  getcolumn labelled cols' = Ok l /\
  getcolumn (unlabelled ++ "_percent") cols' = Ok per /\
  getcolumn (labelled ++ "_percent") cols' = Ok rest /\
  forall i a b,
    nth_error u i = Some (Val (Finite a)) ->
    nth_error l i = Some (Val (Finite b)) ->
    a + b <> 0 ->
    nth_error per i = Some (Val (Finite (a / (a + b) * 100))) /\
    nth_error rest i = Some (Val (Finite (100 - a / (a + b) * 100))).
Proof.
  intros H1 H2 H3 H4 H5 Hu Hl Hper Hrest cols'. subst cols'.
  split; [|split; [|split; [|split]]].
  - now rewrite !getcolumn_setcolumn_other.
  - now rewrite !getcolumn_setcolumn_other.
  - rewrite getcolumn_setcolumn_other by exact H5.
    apply getcolumn_setcolumn_same.
  - apply getcolumn_setcolumn_same.
  - intros i a b Ha Hb Hne.
    destruct (mapM_nth_error _ _ _ i _ Hper
                (nth_error_combine _ _ _ _ _ Ha Hb)) as (y & Hy & Ey).
    rewrite (cell_percent_R a b Hne) in Ey. injection Ey as <-.
    split; [exact Hy|].
    destruct (mapM_nth_error _ _ _ i _ Hrest Hy) as (z & Hz & Ez).
    cbn in Ez. now injection Ez as <-.
Qed.

(** The property of one iteration, on the frame it returns. *)
Lemma analyse_metabolite_percent correction label_used iso
    (df : frame (T:=R)) metabolite df' :
  analyse_metabolite correction label_used iso df metabolite = Ok df' ->
  forall u l i a b,
    getcolumn (metabolite ++ ":No label") (columns df') = Ok u ->
    getcolumn (metabolite ++ ":" ++ label_used ++ "C13") (columns df')
      = Ok l ->
    nth_error u i = Some (Val (Finite a)) ->
    nth_error l i = Some (Val (Finite b)) ->
    a + b <> 0 ->
    exists per rest p q,
      getcolumn ((metabolite ++ ":No label") ++ "_percent") (columns df')
        = Ok per /\
      getcolumn ((metabolite ++ ":" ++ label_used ++ "C13") ++ "_percent")
        (columns df') = Ok rest /\
      nth_error per i = Some (Val (Finite p)) /\
      nth_error rest i = Some (Val (Finite q)) /\
      p = a / (a + b) * 100 /\
      p + q = 100.
Proof.
  unfold analyse_metabolite.
  set (unlabelled := (metabolite ++ ":No label")%string).
  set (labelled := (metabolite ++ ":" ++ label_used ++ "C13")%string).
  match goal with
  | |- bind ?m _ = _ -> _ => destruct m as [d|e]; cbn [bind]; [|discriminate]
  end.
  destruct (getcolumn unlabelled (columns d)) as [u0|e] eqn:Hu;
    cbn [bind]; [|discriminate].
  destruct (getcolumn labelled (columns d)) as [l0|e] eqn:Hl;
    cbn [bind]; [|discriminate].
  destruct (mapM cell_percent (combine u0 l0)) as [per|e] eqn:Hper;
    cbn [bind columns index]; [|discriminate].
  rewrite getcolumn_setcolumn_same. cbn [bind].
  destruct (mapM cell_hundred_minus per) as [rest|e] eqn:Hrest;
    cbn [bind]; [|discriminate].
  intros E. injection E as <-. cbn [columns].
  intros u l i a b Eu El Ha Hb Hne.
  destruct (percent_step unlabelled labelled (columns d) u0 l0 per rest)
    as (Gu & Gl & Gper & Grest & Hrow); try assumption.
  - apply not_own_percent.
  - apply unlabelled_not_labelled_percent.
  - apply labelled_not_unlabelled_percent.
  - apply not_own_percent.
  - apply percent_names_differ.
  - rewrite Gu in Eu. injection Eu as <-.
    rewrite Gl in El. injection El as <-.
    destruct (Hrow i a b Ha Hb Hne) as (Hp & Hq).
    exists per, rest, (a / (a + b) * 100), (100 - a / (a + b) * 100).
    repeat split; try assumption. lra.
Qed.

Lemma analyse_loop_last correction label_used iso
    (metabolites : list string) (metabolite : string)
    (df df' : frame (T:=R)) :
  analyse_loop correction label_used iso df (metabolites ++ [metabolite])
    = Ok df' ->
  exists d, analyse_metabolite correction label_used iso d metabolite = Ok df'.
Proof.
  revert df. induction metabolites as [|m ms IH]; intros df; cbn.
  - destruct (analyse_metabolite correction label_used iso df metabolite)
      as [d|e] eqn:E; cbn [bind]; [|discriminate].
    intros [= <-]. now exists df.
  - destruct (analyse_metabolite correction label_used iso df m)
      as [d|e]; cbn [bind]; [|discriminate].
    apply IH.
Qed.

End MetaboliteColumns.

(** C9, as stated, fails in the binary64 arithmetic that the script runs:
    for [No label = 1] and [sum_labelled = 2] the two percentages are
    33.333333333333329 and 66.666666666666657 and add up to
    99.999999999999986; and a metabolite that was not detected on a line
    ([0 / (0 + 0)]) gets NaN in both percent columns. *)
Lemma percent_columns_sum_binary64_counterexample :
  (exists o,
     Examples.analyse_frame [Examples.one_to_two] = Ok [o] /\
     PrimFloat.eqb (out_No_label o + sum_labelled o) 0 = false /\
     (no_label_percent o + sum_labelled_percent o)%float
       = 99.999999999999986%float /\
     PrimFloat.eqb (no_label_percent o + sum_labelled_percent o) 100 = false)
  /\
  (exists df,
     Metabolites.analyse_metabolites (fun _ _ d => Ok d)
       (MoreExamples.atp_frame 0%float 0%float) ["ATP"%string] "5" false
     = Ok df /\
     Metabolites.getcolumn "ATP:No label_percent" (Metabolites.columns df)
     = Ok [Metabolites.Val FoldChanges.NaN] /\
     Metabolites.getcolumn "ATP:5C13_percent" (Metabolites.columns df)
     = Ok [Metabolites.Val FoldChanges.NaN]).
Proof.
  split.
  - eexists. split; [vm_compute; reflexivity|].
    repeat split; vm_compute; reflexivity.
  - eexists. split; [vm_compute; reflexivity|].
    split; vm_compute; reflexivity.
Qed.

(** The clean-up of [analyse_metabolites] turns a measurement equal to 293
    into the text "293", and the percentages of that metabolite then stop
    the call with [TypeError]. *)
Lemma analyse_metabolites_measurement_293 :
  Metabolites.analyse_metabolites (fun _ _ d => Ok d)
    (MoreExamples.atp_frame 293%float 1%float) ["ATP"%string] "5" false
  = Raise TypeError.
Proof. vm_compute. reflexivity. Qed.

(** C9 (amended): in exact real arithmetic, on every line that
    [analyse_rawfiles] returns with [No label + sum_labelled] non-zero the
    columns [no_label_percent] and [sum_labelled_percent] add up to 100;
    and on every line of the frame that an iteration of
    [analyse_metabolites] returns on which the unlabelled and the labelled
    value of its metabolite have a non-zero sum, the two percent columns
    hold [unlabelled / (unlabelled + labelled) * 100] and the rest to 100,
    so that they add up to 100 (for the last metabolite this is the frame
    that [analyse_metabolites] returns). *)
Theorem percent_columns_sum_to_100_exact :
  (forall read_glob splitext_basename sort_index correction i iso show
          rows (o : out_row (T:=R)),
      analyse_rawfiles read_glob splitext_basename sort_index correction
        i iso show = Ok rows ->
      In o rows ->
      out_No_label o + sum_labelled o <> 0 ->
      no_label_percent o + sum_labelled_percent o = 100) /\
  (forall correction label_used iso (df : Metabolites.frame (T:=R))
          metabolite df',
      Metabolites.analyse_metabolite correction label_used iso df metabolite
        = Ok df' ->
      forall u l i a b,
        Metabolites.getcolumn (metabolite ++ ":No label")
          (Metabolites.columns df') = Ok u ->
        Metabolites.getcolumn (metabolite ++ ":" ++ label_used ++ "C13")
          (Metabolites.columns df') = Ok l ->
        nth_error u i = Some (Metabolites.Val (FoldChanges.Finite a)) ->
        nth_error l i = Some (Metabolites.Val (FoldChanges.Finite b)) ->
        a + b <> 0 ->
        exists per rest p q,
          Metabolites.getcolumn ((metabolite ++ ":No label") ++ "_percent")
            (Metabolites.columns df') = Ok per /\
          Metabolites.getcolumn
            ((metabolite ++ ":" ++ label_used ++ "C13") ++ "_percent")
            (Metabolites.columns df') = Ok rest /\
          nth_error per i = Some (Metabolites.Val (FoldChanges.Finite p)) /\
          nth_error rest i = Some (Metabolites.Val (FoldChanges.Finite q)) /\
          p = a / (a + b) * 100 /\
          p + q = 100) /\
  (forall correction label_used iso (df : Metabolites.frame (T:=R))
          metabolites metabolite df',
      Metabolites.analyse_metabolites correction df
        (metabolites ++ [metabolite]) label_used iso = Ok df' ->
      forall u l i a b,
        Metabolites.getcolumn (metabolite ++ ":No label")
          (Metabolites.columns df') = Ok u ->
        Metabolites.getcolumn (metabolite ++ ":" ++ label_used ++ "C13")
          (Metabolites.columns df') = Ok l ->
        nth_error u i = Some (Metabolites.Val (FoldChanges.Finite a)) ->
        nth_error l i = Some (Metabolites.Val (FoldChanges.Finite b)) ->
        a + b <> 0 ->
        exists per rest p q,
          Metabolites.getcolumn ((metabolite ++ ":No label") ++ "_percent")
            (Metabolites.columns df') = Ok per /\
          Metabolites.getcolumn
            ((metabolite ++ ":" ++ label_used ++ "C13") ++ "_percent")
            (Metabolites.columns df') = Ok rest /\
          nth_error per i = Some (Metabolites.Val (FoldChanges.Finite p)) /\
          nth_error rest i = Some (Metabolites.Val (FoldChanges.Finite q)) /\
          p = a / (a + b) * 100 /\
          p + q = 100).
Proof.
  split; [|split].
  - intros read_glob splitext_basename sort_index correction i iso show
      rows o E Ho Hne.
    unfold analyse_rawfiles in E.
    destruct (load read_glob splitext_basename i) as [loaded|e];
      cbn [bind] in E; [|discriminate].
    injection E as <-. apply in_map_iff in Ho.
    destruct Ho as (r & <- & _).
    apply percent_columns_sum_R. exact Hne.
  - intros correction label_used iso df metabolite df' E.
    exact (analyse_metabolite_percent _ _ _ _ _ _ E).
  - intros correction label_used iso df metabolites metabolite df' E.
    unfold Metabolites.analyse_metabolites in E.
    destruct (Metabolites.clean_up df) as [d0|e]; cbn [bind] in E;
      [|discriminate].
    destruct (analyse_loop_last _ _ _ _ _ _ _ E) as (d & Ed).
    exact (analyse_metabolite_percent _ _ _ _ _ _ Ed).
Qed.

Lemma percent_columns_sum_to_100_exact_witness :
  (exists o : out_row (T:=R),
     Examples.analyse_frame [Examples.one_to_two] = Ok [o] /\
     no_label_percent o + sum_labelled_percent o = 100) /\
  (exists df per rest p q,
     Metabolites.analyse_metabolites (fun _ _ d => Ok d)
       (MoreExamples.atp_frame (T:=R) 1 3) ["ATP"%string] "5" false = Ok df /\
     Metabolites.getcolumn "ATP:No label_percent" (Metabolites.columns df)
     = Ok per /\
     Metabolites.getcolumn "ATP:5C13_percent" (Metabolites.columns df)
     = Ok rest /\
     nth_error per 0 = Some (Metabolites.Val (FoldChanges.Finite p)) /\
     nth_error rest 0 = Some (Metabolites.Val (FoldChanges.Finite q)) /\
     p = 1 / (1 + 3) * 100 /\
     p + q = 100).
Proof.
  split.
  - assert (E : exists o : out_row (T:=R),
               Examples.analyse_frame [Examples.one_to_two] = Ok [o]).
    { unfold Examples.analyse_frame, analyse_rawfiles, clean. cbn.
      rewrite (Reqb_false 1 0) by lra. cbn. eexists. reflexivity. }
    destruct E as (o & E). exists o. split; [exact E|].
    destruct percent_columns_sum_to_100_exact as (H & _).
    unfold Examples.analyse_frame in E.
    apply (H _ _ _ _ _ _ _ _ o E); [now left|].
    unfold analyse_rawfiles, clean in E. cbn in E.
    rewrite (Reqb_false 1 0) in E by lra. cbn in E.
    injection E as <-. cbn. lra.
  - assert (E : exists df,
               Metabolites.analyse_metabolites (fun _ _ d => Ok d)
                 (MoreExamples.atp_frame (T:=R) 1 3) ["ATP"%string] "5" false
               = Ok df /\
               Metabolites.getcolumn "ATP:No label" (Metabolites.columns df)
               = Ok [Metabolites.Val (FoldChanges.Finite 1)] /\
               Metabolites.getcolumn "ATP:5C13" (Metabolites.columns df)
               = Ok [Metabolites.Val (FoldChanges.Finite 3)]).
    { unfold Metabolites.analyse_metabolites, Metabolites.clean_up,
        MoreExamples.atp_frame. cbn.
      rewrite (Reqb_false 0 293), (Reqb_false 1 293), (Reqb_false 3 293)
        by lra.
      cbn.
      eexists. split; [reflexivity|]. split; reflexivity. }
    destruct E as (df & E & Hu & Hl). exists df.
    destruct percent_columns_sum_to_100_exact as (_ & _ & H).
    destruct (H (fun _ _ d => Ok d) "5"%string false
                (MoreExamples.atp_frame 1 3) [] "ATP"%string df E
                _ _ 0%nat 1 3 Hu Hl eq_refl eq_refl)
      as (per & rest & p & q & Hper & Hrest & Hp & Hq & Ep & Esum); [lra|].
    exists per, rest, p, q. repeat split; assumption.
Defined.

End PercentColumns.

(** ** Half-life and its propagated error (exact arithmetic) *)

Section HalfLife.
Import HalfLifeEstimation NewUtils.
Local Open Scope R_scope.

Lemma ln_2_pos : 0 < ln 2.
Proof. rewrite <- ln_1. apply ln_increasing; lra. Qed.

Lemma calc_half_life_R (a b : R) : calc_half_life a b = ln (2 * a) / b.
Proof. reflexivity. Qed.

Lemma half_life_R (a b c00 c01 c10 c11 : R) :
  half_life [a; b] [[c00; c01]; [c10; c11]]
  = Ok (ln 2 / b,
        ln 2 / b * R_sqrt.sqrt ((R_sqrt.sqrt c11 / b) * (R_sqrt.sqrt c11 / b))).
Proof. reflexivity. Qed.

(** For a positive prefactor the two definitions give the same number
    exactly when the prefactor is 1. *)
Lemma calc_half_life_eq_standard (a b : R) :
  0 < a -> b <> 0 -> (calc_half_life a b = ln 2 / b <-> a = 1).
Proof.
  intros Ha Hb. rewrite calc_half_life_R. split.
  - intros E.
    assert (E' : ln (2 * a) = ln 2).
    { apply (Rmult_eq_reg_r (/ b)); [exact E|].
      now apply Rinv_neq_0_compat. }
    apply ln_inv in E'; lra.
  - intros ->. now rewrite Rmult_1_r.
Qed.

(** C1, as stated, fails for [half_life] of new_utils.py: for the fitted
    pair (2, 1) it returns [ln 2], not [ln (2 * 2) / 1]. *)
Lemma half_life_ignores_prefactor_counterexample :
  exists hl err,
    half_life [2; 1] [[0; 0]; [0; 0]] = Ok (hl, err) /\
    hl <> ln (2 * 2) / 1.
Proof.
  eexists. eexists. split; [apply half_life_R|].
  rewrite ln_mult by lra. pose proof ln_2_pos. lra.
Qed.

(** C1 (amended): [calc_half_life] of half_life_estimation.py returns
    [ln (2 a) / b], with the prefactor inside the logarithm; [half_life]
    of new_utils.py returns [ln 2 / b], whatever the prefactor; for
    [a > 0] the two agree exactly when [a = 1]. *)
Theorem half_life_formulas (a b : R) :
  b <> 0 ->
  calc_half_life a b = ln (2 * a) / b /\
  (forall c00 c01 c10 c11, exists err,
      half_life [a; b] [[c00; c01]; [c10; c11]] = Ok (ln 2 / b, err)) /\
  (0 < a -> (calc_half_life a b = ln 2 / b <-> a = 1)).
Proof.
  intros Hb. split; [apply calc_half_life_R|]. split.
  - intros. eexists. apply half_life_R.
  - intros Ha. now apply calc_half_life_eq_standard.
Qed.

Lemma half_life_formulas_witness :
  calc_half_life 3 2 = ln (2 * 3) / 2 /\
  exists err, half_life [3; 2] [[1; 0]; [0; 1]] = Ok (ln 2 / 2, err).
Proof.
  destruct (half_life_formulas 3 2) as (H1 & H2 & _); [lra|].
  split; [exact H1 | apply H2].
Defined.

Lemma exp_neg_ln (x : R) : 0 < x -> Rtrigo_def.exp (- ln x) = / x.
Proof. intros Hx. rewrite exp_Ropp, exp_ln by exact Hx. reflexivity. Qed.

(** The decay curve at [ln 2 / b] is at half its initial value. *)
Lemma exponential_decay_at_half_life (a b : R) :
  b <> 0 -> exponential_decay (ln 2 / b) a b = a / 2.
Proof.
  intros Hb. unfold exponential_decay. cbn.
  replace (- b * (ln 2 / b)) with (- ln 2) by (field; exact Hb).
  rewrite exp_neg_ln by lra. lra.
Qed.

(** The decay curve at [ln (2 a) / b] is at the level one half. *)
Lemma func_exp_decay_at_calc_half_life (a b : R) :
  0 < a -> b <> 0 -> func_exp_decay (calc_half_life a b) a b = 1 / 2.
Proof.
  intros Ha Hb. unfold func_exp_decay, calc_half_life. cbn.
  replace (- b * (ln (2 * a) / b)) with (- ln (2 * a)) by (field; exact Hb).
  rewrite exp_neg_ln by lra. field. lra.
Qed.

(** C2, as stated, fails for [calc_half_life]: for the pair (2, 1) the
    decay curve at the returned time is at 1/2, not at 2/2. *)
Lemma calc_half_life_not_half_of_initial_counterexample :
  exponential_decay (calc_half_life 2 1) 2 1 <> 2 / 2 /\
  func_exp_decay (calc_half_life 2 1) 2 1 <> 2 / 2.
Proof.
  assert (E : func_exp_decay (calc_half_life 2 1) 2 1 = 1 / 2)
    by (apply func_exp_decay_at_calc_half_life; lra).
  split; [change (func_exp_decay (calc_half_life 2 1) 2 1 <> 2 / 2)|];
    rewrite E; lra.
Qed.

(** C2 (amended): for [a, b > 0], at the time returned by [half_life] of
    new_utils.py the decay curve is at half its value at time zero,
    [a / 2]; at the time returned by [calc_half_life] of
    half_life_estimation.py it is at the level [1 / 2], which is half of
    the initial value only for [a = 1]. *)
Theorem decay_at_half_life (a b : R) :
  0 < a -> 0 < b ->
  (forall c00 c01 c10 c11, exists t_half err,
      half_life [a; b] [[c00; c01]; [c10; c11]] = Ok (t_half, err) /\
      exponential_decay t_half a b = a / 2 /\
      exponential_decay 0 a b = a) /\
  func_exp_decay (calc_half_life a b) a b = 1 / 2 /\
  (func_exp_decay (calc_half_life a b) a b = a / 2 <-> a = 1).
Proof.
  intros Ha Hb. split; [|split].
  - intros. eexists. eexists. split; [apply half_life_R|]. split.
    + apply exponential_decay_at_half_life. lra.
    + unfold exponential_decay. cbn. rewrite Rmult_0_r, exp_0. lra.
  - apply func_exp_decay_at_calc_half_life; lra.
  - rewrite func_exp_decay_at_calc_half_life by lra. lra.
Qed.

Lemma decay_at_half_life_witness :
  func_exp_decay (calc_half_life 3 2) 3 2 = 1 / 2 /\
  exists t_half err,
    half_life [3; 2] [[1; 0]; [0; 1]] = Ok (t_half, err) /\
    exponential_decay t_half 3 2 = 3 / 2.
Proof.
  destruct (decay_at_half_life 3 2) as (H1 & H2 & _); [lra | lra |].
  split; [exact H2|].
  destruct (H1 1 0 0 1) as (t & err & E & Ht & _).
  exists t, err. split; [exact E | exact Ht].
Defined.

End HalfLife.

Section StandardDeviation.
Import HalfLifeEstimation.
Local Open Scope R_scope.

(** On a 2x2 covariance matrix with non-negative variances the propagated
    variance is linear in the two variances. *)
Lemma calc_half_life_standard_deviation_R (a b c00 c01 c10 c11 : R) :
  0 <= c00 -> 0 <= c11 ->
  calc_half_life_standard_deviation a b [[c00; c01]; [c10; c11]]
  = Ok (R_sqrt.sqrt (c00 * (/ (a * b))² + c11 * (ln (2 * a) / b²)²)).
Proof.
  intros H0 H1. unfold calc_half_life_standard_deviation. cbn.
  f_equal. f_equal. unfold sqr, Rsqr. cbn.
  pose proof (sqrt_sqrt c00 H0) as E0. pose proof (sqrt_sqrt c11 H1) as E1.
  unfold Rdiv.
  replace (R_sqrt.sqrt c00 * / (a * b) * (R_sqrt.sqrt c00 * / (a * b)))
    with (R_sqrt.sqrt c00 * R_sqrt.sqrt c00 * (/ (a * b) * / (a * b)))
    by ring.
  replace (ln (2 * a) * R_sqrt.sqrt c11 * / (b * b)
           * (ln (2 * a) * R_sqrt.sqrt c11 * / (b * b)))
    with (R_sqrt.sqrt c11 * R_sqrt.sqrt c11
          * (ln (2 * a) * / (b * b) * (ln (2 * a) * / (b * b))))
    by ring.
  rewrite E0, E1. reflexivity.
Qed.

(** C3: for fixed [a, b > 0] the propagated standard deviation of the
    half-life is 0 on the zero covariance matrix and tends to 0 as the
    entries of the covariance matrix (with non-negative variances) tend
    to 0. *)
Theorem half_life_sd_vanishes_with_cov (a b : R) :
  0 < a -> 0 < b ->
  calc_half_life_standard_deviation a b [[0; 0]; [0; 0]] = Ok 0 /\
  forall eps, 0 < eps ->
    exists delta, 0 < delta /\
      forall c00 c01 c10 c11,
        0 <= c00 -> 0 <= c11 ->
        Rabs c00 < delta -> Rabs c01 < delta ->
        Rabs c10 < delta -> Rabs c11 < delta ->
        exists sd,
          calc_half_life_standard_deviation a b [[c00; c01]; [c10; c11]]
            = Ok sd /\
          0 <= sd < eps.
Proof.
  intros Ha Hb. split.
  - rewrite calc_half_life_standard_deviation_R by lra.
    rewrite !Rmult_0_l, Rplus_0_l, sqrt_0. reflexivity.
  - intros eps Heps.
    set (A := (/ (a * b))²). set (B := (ln (2 * a) / b²)²).
    assert (HA : 0 <= A) by apply Rle_0_sqr.
    assert (HB : 0 <= B) by apply Rle_0_sqr.
    exists (eps² / (A + B + 1)).
    assert (Hd : 0 < eps² / (A + B + 1)).
    { apply Rdiv_lt_0_compat; [|lra]. unfold Rsqr. nra. }
    split; [exact Hd|].
    intros c00 c01 c10 c11 H0 H1 L0 _ _ L1.
    rewrite Rabs_pos_eq in L0, L1 by assumption.
    rewrite calc_half_life_standard_deviation_R by assumption.
    fold A B. eexists. split; [reflexivity|]. split; [apply sqrt_pos|].
    assert (Hlt : c00 * A + c11 * B < eps²).
    { set (d := eps² / (A + B + 1)) in *.
      assert (Hd' : d * (A + B + 1) = eps²) by (unfold d; field; lra).
      nra. }
    rewrite <- (sqrt_Rsqr eps) by lra.
    apply sqrt_lt_1_alt. split; [nra | exact Hlt].
Qed.

Lemma half_life_sd_vanishes_with_cov_witness :
  calc_half_life_standard_deviation 1 1 [[0; 0]; [0; 0]] = Ok 0 /\
  exists delta, 0 < delta /\
    forall c00 c01 c10 c11,
      0 <= c00 -> 0 <= c11 ->
      Rabs c00 < delta -> Rabs c01 < delta ->
      Rabs c10 < delta -> Rabs c11 < delta ->
      exists sd,
        calc_half_life_standard_deviation 1 1 [[c00; c01]; [c10; c11]]
          = Ok sd /\
        0 <= sd < 1 / 10.
Proof.
  destruct (half_life_sd_vanishes_with_cov 1 1) as (H0 & H1); [lra | lra |].
  split; [exact H0 | apply H1; lra].
Defined.

End StandardDeviation.

(** ** Fitting noiseless samples *)

Section FittingProperties.
Import NewUtils HalfLifeEstimation Fitting.
Local Open Scope R_scope.

(** The decay curves with parameters [(1, 1)] and [(e, 2)] pass through the
    same point at time 1. *)
Lemma decay_curves_meet_at_1 :
  exponential_decay 1 (Rtrigo_def.exp 1) 2 = exponential_decay 1 1 1.
Proof.
  unfold exponential_decay. cbn.
  rewrite <- exp_plus. rewrite Rmult_1_l. f_equal. lra.
Qed.

Lemma Rabs_le_quarter (u v : R) : Rabs (u - v) <= 1 / 4 -> v - 1 / 4 <= u <= v + 1 / 4.
Proof.
  unfold Rabs. destruct (Rcase_abs (u - v)); lra.
Qed.

(** C5, as stated, fails, and not for want of precision: whatever
    [curve_fit] computes, it is a function of the samples, and the single
    sample at time 1 is the same for the parameters [(1, 1)] and [(e, 2)],
    which both lie within the bounds.  So no fit returns both pairs, even
    with a tolerance of 1/4; this holds for [fit_exponential_decay] and
    for [fit_unlabelled] (on the percentages [100 * f(x)]), for the claim
    as stated and for the claim restricted to parameters within the
    bounds. *)
Lemma fit_cannot_recover_parameters_from_one_sample :
  (~ exists curve_fit,
       forall a b x, 0 < a -> 0 < b ->
         exists a' b' pcov,
           fit_exponential_decay curve_fit x
             (map (fun t => exponential_decay t a b) x) = Ok ([a'; b'], pcov) /\
           Rabs (a' - a) <= 1 / 4 /\ Rabs (b' - b) <= 1 / 4) /\
  (~ exists curve_fit,
       forall a b x, 0 < a <= 1000 -> 0 < b <= 10 ->
         exists a' b' pcov,
           fit_exponential_decay curve_fit x
             (map (fun t => exponential_decay t a b) x) = Ok ([a'; b'], pcov) /\
           Rabs (a' - a) <= 1 / 4 /\ Rabs (b' - b) <= 1 / 4) /\
  (~ exists curve_fit,
       forall a b x, 0 < a <= 1000 -> 0 < b <= 10 ->
         exists a' b' pcov,
           fit_unlabelled curve_fit
             {| fit_index := x;
                fit_no_label_percent :=
                  Some (map (fun t => func_exp_decay t a b * 100) x) |}
           = Ok ([a'; b'], pcov) /\
           Rabs (a' - a) <= 1 / 4 /\ Rabs (b' - b) <= 1 / 4).
Proof.
  pose proof exp_le_3 as He3.
  pose proof (exp_pos 1) as Hepos.
  assert (Hbounded :
    ~ exists curve_fit,
        forall a b x, 0 < a <= 1000 -> 0 < b <= 10 ->
          exists a' b' pcov,
            fit_exponential_decay curve_fit x
              (map (fun t => exponential_decay t a b) x)
            = Ok ([a'; b'], pcov) /\
            Rabs (a' - a) <= 1 / 4 /\ Rabs (b' - b) <= 1 / 4).
  { intros (curve_fit & Hfit).
    destruct (Hfit 1 1 [1]) as (a1 & b1 & c1 & E1 & _ & Hb1); [lra | lra |].
    destruct (Hfit (Rtrigo_def.exp 1) 2 [1]) as (a2 & b2 & c2 & E2 & _ & Hb2);
      [lra | lra |].
    cbn [map] in E1, E2. rewrite decay_curves_meet_at_1 in E2.
    rewrite E1 in E2. injection E2 as _ <- _.
    apply Rabs_le_quarter in Hb1, Hb2. lra. }
  split; [|split; [exact Hbounded|]].
  - intros (curve_fit & Hfit). apply Hbounded. exists curve_fit.
    intros a b x Ha Hb. apply Hfit; lra.
  - intros (curve_fit & Hfit).
    destruct (Hfit 1 1 [1]) as (a1 & b1 & c1 & E1 & _ & Hb1); [lra | lra |].
    destruct (Hfit (Rtrigo_def.exp 1) 2 [1]) as (a2 & b2 & c2 & E2 & _ & Hb2);
      [lra | lra |].
    unfold fit_unlabelled in E1, E2.
    cbn [fit_index fit_no_label_percent map] in E1, E2.
    change (func_exp_decay 1 (Rtrigo_def.exp 1) 2)
      with (exponential_decay 1 (Rtrigo_def.exp 1) 2) in E2.
    change (func_exp_decay 1 1 1) with (exponential_decay 1 1 1) in E1.
    rewrite decay_curves_meet_at_1 in E2.
    rewrite E1 in E2. injection E2 as _ <- _.
    apply Rabs_le_quarter in Hb1, Hb2. lra.
Qed.

(** A sum of squares is zero only if every term is. *)
Lemma sum_of_squares_zero (l : list R) :
  fold_right Rplus 0 (map (fun r => r * r) l) <= 0 ->
  forall r, In r l -> r = 0.
Proof.
  induction l as [|r0 l IH]; cbn; intros Hsum r Hr; [destruct Hr|].
  assert (Hrest : 0 <= fold_right Rplus 0 (map (fun r => r * r) l)).
  { clear. induction l as [|x l IH]; cbn; [lra|]. nra. }
  destruct Hr as [<-|Hr]; [nra|].
  apply IH; [nra | exact Hr].
Qed.

(** Two samples at different times determine the parameters of a decay
    curve with a positive prefactor. *)
Lemma decay_parameters_determined (a b a' b' x1 x2 : R) :
  0 < a -> 0 <= a' -> x1 <> x2 ->
  exponential_decay x1 a' b' = exponential_decay x1 a b ->
  exponential_decay x2 a' b' = exponential_decay x2 a b ->
  a' = a /\ b' = b.
Proof.
  unfold exponential_decay. cbn. intros Ha Ha' Hx E1 E2.
  assert (Hpos : 0 < a').
  { destruct (Req_dec_T a' 0) as [->|Hne]; [|lra].
    rewrite Rmult_0_l in E1.
    pose proof (exp_pos (- b * x1)). nra. }
  apply (f_equal ln) in E1, E2.
  rewrite !ln_mult, !ln_exp in E1, E2 by (try apply exp_pos; assumption).
  assert (Hb : b' = b) by nra.
  split; [|exact Hb]. subst b'.
  apply ln_inv; [exact Hpos | exact Ha | lra].
Qed.

(** Least squares on noiseless samples: parameters within the bounds whose
    sum of squared residuals is not larger than that of any other
    parameters within the bounds are the parameters of the samples. *)
Lemma least_squares_recovers (f : R -> R -> R -> R) (a b a' b' : R)
    (x y : list R) (x1 x2 : R) :
  (forall t p q, f t p q = p * Rtrigo_def.exp (- q * t)) ->
  y = map (fun t => a * Rtrigo_def.exp (- b * t)) x ->
  0 < a <= 1000 -> 0 < b <= 10 ->
  In x1 x -> In x2 x -> x1 <> x2 ->
  0 <= a' <= 1000 -> 0 <= b' <= 10 ->
  (forall p q, 0 <= p <= 1000 -> 0 <= q <= 10 ->
     fold_right Rplus 0
       (map (fun r => r * r)
          (map (fun ty => f (fst ty) a' b' - snd ty) (combine x y)))
     <= fold_right Rplus 0
          (map (fun r => r * r)
             (map (fun ty => f (fst ty) p q - snd ty) (combine x y)))) ->
  a' = a /\ b' = b.
Proof.
  intros Hf -> Ha Hb H1 H2 Hx Ha' Hb' Hmin.
  assert (Hcombine : forall p q,
            map (fun ty => f (fst ty) p q - snd ty)
              (combine x (map (fun t => a * Rtrigo_def.exp (- b * t)) x))
            = map (fun t => f t p q - f t a b) x).
  { intros p q. clear - Hf. induction x as [|t x IH]; cbn; [reflexivity|].
    rewrite IH. now rewrite (Hf t a b). }
  assert (Hzero : fold_right Rplus 0
                    (map (fun r => r * r)
                       (map (fun t => f t a b - f t a b) x)) = 0).
  { clear. induction x as [|t x IH]; cbn; [reflexivity|].
    rewrite IH. ring. }
  specialize (Hmin a b). rewrite !Hcombine, Hzero in Hmin.
  assert (Hres : forall t, In t x -> f t a' b' - f t a b = 0).
  { intros t Ht.
    apply (sum_of_squares_zero _ (Hmin ltac:(lra) ltac:(lra))).
    apply in_map_iff. now exists t. }
  apply (decay_parameters_determined a b a' b' x1 x2); try lra.
  - unfold exponential_decay. cbn. rewrite <- !Hf.
    specialize (Hres x1 H1). lra.
  - unfold exponential_decay. cbn. rewrite <- !Hf.
    specialize (Hres x2 H2). lra.
Qed.

(** C5 (amended): in exact arithmetic, for parameters within the bounds
    ([0 < a <= 1000], [0 < b <= 10]) and sample points that contain two
    different times: if [curve_fit], called on the decay model with the
    noiseless samples, the start values (1, 1) and the bounds
    ([0, 0], [1000, 10]), returns a least-squares solution (parameters
    within the bounds whose sum of squared residuals is not larger than
    that of any other parameters within the bounds), then
    [fit_exponential_decay], on the samples, and [fit_unlabelled], on the
    percentages [100 * f(x)], return exactly [(a, b)]. *)
Theorem fit_recovers_parameters_from_two_samples
    (curve_fit :
       (R -> R -> R -> R) -> list R -> list R -> R * R ->
       (R * R) * (R * R) -> result (list R * list (list R)))
    (a b : R) (x : list R) (x1 x2 : R) :
  0 < a <= 1000 -> 0 < b <= 10 ->
  In x1 x -> In x2 x -> x1 <> x2 ->
  (forall f y,
     (forall t p q, f t p q = p * Rtrigo_def.exp (- q * t)) ->
     y = map (fun t => a * Rtrigo_def.exp (- b * t)) x ->
     exists a' b' pcov,
       curve_fit f x y (1, 1) ((0, 0), (1000, 10)) = Ok ([a'; b'], pcov) /\
       0 <= a' <= 1000 /\ 0 <= b' <= 10 /\
       forall p q, 0 <= p <= 1000 -> 0 <= q <= 10 ->
         fold_right Rplus 0
           (map (fun r => r * r)
              (map (fun ty => f (fst ty) a' b' - snd ty) (combine x y)))
         <= fold_right Rplus 0
              (map (fun r => r * r)
                 (map (fun ty => f (fst ty) p q - snd ty) (combine x y)))) ->
  (exists pcov,
      fit_exponential_decay curve_fit x
        (map (fun t => exponential_decay t a b) x) = Ok ([a; b], pcov)) /\
  (exists pcov,
      fit_unlabelled curve_fit
        {| fit_index := x;
           fit_no_label_percent :=
             Some (map (fun t => func_exp_decay t a b * 100) x) |}
      = Ok ([a; b], pcov)).
Proof.
  intros Ha Hb H1 H2 Hx Hfit.
  split.
  - unfold fit_exponential_decay.
    destruct (Hfit exponential_decay
                (map (fun t => exponential_decay t a b) x))
      as (a' & b' & pcov & E & Ha' & Hb' & Hmin);
      [reflexivity | reflexivity |].
    change (lit 0) with 0. change (lit 1) with 1.
    change (lit 1000) with 1000. change (lit 10) with 10.
    rewrite E. exists pcov.
    destruct (least_squares_recovers exponential_decay a b a' b' x
                (map (fun t => exponential_decay t a b) x) x1 x2)
      as (-> & ->); try assumption; reflexivity.
  - unfold fit_unlabelled. cbn [fit_index fit_no_label_percent].
    assert (Hy : map (fun v => div v (lit 100))
                   (map (fun t => func_exp_decay t a b * 100) x)
                 = map (fun t => a * Rtrigo_def.exp (- b * t)) x).
    { rewrite map_map. apply map_ext. intros t.
      unfold func_exp_decay. cbn. field. }
    rewrite Hy.
    destruct (Hfit func_exp_decay
                (map (fun t => a * Rtrigo_def.exp (- b * t)) x))
      as (a' & b' & pcov & E & Ha' & Hb' & Hmin);
      [reflexivity | reflexivity |].
    change (lit 0) with 0. change (lit 1) with 1.
    change (lit 1000) with 1000. change (lit 10) with 10.
    rewrite E. exists pcov.
    destruct (least_squares_recovers func_exp_decay a b a' b' x
                (map (fun t => a * Rtrigo_def.exp (- b * t)) x) x1 x2)
      as (-> & ->); try assumption; reflexivity.
Qed.

Lemma fit_recovers_parameters_from_two_samples_witness :
  exists pcov,
    fit_exponential_decay
      (fun _ _ _ _ _ => Ok ([2; 1], [[0; 0]; [0; 0]])) [0; 1]
      (map (fun t => exponential_decay t 2 1) [0; 1]) = Ok ([2; 1], pcov).
Proof.
  apply (fit_recovers_parameters_from_two_samples
           (fun _ _ _ _ _ => Ok ([2; 1], [[0; 0]; [0; 0]])) 2 1 [0; 1] 0 1);
    try lra; try (cbn; tauto).
  intros f y Hf ->. exists 2, 1, [[0; 0]; [0; 0]].
  split; [reflexivity|]. split; [lra|]. split; [lra|].
  intros p q _ _. cbn. rewrite !Hf.
  assert (Hsq : forall u, 0 <= u * u) by (intros u; nra).
  pose proof (Hsq (p * Rtrigo_def.exp (- q * 0)
                   - 2 * Rtrigo_def.exp (- (1) * 0))).
  pose proof (Hsq (p * Rtrigo_def.exp (- q * 1)
                   - 2 * Rtrigo_def.exp (- (1) * 1))).
  lra.
Defined.

End FittingProperties.

(** ** Turnover *)

Section TurnoverProperties.
Import HalfLifeEstimation NewUtils.
Context {T : Type} `{Elementary T}.
Local Open Scope num_scope.

Lemma iloc0_map_other {A B C} (f : A -> B) (g : A -> C) (l : list A) (x : B) :
  iloc0 (map f l) = Ok x -> exists y, iloc0 (map g l) = Ok y.
Proof.
  destruct l as [|a l]; cbn; [discriminate|]. intros _. now exists (g a).
Qed.

(** C6: [get_turnover] writes [(poolsize / 2) / half_life] into the
    [turnover] column of the lines of the cell, where [half_life] is the
    first half-life listed for the cell and [poolsize] the first mean
    concentration listed for it (under the name "wt" for the cell line
    itself); nothing else enters the value, and the other lines are left
    as they are.  [calc_turnover_cell] is the pool minus what the fitted
    decay leaves of it after one hour. *)
Theorem turnover_from_poolsize_and_half_life
    (dpars : list dpars_row) (nad_conc : list conc_row)
    (cell cell_line : string) (growth_correction : bool) (hl pool : T) :
  let cell' := if String.eqb cell cell_line then "wt"%string else cell in
  let target := if String.eqb cell' "wt" then cell_line else cell' in
  iloc0 (map dp_half_life
           (filter (fun r => String.eqb (cell_type r) cell) dpars)) = Ok hl ->
  iloc0 (map mean
           (filter (fun r => String.eqb (conc_cell_type r) cell') nad_conc))
    = Ok pool ->
  (exists dpars',
      get_turnover dpars nad_conc cell cell_line growth_correction = Ok dpars' /\
      List.length dpars' = List.length dpars /\
      forall i r, nth_error dpars i = Some r ->
        exists r', nth_error dpars' i = Some r' /\
          cell_type r' = cell_type r /\
          if String.eqb (cell_type r) target
          then turnover r' = Some ((pool / lit 2) / hl) /\
               poolsize r' = Some pool
          else r' = r) /\
  (forall prefactor exp_factor nad_amount_cell : T,
      calc_turnover_cell prefactor exp_factor nad_amount_cell
      = nad_amount_cell
        - func_exp_decay (lit 1) prefactor exp_factor * nad_amount_cell).
Proof.
  intros cell' target Hhl Hpool. split; [|reflexivity].
  unfold get_turnover. fold cell'.
  destruct (iloc0_map_other _ dp_half_life_error _ _ Hhl) as (hle & Hhle).
  destruct (iloc0_map_other _ sd _ _ Hpool) as (pe & Hpe).
  rewrite Hhl. cbn [bind]. rewrite Hhle. cbn [bind].
  rewrite Hpool. cbn [bind]. rewrite Hpe. cbn [bind]. fold target.
  eexists. split; [reflexivity|]. split; [apply length_map|].
  intros i r Hr. rewrite nth_error_map, Hr. cbn [option_map].
  eexists. split; [reflexivity|].
  destruct (String.eqb (cell_type r) target); cbn; auto.
Qed.

End TurnoverProperties.

(** In exact arithmetic [calc_turnover_cell] is the share of the pool that
    the decay curve has lost at one hour. *)
Lemma calc_turnover_cell_R (prefactor exp_factor nad_amount_cell : R) :
  HalfLifeEstimation.calc_turnover_cell prefactor exp_factor nad_amount_cell
  = (nad_amount_cell * (1 - prefactor * Rtrigo_def.exp (- exp_factor)))%R.
Proof.
  unfold HalfLifeEstimation.calc_turnover_cell,
    HalfLifeEstimation.func_exp_decay. cbn.
  rewrite Rmult_1_r. ring.
Qed.

(** ** Fold changes *)

(** ** Substrings *)

Section Substrings.
Import FoldChanges.
Local Open Scope string_scope.

Lemma prefix_spec (tag x : string) :
  String.prefix tag x = true <-> exists post, x = tag ++ post.
Proof.
  revert x. induction tag as [|c tag IH]; intros x.
  - split; [intros _; now exists x | intros _; now destruct x].
  - destruct x as [|d x]; cbn;
      [split; [discriminate | intros (post & E); discriminate]|].
    destruct (Ascii.ascii_dec c d) as [->|Hne].
    + rewrite IH. split; intros (post & E); exists post; [now rewrite E|].
      now injection E.
    + split; [discriminate|]. intros (post & E). injection E as E1 E2.
      congruence.
Qed.

Lemma contains_spec (tag x : string) :
  contains tag x = true <-> exists pre post, x = pre ++ tag ++ post.
Proof.
  induction x as [|d x IH].
  - cbn [contains]. rewrite orb_false_r, prefix_spec. split.
    + intros (post & E). now exists "", post.
    + intros (pre & post & E). destruct pre; [now exists post|discriminate].
  - cbn [contains]. rewrite orb_true_iff, prefix_spec, IH. split.
    + intros [(post & E)|(pre & post & E)].
      * now exists "", post.
      * exists (String d pre), post. cbn. now rewrite E.
    + intros (pre & post & E). destruct pre as [|c pre].
      * left. now exists post.
      * right. exists pre, post. cbn in E. now injection E.
Qed.

Lemma has_tag_spec (t0 t1 t2 x : string) :
  contains t0 x || contains t1 x || contains t2 x = true <->
  exists tag pre post,
    (tag = t0 \/ tag = t1 \/ tag = t2) /\ x = pre ++ tag ++ post.
Proof.
  rewrite !orb_true_iff, !contains_spec. split.
  - intros [[(pre & post & E)|(pre & post & E)]|(pre & post & E)].
    + exists t0, pre, post. tauto.
    + exists t1, pre, post. tauto.
    + exists t2, pre, post. tauto.
  - intros (tag & pre & post & [->|[->| ->]] & E); eauto.
Qed.

End Substrings.

Section FoldChangeProperties.
Import FoldChanges.
Local Open Scope R_scope.

Lemma mapM_In_rev {A B} (f : A -> result B) (l : list A) (l' : list B) (x : A) :
  mapM f l = Ok l' -> In x l -> exists y, f x = Ok y /\ In y l'.
Proof.
  revert l'. induction l as [|a l IH]; cbn; intros l' E Hx; [destruct Hx|].
  destruct (f a) as [b|e] eqn:Ea; [|discriminate].
  destruct (mapM f l) as [bs|e] eqn:El; [|discriminate].
  injection E as <-. destruct Hx as [<-|Hx].
  - exists b. split; [exact Ea | now left].
  - destruct (IH bs eq_refl Hx) as (y & Ey & Hy).
    exists y. split; [exact Ey | now right].
Qed.

Lemma mapM_total {A B} (f : A -> result B) (l : list A) :
  (forall x, In x l -> exists y, f x = Ok y) -> exists l', mapM f l = Ok l'.
Proof.
  induction l as [|a l IH]; cbn; intros Hf; [now exists []|].
  destruct (Hf a (or_introl eq_refl)) as (b & ->).
  destruct IH as (bs & ->); [intros x Hx; apply Hf; now right|].
  now exists (b :: bs).
Qed.

Lemma Rltb_true_iff (x y : R) : Rltb x y = true <-> x < y.
Proof.
  unfold Rltb. destruct (Rlt_dec x y); split; intros; try easy.
Qed.

Lemma Rleb_false_iff (x y : R) : Rleb x y = false <-> y < x.
Proof.
  unfold Rleb. destruct (Rle_dec x y); split; intros; try easy; lra.
Qed.

(** The fold change of a line whose second mean is not zero. *)
Lemma fold_change_finite (ttest : list R -> list R -> R)
    (cat1_col cat2_col : list string) (r : protein (T:=R)) acc fc p :
  fold_change ttest cat1_col cat2_col r = Ok (acc, fc, p) ->
  acc = Accession r /\
  p = ttest (map (abundance r) cat1_col) (map (abundance r) cat2_col) /\
  (row_mean (map (abundance r) cat2_col) <> 0 ->
   fc = Finite (ln (row_mean (map (abundance r) cat1_col)
                    / row_mean (map (abundance r) cat2_col)) / ln 2)).
Proof.
  unfold fold_change, np_divide.
  generalize (row_mean (map (abundance r) cat1_col)) as avg1.
  generalize (row_mean (map (abundance r) cat2_col)) as avg2.
  intros avg2 avg1 E.
  destruct (math_log _ _) as [l|e] eqn:El in E; cbn [bind] in E;
    [|discriminate].
  injection E as <- <- <-. split; [reflexivity|]. split; [reflexivity|].
  intros Hne. cbn in El. rewrite (Reqb_false avg2 0 Hne) in El.
  cbn in El. destruct (Rleb (avg1 / avg2) 0); [discriminate|].
  now injection El as <-.
Qed.

Lemma fold_change_total (ttest : list R -> list R -> R)
    (cat1_col cat2_col : list string) (r : protein (T:=R)) :
  0 < row_mean (map (abundance r) cat1_col) ->
  0 < row_mean (map (abundance r) cat2_col) ->
  exists e, fold_change ttest cat1_col cat2_col r = Ok e.
Proof.
  unfold fold_change, np_divide.
  generalize (ttest (map (abundance r) cat1_col) (map (abundance r) cat2_col))
    as p.
  generalize (row_mean (map (abundance r) cat1_col)) as avg1.
  generalize (row_mean (map (abundance r) cat2_col)) as avg2.
  intros avg2 avg1 p H1 H2. cbn.
  rewrite (Reqb_false avg2 0) by lra. cbn.
  assert (Hr : 0 < avg1 / avg2) by now apply Rdiv_lt_0_compat.
  apply Rleb_false_iff in Hr. rewrite Hr. cbn. eexists. reflexivity.
Qed.

(** The mean of [row_mean] is the sum over the count. *)
Lemma row_mean_R (l : list R) :
  row_mean l = fold_right Rplus 0 l / INR (List.length l).
Proof.
  unfold row_mean. cbn [add div lit Arith_R].
  rewrite <- INR_IZR_INZ. f_equal.
  rewrite <- fold_left_rev_right.
  revert l. assert (Hsum : forall l acc,
              fold_right (fun y x => x + y) acc l = fold_right Rplus 0 l + acc).
  { induction l as [|x l IH]; intros acc; cbn; [lra|]. rewrite IH. lra. }
  intros l. rewrite Hsum.
  assert (Hrev : forall l, fold_right Rplus 0 (rev l) = fold_right Rplus 0 l).
  { induction l0 as [|x l0 IH]; cbn; [reflexivity|].
    rewrite fold_right_app. cbn.
    assert (Hacc : forall l acc,
              fold_right Rplus acc l = fold_right Rplus 0 l + acc).
    { induction l1 as [|y l1 IH1]; intros acc; cbn; [lra|].
      rewrite IH1. lra. }
    rewrite Hacc, IH. lra. }
  rewrite Hrev. lra.
Qed.

(** The columns of a condition are those that carry one of its tags. *)
Lemma find_cols_filter (c : category) (has : string -> bool)
    (cols : list string) :
  (forall x, has x = true <->
     exists tag pre post,
       (tag = fst (fst (tags c)) \/ tag = snd (fst (tags c))
        \/ tag = snd (tags c)) /\ x = (pre ++ tag ++ post)%string) ->
  find_cols (tags c) cols = filter has cols.
Proof.
  intros Hhas. destruct (tags c) as [[t0 t1] t2] eqn:Et. cbn [fst snd] in Hhas.
  unfold find_cols. apply filter_ext. intros x.
  destruct (has x) eqn:E.
  - apply has_tag_spec. now apply Hhas.
  - destruct (contains t0 x || contains t1 x || contains t2 x) eqn:E';
      [|reflexivity].
    apply has_tag_spec in E'. apply Hhas in E'. congruence.
Qed.

(** C7: for every pair of conditions, the replicate columns of a
    condition are the abundance-ratio columns, in their order, whose name
    contains one of its three tags; the table stored for the pair holds
    exactly the proteins whose p-value is below 0.001, and for each of
    them with a non-zero mean in the second condition the recorded fold
    change is the base-2 logarithm of the ratio of the two means (the sum
    of the replicate columns over their number).  When all means are
    positive the table is produced, and its entries are exactly these
    fold changes of the proteins with a p-value below 0.001. *)
Theorem fold_change_is_log2_of_mean_ratio
    (ttest : list R -> list R -> R) (data : list (protein (T:=R)))
    (ar_cols : list string) (cat1 cat2 : category)
    (has1 has2 : string -> bool) :
  let carries_tag_of c x :=
    exists tag pre post,
      (tag = fst (fst (tags c)) \/ tag = snd (fst (tags c))
       \/ tag = snd (tags c)) /\ x = (pre ++ tag ++ post)%string in
  (forall x, has1 x = true <-> carries_tag_of cat1 x) ->
  (forall x, has2 x = true <-> carries_tag_of cat2 x) ->
  let cols1 := filter has1 ar_cols in
  let cols2 := filter has2 ar_cols in
  let mean cols (r : protein) :=
    fold_right Rplus 0 (map (abundance r) cols) / INR (List.length cols) in
  let pval r := ttest (map (abundance r) cols1) (map (abundance r) cols2) in
  (forall table,
      comparison ttest data ar_cols cat1 cat2 = Ok table ->
      (forall acc fc p, In (acc, fc, p) table ->
         p < 1 / 1000 /\
         exists r, In r data /\ acc = Accession r /\ p = pval r /\
                   (mean cols2 r <> 0 ->
                    fc = Finite (ln (mean cols1 r / mean cols2 r) / ln 2))) /\
      (forall r, In r data -> pval r < 1 / 1000 ->
         exists fc, In (Accession r, fc, pval r) table)) /\
  ((forall r, In r data -> 0 < mean cols1 r /\ 0 < mean cols2 r) ->
   exists table,
     comparison ttest data ar_cols cat1 cat2 = Ok table /\
     forall acc fc p,
       In (acc, fc, p) table <->
       exists r, In r data /\ pval r < 1 / 1000 /\
                 acc = Accession r /\
                 fc = Finite (ln (mean cols1 r / mean cols2 r) / ln 2) /\
                 p = pval r).
Proof.
  intros carries_tag_of Hhas1 Hhas2 cols1 cols2 mean pval.
  unfold comparison, compare_pair.
  rewrite (find_cols_filter cat1 has1 ar_cols Hhas1).
  rewrite (find_cols_filter cat2 has2 ar_cols Hhas2).
  fold cols1 cols2.
  assert (Hmean : forall cols r,
            row_mean (map (abundance r) cols) = mean cols r).
  { intros cols r. rewrite row_mean_R. unfold mean.
    now rewrite length_map. }
  split.
  - intros table E.
    destruct (mapM (fold_change ttest cols1 cols2) data) as [df|e] eqn:Em;
      cbn [bind] in E; [|discriminate].
    injection E as <-. split.
    + intros acc fc p Hin. apply filter_In in Hin. destruct Hin as (Hin & Hp).
      cbn in Hp. apply Rltb_true_iff in Hp. split; [exact Hp|].
      destruct (mapM_In _ _ _ _ Em Hin) as (r & Hr & Er).
      exists r. split; [exact Hr|].
      destruct (fold_change_finite ttest cols1 cols2 r acc fc p Er)
        as (Hacc & Hpv & Hfc).
      rewrite !Hmean in Hfc. auto.
    + intros r Hr Hp.
      destruct (mapM_In_rev _ _ _ _ Em Hr) as ([[acc fc] p] & Er & Hin).
      destruct (fold_change_finite _ _ _ _ _ _ _ Er) as (-> & -> & _).
      exists fc. apply filter_In. split; [exact Hin|].
      cbn. now apply Rltb_true_iff.
  - intros Hpos.
    assert (Hrows : mapM (fold_change ttest cols1 cols2) data
                    = Ok (map (fun r =>
                                 (Accession r,
                                  Finite (ln (mean cols1 r / mean cols2 r)
                                          / ln 2),
                                  pval r)) data)).
    { clear - Hpos Hmean. induction data as [|r data IH]; [reflexivity|].
      cbn [mapM map].
      destruct (Hpos r (or_introl eq_refl)) as (H1 & H2).
      destruct (fold_change_total ttest cols1 cols2 r) as ([[acc fc] p] & Er);
        [now rewrite Hmean | now rewrite Hmean |].
      rewrite Er.
      destruct (fold_change_finite _ _ _ _ _ _ _ Er) as (-> & -> & Hfc).
      rewrite !Hmean in Hfc. rewrite Hfc by lra.
      rewrite IH by (intros r' Hr'; apply Hpos; now right).
      reflexivity. }
    rewrite Hrows. cbn [bind]. eexists. split; [reflexivity|].
    intros acc fc p. rewrite filter_In, in_map_iff. cbn [snd].
    change (ltb p p_cutoff) with (Rltb p (1 / 1000)).
    rewrite Rltb_true_iff. split.
    + intros ((r & E & Hr) & Hp). injection E as <- <- <-.
      exists r. repeat split; assumption.
    + intros (r & Hr & Hp & -> & -> & ->). split; [|exact Hp].
      exists r. split; [reflexivity | exact Hr].
Qed.

Lemma fold_change_is_log2_of_mean_ratio_witness :
  exists table,
    comparison Examples.pvalue_by_means Examples.proteins Examples.ar_cols
      mitoParp control = Ok table /\
    In ("P12345"%string,
        Finite (ln ((4 + 0) / INR 1 / ((1 + 0) / INR 1)) / ln 2), 0) table.
Proof.
  pose (has1 := fun x =>
          contains "F3, 127N" x || contains "F2, 130N" x
          || contains "F1, 129C" x).
  pose (has2 := fun x =>
          contains "F1, 127N" x || contains "F2, 127C" x
          || contains "F3, 128C" x).
  destruct (fold_change_is_log2_of_mean_ratio Examples.pvalue_by_means
              Examples.proteins Examples.ar_cols mitoParp control has1 has2)
    as (_ & Htable).
  - intros x. apply has_tag_spec.
  - intros x. apply has_tag_spec.
  - change (filter has1 Examples.ar_cols)
      with ["Abundance Ratio: (F3, 127N) / (F1, 126)"%string] in Htable.
    change (filter has2 Examples.ar_cols)
      with ["Abundance Ratio: (F1, 127N) / (F1, 126)"%string] in Htable.
    destruct Htable as (table & E & Hin).
    + intros r [<-|[<-|[]]]; cbn; lra.
    + exists table. split; [exact E|]. apply Hin.
      eexists. split; [left; reflexivity|].
      unfold Examples.pvalue_by_means, row_mean. cbn.
      destruct (Req_dec_T ((0 + 4) / 1) ((0 + 1) / 1)) as [E'|_];
        [exfalso; lra|].
      repeat split. lra.
Defined.

End FoldChangeProperties.

Section TurnoverExamples.
Import NewUtils.

Lemma turnover_from_poolsize_and_half_life_witness :
  exists dpars',
    get_turnover (T:=R) Examples.dpars_hela Examples.nad_conc_hela
      "HeLa" "HeLa" false = Ok dpars' /\
    exists r', nth_error dpars' 0 = Some r' /\
               turnover r' = Some ((10 / 2) / 4)%R /\
               poolsize r' = Some 10%R.
Proof.
  destruct (turnover_from_poolsize_and_half_life (T:=R)
              Examples.dpars_hela Examples.nad_conc_hela "HeLa" "HeLa" false
              4%R 10%R) as ((dpars' & E & _ & Hrows) & _).
  - reflexivity.
  - reflexivity.
  - exists dpars'. split; [exact E|].
    destruct (Hrows 0%nat _ eq_refl) as (r' & Hr' & _ & Hturn & Hpool).
    exists r'. repeat split; assumption.
Defined.

(** The same call in binary64, for the cell "mP" with growth correction:
    (6 / 2) / 2 = 1.5, and the line of the other cell is untouched. *)
Lemma get_turnover_binary64_example :
  exists dpars',
    get_turnover (T:=float) Examples.dpars_hela Examples.nad_conc_hela
      "mP" "HeLa" true = Ok dpars' /\
    map turnover dpars' = [None; Some 1.5%float] /\
    map poolsize dpars' = [None; Some 6%float].
Proof.
  eexists. split; [vm_compute; reflexivity|].
  split; vm_compute; reflexivity.
Qed.

End TurnoverExamples.

(** ** Exceptions *)

Section Exceptions.
Import HalfLifeEstimation.
Variable DataFrame obj resample_kw table : Type.
Variable analyse_rawfiles : string -> result DataFrame.
Variable pd_concat : list DataFrame -> result DataFrame.
Variable os_path_join : string -> string -> string.
Variable estimate_half_life_cyto_mito :
  DataFrame -> obj -> obj -> obj -> obj -> bool -> bool -> result (list obj).
Variable calc_gradient_zero_cyto_mito :
  list obj -> obj -> obj -> result (list obj).
Variable groupby_Exp : DataFrame -> result (list (string * DataFrame)).
Variable n_samples : DataFrame -> result obj.
Variable estimate_half_life : DataFrame -> bool -> bool -> result (list obj).
Variable half_life_resampling :
  DataFrame -> bool -> bool -> resample_kw -> result (list obj).
Variable plot_fit :
  string -> DataFrame -> obj -> obj -> option string -> result unit.
Variable from_dict : list (string * list obj) -> list string -> result table.
Variable to_csv : table -> string -> result unit.

Let half_life_table :=
  calc_half_life_table DataFrame obj resample_kw table analyse_rawfiles
    pd_concat os_path_join estimate_half_life_cyto_mito
    calc_gradient_zero_cyto_mito groupby_Exp n_samples estimate_half_life
    half_life_resampling plot_fit from_dict to_csv.

(** An exception that leaves the first branch is the [TypeError] of its
    [raise] statement or comes from a call. *)
Lemma load_input_raises input_data input_suffix input_folder e :
  load_input DataFrame analyse_rawfiles pd_concat os_path_join input_data
    input_suffix input_folder = Raise e ->
  (input_data = InputOther DataFrame /\ e = TypeError) \/
  (exists glob, analyse_rawfiles glob = Raise e) \/
  (exists dfs, pd_concat dfs = Raise e).
Proof.
  destruct input_data as [glob_list|df|]; cbn.
  - match goal with
    | |- bind ?m _ = _ -> _ => destruct m as [dfs|e0] eqn:Eglobs
    end; cbn [bind].
    + intros E. right. right. now exists dfs.
    + intros [= <-]. apply mapM_Raise in Eglobs.
      destruct Eglobs as (glob & _ & Ex). right. left. eexists. exact Ex.
  - discriminate.
  - intros [= <-]. now left.
Qed.

Lemma cyto_mito_entry_raises df pretty_print show_factors entry e :
  cyto_mito_entry DataFrame obj estimate_half_life_cyto_mito
    calc_gradient_zero_cyto_mito df pretty_print show_factors entry
  = Raise e ->
  (List.length (snd entry) <> 4%nat /\ e = ValueError) \/
  (exists a b c d,
      estimate_half_life_cyto_mito df a b c d pretty_print show_factors
      = Raise e) \/
  (exists results c d, calc_gradient_zero_cyto_mito results c d = Raise e).
Proof.
  destruct entry as [name factors]. cbn [cyto_mito_entry snd].
  destruct factors as [|a [|b [|c [|d [|x factors]]]]];
    try (intros [= <-]; left; split; [cbn; lia | reflexivity]).
  destruct (estimate_half_life_cyto_mito df a b c d pretty_print show_factors)
    as [results|e0] eqn:Eest; cbn [bind].
  - destruct show_factors; [|discriminate].
    destruct (calc_gradient_zero_cyto_mito results c d) as [t|e1] eqn:Egrad;
      cbn [bind]; [discriminate|].
    intros [= <-]. right. right. now exists results, c, d.
  - intros [= <-]. right. left. now exists a, b, c, d.
Qed.

Lemma single_entry_raises resample show_factors pretty_print plot_fit_graphs
    graphs_outfolder group e :
  single_entry DataFrame obj resample_kw n_samples estimate_half_life
    half_life_resampling plot_fit resample show_factors pretty_print
    plot_fit_graphs graphs_outfolder group = Raise e ->
  (plot_fit_graphs = true /\ show_factors = false /\ e = ValueError) \/
  (plot_fit_graphs = true /\ show_factors = true /\ e = IndexError) \/
  (exists data, n_samples data = Raise e) \/
  (exists data, estimate_half_life data pretty_print show_factors = Raise e) \/
  (exists data kw,
      half_life_resampling data show_factors pretty_print kw = Raise e) \/
  (exists name data p x, plot_fit name data p x graphs_outfolder = Raise e).
Proof.
  destruct group as [name data]. cbn [single_entry].
  destruct (n_samples data) as [n|e0] eqn:En; cbn [bind];
    [|intros [= <-]; some_disjunct].
  match goal with
  | |- bind ?m _ = _ -> _ => destruct m as [hl|e0] eqn:Ehl
  end; cbn [bind].
  - destruct plot_fit_graphs, show_factors; cbn [andb negb];
      try discriminate.
    + unfold item.
      destruct (nth_error (hl ++ [n]) 2) as [p|]; cbn [bind];
        [|intros [= <-]; some_disjunct].
      destruct (nth_error (hl ++ [n]) 4) as [x|]; cbn [bind];
        [|intros [= <-]; some_disjunct].
      destruct (plot_fit name data p x graphs_outfolder) as [[]|e0] eqn:Ep;
        cbn [bind]; [discriminate|].
      intros [= <-]. some_disjunct.
    + intros [= <-]. some_disjunct.
  - intros [= <-]. destruct resample as [kw|]; some_disjunct.
Qed.

(** C8 (amended): the [raise] statements of [calc_half_life_table] and
    [analyse_rawfiles] raise [TypeError] (an input that is neither a list
    nor a frame), [NotImplementedError] ([cyto_mito] together with
    [resample]) and [ValueError] ([plot_fit_graphs] without
    [show_factors], once the first group has been estimated; for
    [analyse_rawfiles], an input whose second item is neither a str nor a
    frame).  Every other exception that leaves [calc_half_life_table] comes
    from unpacking a [cyto_mito] entry that has not four items
    ([ValueError]), from indexing a list of factors that is too short
    ([IndexError]), or from one of the calls it makes, whatever that call
    raises. *)
Theorem raised_exceptions :
  (forall cyto_mito resample show_factors input_suffix input_folder
          pretty_print plot_fit_graphs graphs_outfolder outputfile,
      half_life_table (InputOther DataFrame) cyto_mito resample show_factors
        input_suffix input_folder pretty_print plot_fit_graphs
        graphs_outfolder outputfile
      = Raise TypeError) /\
  (forall df entry cyto_mito kw show_factors input_suffix input_folder
          pretty_print plot_fit_graphs graphs_outfolder outputfile,
      half_life_table (InputFrame DataFrame df) (entry :: cyto_mito) (Some kw)
        show_factors input_suffix input_folder pretty_print plot_fit_graphs
        graphs_outfolder outputfile
      = Raise NotImplementedError) /\
  (forall df resample input_suffix input_folder pretty_print
          graphs_outfolder outputfile name data groups n hl,
      groupby_Exp df = Ok ((name, data) :: groups) ->
      n_samples data = Ok n ->
      match resample with
      | Some kw => half_life_resampling data false pretty_print kw
      | None => estimate_half_life data pretty_print false
      end = Ok hl ->
      half_life_table (InputFrame DataFrame df) [] resample false
        input_suffix input_folder pretty_print true graphs_outfolder
        outputfile
      = Raise ValueError) /\
  (forall (T : Type) (A : Arith T) read_glob splitext_basename sort_index
          correction name iso show,
      ConvertCsv.analyse_rawfiles (T:=T) read_glob splitext_basename
        sort_index correction
        (ConvertCsv.InputTuple name ConvertCsv.ObjOther) iso show
      = Raise ValueError) /\
  (forall input_data cyto_mito resample show_factors input_suffix
          input_folder pretty_print plot_fit_graphs graphs_outfolder
          outputfile e,
      half_life_table input_data cyto_mito resample show_factors
        input_suffix input_folder pretty_print plot_fit_graphs
        graphs_outfolder outputfile = Raise e ->
      (input_data = InputOther DataFrame /\ e = TypeError) \/
      (cyto_mito <> [] /\ resample <> None /\ e = NotImplementedError) \/
      (cyto_mito = [] /\ plot_fit_graphs = true /\ show_factors = false /\
       e = ValueError) \/
      ((exists entry, In entry cyto_mito /\
                      List.length (snd entry) <> 4%nat) /\
       e = ValueError) \/
      (cyto_mito = [] /\ plot_fit_graphs = true /\ show_factors = true /\
       e = IndexError) \/
      (exists glob, analyse_rawfiles glob = Raise e) \/
      (exists dfs, pd_concat dfs = Raise e) \/
      (exists df a b c d,
          estimate_half_life_cyto_mito df a b c d pretty_print show_factors
          = Raise e) \/
      (exists results c d,
          calc_gradient_zero_cyto_mito results c d = Raise e) \/
      (exists df, groupby_Exp df = Raise e) \/
      (exists data, n_samples data = Raise e) \/
      (exists data,
          estimate_half_life data pretty_print show_factors = Raise e) \/
      (exists data kw,
          half_life_resampling data show_factors pretty_print kw = Raise e) \/
      (exists name data p x,
          plot_fit name data p x graphs_outfolder = Raise e) \/
      (exists half_life columns, from_dict half_life columns = Raise e) \/
      (exists t file, to_csv t file = Raise e)).
Proof.
  split; [reflexivity|]. split; [reflexivity|]. split; [|split].
  - intros df resample input_suffix input_folder pretty_print
      graphs_outfolder outputfile name data groups n hl Eg En Ehl.
    unfold half_life_table, calc_half_life_table. cbn [load_input bind].
    rewrite Eg. cbn [bind mapM single_entry]. rewrite En. cbn [bind].
    rewrite Ehl. cbn [bind]. reflexivity.
  - intros T A read_glob splitext_basename sort_index correction name iso
      show. reflexivity.
  - intros input_data cyto_mito resample show_factors input_suffix
      input_folder pretty_print plot_fit_graphs graphs_outfolder outputfile
      e.
    unfold half_life_table, calc_half_life_table.
    destruct (load_input DataFrame analyse_rawfiles pd_concat os_path_join
                input_data input_suffix input_folder) as [df|e0] eqn:Ein;
      cbn [bind].
    2:{ intros [= <-].
        destruct (load_input_raises _ _ _ _ Ein) as [H|[H|H]];
          some_disjunct. }
    match goal with
    | |- bind ?m _ = _ -> _ => destruct m as [filled|e0] eqn:Efill
    end; cbn [bind].
    + destruct (from_dict (fst filled) (snd filled)) as [t|e0] eqn:Efrom;
        cbn [bind]; [|intros [= <-]; some_disjunct].
      destruct (truthy outputfile) as [file|]; [|discriminate].
      destruct (to_csv t file) as [[]|e0] eqn:Ecsv; cbn [bind];
        [discriminate|].
      intros [= <-]. some_disjunct.
    + intros [= <-]. destruct cyto_mito as [|entry cyto_mito].
      * destruct (groupby_Exp df) as [groups|e1] eqn:Eg; cbn [bind] in Efill;
          [|injection Efill as <-; some_disjunct].
        match type of Efill with
        | bind ?m _ = _ => destruct m as [hl|e1] eqn:Eloop
        end; cbn [bind] in Efill; [discriminate|].
        injection Efill as <-. apply mapM_Raise in Eloop.
        destruct Eloop as (group & _ & Ex).
        destruct (single_entry_raises _ _ _ _ _ _ _ Ex)
          as [(-> & -> & ->)|[(-> & -> & ->)|[H|[H|[H|H]]]]];
          some_disjunct.
      * destruct resample as [kw|].
        -- injection Efill as <-. right. left.
           repeat split; discriminate.
        -- match type of Efill with
           | bind ?m _ = _ => destruct m as [hl|e1] eqn:Eloop
           end; cbn [bind] in Efill; [discriminate|].
           injection Efill as <-. apply mapM_Raise in Eloop.
           destruct Eloop as (x & Hx & Ex).
           destruct (cyto_mito_entry_raises _ _ _ _ _ Ex)
             as [(Hlen & ->)|[H|H]]; some_disjunct.
Qed.

End Exceptions.

(** C8, as stated, fails: [calc_half_life_table] raises a [TypeError] when
    its input is neither a list nor a frame, and a [NotImplementedError]
    when [cyto_mito] and [resample] are both given. *)
Lemma calc_half_life_table_raises_TypeError :
  HalfLifeEstimation.calc_half_life_table unit unit unit unit
    (fun _ => Ok tt) (fun _ => Ok tt) (fun _ g => g)
    (fun _ _ _ _ _ _ _ => Ok []) (fun _ _ _ => Ok [])
    (fun _ => Ok []) (fun _ => Ok tt) (fun _ _ _ => Ok [])
    (fun _ _ _ _ => Ok []) (fun _ _ _ _ _ => Ok tt) (fun _ _ => Ok tt)
    (fun _ _ => Ok tt)
    (HalfLifeEstimation.InputOther unit) [] None false None None true false
    None None
  = Raise TypeError /\
  HalfLifeEstimation.calc_half_life_table unit unit unit unit
    (fun _ => Ok tt) (fun _ => Ok tt) (fun _ g => g)
    (fun _ _ _ _ _ _ _ => Ok []) (fun _ _ _ => Ok [])
    (fun _ => Ok []) (fun _ => Ok tt) (fun _ _ _ => Ok [])
    (fun _ _ _ _ => Ok []) (fun _ _ _ _ _ => Ok tt) (fun _ _ => Ok tt)
    (fun _ _ => Ok tt)
    (HalfLifeEstimation.InputFrame unit tt)
    [("cell"%string, [tt; tt; tt; tt])] (Some tt)
    false None None true false None None
  = Raise NotImplementedError /\
  TypeError <> ValueError /\ TypeError <> KeyError /\
  NotImplementedError <> ValueError /\ NotImplementedError <> KeyError.
Proof. repeat split; discriminate. Qed.

Lemma raised_exceptions_witness :
  (* one group, estimated, and a plot asked for without the factors *)
  HalfLifeEstimation.calc_half_life_table unit unit unit unit
    (fun _ => Raise KeyError) (fun _ => Ok tt) (fun _ g => g)
    (fun _ _ _ _ _ _ _ => Ok []) (fun _ _ _ => Ok [])
    (fun _ => Ok [("exp"%string, tt)]) (fun _ => Ok tt)
    (fun _ _ _ => Ok [tt; tt])
    (fun _ _ _ _ => Ok []) (fun _ _ _ _ _ => Ok tt) (fun _ _ => Ok tt)
    (fun _ _ => Ok tt)
    (HalfLifeEstimation.InputFrame unit tt) [] None false None None true true
    None None
  = Raise ValueError /\
  (* a file without the columns: the [KeyError] of the call comes through *)
  HalfLifeEstimation.calc_half_life_table unit unit unit unit
    (fun _ => Raise KeyError) (fun _ => Ok tt) (fun _ g => g)
    (fun _ _ _ _ _ _ _ => Ok []) (fun _ _ _ => Ok [])
    (fun _ => Ok [("exp"%string, tt)]) (fun _ => Ok tt)
    (fun _ _ _ => Ok [tt; tt])
    (fun _ _ _ _ => Ok []) (fun _ _ _ _ _ => Ok tt) (fun _ _ => Ok tt)
    (fun _ _ => Ok tt)
    (HalfLifeEstimation.InputList unit ["a.csv"%string]) [] None false None
    None true false None None
  = Raise KeyError /\
  exists glob : string,
    (fun _ : string => @Raise unit KeyError) glob = Raise KeyError.
Proof.
  destruct (raised_exceptions unit unit unit unit
              (fun _ => Raise KeyError) (fun _ => Ok tt) (fun _ g => g)
              (fun _ _ _ _ _ _ _ => Ok []) (fun _ _ _ => Ok [])
              (fun _ => Ok [("exp"%string, tt)]) (fun _ => Ok tt)
              (fun _ _ _ => Ok [tt; tt])
              (fun _ _ _ _ => Ok []) (fun _ _ _ _ _ => Ok tt)
              (fun _ _ => Ok tt) (fun _ _ => Ok tt))
    as (_ & _ & Hvalue & _ & Hall).
  split; [|split].
  - apply (Hvalue tt None None None true None None "exp"%string tt [] tt
             [tt; tt]); reflexivity.
  - reflexivity.
  - destruct (Hall (HalfLifeEstimation.InputList unit ["a.csv"%string]) []
                None false None None true false None None KeyError eq_refl)
      as [(_ & E)|[(_ & _ & E)|[(_ & _ & _ & E)|[(_ & E)|[(_ & _ & _ & E)|
          [(glob & E)|H]]]]]]; try discriminate E.
    + exists glob. exact E.
    + exfalso.
      repeat match type of H with
             | _ \/ _ => destruct H as [H|H]
             end;
        repeat match type of H with
               | exists _, _ => destruct H as (? & H)
               end;
        discriminate H.
Defined.

(** * Further properties of the code *)

(** ** Growth fit, compartment turnover and gradients *)

Section GrowthAndGradients.
Import HalfLifeEstimation NewUtils Gradients.
Local Open Scope R_scope.

(** X1: The fitted growth curve is the complement of the decay curve with
    the same factors, and the time that [calc_half_life] returns (the one
    [estimate_half_life] reports for a growth fit) is the time at which
    the growth curve reaches one half. *)
Theorem growth_reaches_half_at_calc_half_life (a b : R) :
  0 < a -> b <> 0 ->
  (forall x, func_exp_growth x a b = 1 - func_exp_decay x a b) /\
  func_exp_growth (calc_half_life a b) a b = 1 / 2.
Proof.
  intros Ha Hb.
  assert (Hc : forall x, func_exp_growth x a b = 1 - func_exp_decay x a b).
  { intros x. unfold func_exp_growth, func_exp_decay. cbn. ring. }
  split; [exact Hc|].
  rewrite Hc, func_exp_decay_at_calc_half_life by assumption. lra.
Qed.

Lemma growth_reaches_half_at_calc_half_life_witness :
  func_exp_growth (calc_half_life 3 2) 3 2 = 1 / 2.
Proof.
  destruct (growth_reaches_half_at_calc_half_life 3 2) as (_ & H);
    [lra | lra | exact H].
Defined.

Lemma getitem_ge {A} `{Arith A} (l : list A) (i : nat) :
  (i < List.length l)%nat -> exists v, getitem l i = Ok v.
Proof.
  intros Hi. unfold getitem.
  destruct (nth_error l i) as [v|] eqn:E; [now exists v|].
  apply nth_error_None in E. lia.
Qed.

Lemma getitem_lt {A} `{Arith A} (l : list A) (i : nat) :
  (List.length l <= i)%nat -> getitem l i = Raise IndexError.
Proof.
  intros Hi. unfold getitem.
  now rewrite (proj2 (nth_error_None l i) Hi).
Qed.

(** X2: With at least six factors [calc_turnover_cyto_mito] returns, the
    cell turnover is the sum of the cytosolic and the mitochondrial
    turnover, and each of the two is what [calc_turnover_cell] gives for
    that compartment alone; with fewer factors it raises [IndexError]. *)
Theorem turnover_cell_is_sum_of_compartments
    (factors : list R) (nad_amount_cyto nad_amount_mito : R) :
  ((6 <= List.length factors)%nat ->
   exists ec em pc pm cell cyto mito,
     getitem factors 2 = Ok ec /\ getitem factors 3 = Ok em /\
     getitem factors 4 = Ok pc /\ getitem factors 5 = Ok pm /\
     calc_turnover_cyto_mito factors nad_amount_cyto nad_amount_mito
       = Ok (cell, cyto, mito) /\
     cell = cyto + mito /\
     cyto = calc_turnover_cell pc ec nad_amount_cyto /\
     mito = calc_turnover_cell pm em nad_amount_mito) /\
  ((List.length factors < 6)%nat ->
   calc_turnover_cyto_mito factors nad_amount_cyto nad_amount_mito
     = Raise IndexError).
Proof.
  split.
  - intros Hlen.
    destruct (getitem_ge factors 2) as (ec & E2); [lia|].
    destruct (getitem_ge factors 3) as (em & E3); [lia|].
    destruct (getitem_ge factors 4) as (pc & E4); [lia|].
    destruct (getitem_ge factors 5) as (pm & E5); [lia|].
    exists ec, em, pc, pm.
    unfold calc_turnover_cyto_mito. rewrite E2, E3, E4, E5. cbn [bind].
    eexists. eexists. eexists. repeat split.
    + unfold func_decay_cell, func_exp_decay. cbn. ring.
    + rewrite calc_turnover_cell_R. unfold func_exp_decay. cbn.
      rewrite Rmult_1_r. reflexivity.
    + rewrite calc_turnover_cell_R. unfold func_exp_decay. cbn.
      rewrite Rmult_1_r. reflexivity.
  - intros Hlen. unfold calc_turnover_cyto_mito.
    destruct (le_lt_dec (List.length factors) 2) as [L2|L2];
      [now rewrite (getitem_lt factors 2 L2)|].
    destruct (getitem_ge factors 2 L2) as (v2 & ->). cbn [bind].
    destruct (le_lt_dec (List.length factors) 3) as [L3|L3];
      [now rewrite (getitem_lt factors 3 L3)|].
    destruct (getitem_ge factors 3 L3) as (v3 & ->). cbn [bind].
    destruct (le_lt_dec (List.length factors) 4) as [L4|L4];
      [now rewrite (getitem_lt factors 4 L4)|].
    destruct (getitem_ge factors 4 L4) as (v4 & ->). cbn [bind].
    rewrite (getitem_lt factors 5) by lia. reflexivity.
Qed.

Lemma turnover_cell_is_sum_of_compartments_witness :
  exists cell cyto mito,
    calc_turnover_cyto_mito [7; 9; 1; 2; 1; 1] 3 5 = Ok (cell, cyto, mito) /\
    cell = cyto + mito /\
    calc_turnover_cyto_mito [7; 9; 1; 2; 1] 3 5 = Raise IndexError.
Proof.
  destruct (turnover_cell_is_sum_of_compartments [7; 9; 1; 2; 1; 1] 3 5)
    as (H & _).
  destruct H as (ec & em & pc & pm & cell & cyto & mito
                 & _ & _ & _ & _ & E & Hsum & _); [cbn; lia|].
  exists cell, cyto, mito. split; [exact E|]. split; [exact Hsum|].
  apply (turnover_cell_is_sum_of_compartments [7; 9; 1; 2; 1] 3 5).
  cbn. lia.
Defined.

Lemma math_sqrt_nonneg (x : R) : 0 <= x -> math_sqrt x = Ok (R_sqrt.sqrt x).
Proof.
  intros Hx. unfold math_sqrt. cbn. unfold Rltb.
  destruct (Rlt_dec x 0); [lra | reflexivity].
Qed.

Lemma is_finite_R (x : R) : is_finite x = true.
Proof.
  unfold is_finite. cbn. unfold Reqb.
  destruct (Req_dec_T (x - x) 0); [reflexivity | lra].
Qed.

Lemma py_square_R (x : R) : py_square x = Ok (x * x).
Proof.
  unfold py_square. now rewrite !is_finite_R.
Qed.

Lemma py_truediv_R (x y : R) : y <> 0 -> py_truediv x y = Ok (x / y).
Proof.
  intros Hy. unfold py_truediv. cbn. now rewrite (Reqb_false y 0 Hy).
Qed.


(** Away from zero divisors the variance is the sum of the three squared
    relative errors. *)
Lemma _calc_gradient_variance_R (p ps e es n ns : R) :
  p <> 0 -> e <> 0 -> n <> 0 ->
  _calc_gradient_variance p ps e es n ns
  = Ok ((ps / p)² + (es / e)² + (ns / n)²).
Proof.
  intros Hp He Hn. unfold _calc_gradient_variance.
  rewrite (py_truediv_R ps p Hp), (py_truediv_R es e He),
    (py_truediv_R ns n Hn).
  cbn [bind]. rewrite !py_square_R. reflexivity.
Qed.


Lemma relative_variance_nonneg (a b c : R) : 0 <= a² + b² + c².
Proof.
  pose proof (Rle_0_sqr a). pose proof (Rle_0_sqr b).
  pose proof (Rle_0_sqr c). lra.
Qed.

(** The slope of the decay curve scaled by the NAD amount, at time 0. *)
Lemma decay_slope_at_zero (p e n : R) :
  derivable_pt_lim (fun t => n * func_exp_decay t p e) 0 (- (p * e * n)).
Proof.
  replace (- (p * e * n))
    with (n * (p * (Rtrigo_def.exp (- e * 0) * (- e * 1))))
    by (rewrite Rmult_0_r, exp_0; ring).
  change (derivable_pt_lim
            (mult_real_fct n
               (mult_real_fct p (comp Rtrigo_def.exp (mult_real_fct (- e) id))))
            0 (n * (p * (Rtrigo_def.exp (- e * 0) * (- e * 1))))).
  apply derivable_pt_lim_scal, derivable_pt_lim_scal.
  apply derivable_pt_lim_comp.
  - apply derivable_pt_lim_scal, derivable_pt_lim_id.
  - apply derivable_pt_lim_exp.
Qed.

(** X3: [calc_gradient_zero_cell] never raises for non-zero factors: its
    gradient is minus the slope at time 0 of the decay curve scaled by the
    NAD amount, and the standard deviation it reports is the relative one
    (the square root of the sum of the squared relative errors, not
    multiplied by the gradient). *)
Theorem gradient_is_slope_at_zero
    (prefactor prefactor_std exp_factor exp_factor_std nad_amount_cell
       nad_amount_cell_std : R) :
  prefactor <> 0 -> exp_factor <> 0 -> nad_amount_cell <> 0 ->
  exists gradient gradient_std,
    calc_gradient_zero_cell prefactor prefactor_std exp_factor exp_factor_std
      nad_amount_cell nad_amount_cell_std = Ok (gradient, gradient_std) /\
    derivable_pt_lim
      (fun t => nad_amount_cell * func_exp_decay t prefactor exp_factor)
      0 (- gradient) /\
    0 <= gradient_std /\
    gradient_std * gradient_std
    = (prefactor_std / prefactor)² + (exp_factor_std / exp_factor)²
      + (nad_amount_cell_std / nad_amount_cell)².
Proof.
  intros Hp He Hn. unfold calc_gradient_zero_cell.
  rewrite (_calc_gradient_variance_R _ _ _ _ _ _ Hp He Hn). cbn [bind].
  rewrite math_sqrt_nonneg by apply relative_variance_nonneg.
  cbn [bind]. eexists. eexists. split; [reflexivity|].
  split; [apply decay_slope_at_zero|]. split; [apply sqrt_pos|].
  rewrite sqrt_sqrt by apply relative_variance_nonneg.
  reflexivity.
Qed.

Lemma gradient_is_slope_at_zero_witness :
  exists gradient gradient_std,
    calc_gradient_zero_cell 1 0 2 0 3 0 = Ok (gradient, gradient_std) /\
    derivable_pt_lim (fun t => 3 * func_exp_decay t 1 2) 0 (- gradient).
Proof.
  destruct (gradient_is_slope_at_zero 1 0 2 0 3 0)
    as (g & gs & E & Hd & _); [lra | lra | lra |].
  exists g, gs. split; assumption.
Defined.



(** The two partial derivatives of the half-life [ln (2 a) / b]. *)
Lemma calc_half_life_partial_prefactor (a b : R) :
  0 < a ->
  derivable_pt_lim (fun a' => calc_half_life a' b) a (/ (a * b)).
Proof.
  intros Ha.
  destruct (Req_dec_T b 0) as [->|Hb].
  - apply (derivable_pt_lim_ext (fct_cte 0)).
    + intros z. unfold calc_half_life, fct_cte. cbn.
      unfold Rdiv. now rewrite Rinv_0, Rmult_0_r.
    + rewrite Rmult_0_r, Rinv_0. apply derivable_pt_lim_const.
  - replace (/ (a * b)) with (/ (2 * a) * (2 * 1) / b) by (field; lra).
    change (derivable_pt_lim
              (fun a' => comp ln (mult_real_fct 2 id) a' / b) a
              (/ (2 * a) * (2 * 1) / b)).
    apply derivable_pt_lim_div_scal, derivable_pt_lim_comp.
    + apply derivable_pt_lim_scal, derivable_pt_lim_id.
    + apply derivable_pt_lim_ln. unfold mult_real_fct, id. lra.
Qed.

Lemma calc_half_life_partial_exp_factor (a b : R) :
  b <> 0 ->
  derivable_pt_lim (fun b' => calc_half_life a b') b (- (ln (2 * a) / b²)).
Proof.
  intros Hb.
  replace (- (ln (2 * a) / b²))
    with ((0 * id b - 1 * fct_cte (ln (2 * a)) b) / (id b)²)
    by (unfold id, fct_cte, Rsqr; field; exact Hb).
  change (derivable_pt_lim (fct_cte (ln (2 * a)) / id)%F b
            ((0 * id b - 1 * fct_cte (ln (2 * a)) b) / (id b)²)).
  apply derivable_pt_lim_div.
  - apply derivable_pt_lim_const.
  - apply derivable_pt_lim_id.
  - exact Hb.
Qed.

(** X5: [calc_half_life_standard_deviation] is the first-order error
    propagation for [calc_half_life]: for [a > 0], [b <> 0] and a 2x2
    covariance matrix with non-negative variances, its square is the sum
    of the squared partial derivatives of the half-life with respect to
    the prefactor and to the exponential factor, each times the variance
    of that parameter.  The covariances are not used. *)
Theorem half_life_sd_is_first_order_propagation (a b c00 c01 c10 c11 : R) :
  0 < a -> b <> 0 -> 0 <= c00 -> 0 <= c11 ->
  exists d_prefactor d_exp_factor sd,
    derivable_pt_lim (fun a' => calc_half_life a' b) a d_prefactor /\
    derivable_pt_lim (fun b' => calc_half_life a b') b d_exp_factor /\
    calc_half_life_standard_deviation a b [[c00; c01]; [c10; c11]] = Ok sd /\
    0 <= sd /\
    sd * sd = d_prefactor² * c00 + d_exp_factor² * c11.
Proof.
  intros Ha Hb H0 H1.
  exists (/ (a * b)), (- (ln (2 * a) / b²)). eexists.
  split; [now apply calc_half_life_partial_prefactor|].
  split; [now apply calc_half_life_partial_exp_factor|].
  split; [now apply calc_half_life_standard_deviation_R|].
  split; [apply sqrt_pos|].
  rewrite sqrt_sqrt.
  - rewrite <- Rsqr_neg. ring.
  - pose proof (Rle_0_sqr (/ (a * b))).
    pose proof (Rle_0_sqr (ln (2 * a) / b²)). nra.
Qed.

Lemma half_life_sd_is_first_order_propagation_witness :
  exists sd,
    calc_half_life_standard_deviation 1 2 [[4; 1]; [1; 9]] = Ok sd /\
    0 <= sd.
Proof.
  destruct (half_life_sd_is_first_order_propagation 1 2 4 1 1 9)
    as (da & db & sd & _ & _ & E & Hsd & _); try lra.
  exists sd. split; assumption.
Defined.

(** X6: For a positive decay rate [b] and a 2x2 covariance matrix with
    non-negative variances, the error that [half_life] of new_utils.py
    returns is [ln 2 / b^2] times the standard error of [b], that is, the
    absolute derivative of [ln 2 / b] times that standard error; and it
    is what [calc_half_life_standard_deviation] gives for the prefactor 1
    when the prefactor has no variance. *)
Theorem half_life_error_is_first_order_propagation (a b c00 c01 c10 c11 : R) :
  0 < b -> 0 <= c11 ->
  exists hl err,
    half_life [a; b] [[c00; c01]; [c10; c11]] = Ok (hl, err) /\
    derivable_pt_lim (fun b' => ln 2 / b') b (- (ln 2 / b²)) /\
    err = ln 2 / b² * R_sqrt.sqrt c11 /\
    calc_half_life_standard_deviation 1 b [[0; c01]; [c10; c11]] = Ok err /\
    calc_half_life 1 b = hl.
Proof.
  intros Hb H1. rewrite half_life_R. eexists. eexists.
  split; [reflexivity|].
  assert (Hs : 0 <= R_sqrt.sqrt c11) by apply sqrt_pos.
  assert (Hl := ln_2_pos).
  assert (Herr : ln 2 / b
                 * R_sqrt.sqrt (R_sqrt.sqrt c11 / b * (R_sqrt.sqrt c11 / b))
                 = ln 2 / b² * R_sqrt.sqrt c11).
  { rewrite sqrt_square.
    - unfold Rsqr. field. lra.
    - apply Rmult_le_pos; [exact Hs|]. left. now apply Rinv_0_lt_compat. }
  split; [|split; [exact Herr|split]].
  - pose proof (calc_half_life_partial_exp_factor 1 b ltac:(lra)) as Hd.
    rewrite Rmult_1_r in Hd.
    apply (derivable_pt_lim_ext (fun b' => calc_half_life 1 b')); [|exact Hd].
    intros z. rewrite calc_half_life_R. now rewrite Rmult_1_r.
  - rewrite calc_half_life_standard_deviation_R by lra.
    rewrite Herr. f_equal. rewrite Rmult_0_l, Rplus_0_l, Rmult_1_r.
    replace (c11 * (ln 2 / b²)²)
      with ((ln 2 / b² * R_sqrt.sqrt c11) * (ln 2 / b² * R_sqrt.sqrt c11)).
    + apply sqrt_square. apply Rmult_le_pos; [|exact Hs].
      apply Rmult_le_pos; [lra|]. left. apply Rinv_0_lt_compat.
      unfold Rsqr. nra.
    + pose proof (sqrt_sqrt c11 H1) as E. unfold Rsqr.
      replace (ln 2 / (b * b) * R_sqrt.sqrt c11
               * (ln 2 / (b * b) * R_sqrt.sqrt c11))
        with (R_sqrt.sqrt c11 * R_sqrt.sqrt c11
              * (ln 2 / (b * b) * (ln 2 / (b * b)))) by ring.
      now rewrite E.
  - rewrite calc_half_life_R. now rewrite Rmult_1_r.
Qed.

Lemma half_life_error_is_first_order_propagation_witness :
  exists hl err,
    half_life [1; 2] [[0; 0]; [0; 9]] = Ok (hl, err) /\
    err = ln 2 / 2² * R_sqrt.sqrt 9.
Proof.
  destruct (half_life_error_is_first_order_propagation 1 2 0 0 0 9)
    as (hl & err & E & _ & Herr & _); try lra.
  exists hl, err. split; assumption.
Defined.

End GrowthAndGradients.

(** ** Cleaning and reading frames *)

Section Frames.
Import ConvertCsv ModelOutput.
Local Open Scope R_scope.

Lemma Reqb_true (x : R) : Reqb x x = true.
Proof. unfold Reqb. destruct (Req_dec_T x x); [reflexivity | contradiction]. Qed.

Lemma clean_app (df1 df2 : list (raw_row (T:=R))) :
  clean (df1 ++ df2) = clean df1 ++ clean df2.
Proof. unfold clean. now rewrite !filter_app, map_app. Qed.

(** Whether [clean] keeps a line, read off its six data cells. *)
Lemma clean_one (r : raw_row (T:=R)) :
  clean [r]
  = if existsb cell_ne_0 (subset r) && negb (forallb isna (subset r))
    then [ {| Time_in_hours := fillna0 (raw_Time_in_minutes r) / 60;
              Experiment := raw_Experiment r;
              No_label := fillna0 (raw_No_label r);
              N15 := fillna0 (raw_N15 r);
              _5C13 := fillna0 (raw_5C13 r);
              _5C13N15 := fillna0 (raw_5C13N15 r);
              _10C13 := fillna0 (raw_10C13 r);
              _10C13N15 := fillna0 (raw_10C13N15 r) |} ]
    else [].
Proof.
  unfold clean. cbn [filter].
  destruct (existsb cell_ne_0 (subset r)); cbn [filter andb map];
    [|reflexivity].
  destruct (forallb isna (subset r)); reflexivity.
Qed.

(** X7: [clean] works line by line.  A line whose six data cells are all
    0, or all missing, is dropped; a line with a non-zero number is kept,
    its missing cells read as 0.  But a line that has only zeros and
    missing cells, at least one of each, is kept as well and comes out
    with all six values 0. *)
Theorem clean_line_by_line :
  (forall df1 df2 : list (raw_row (T:=R)),
      clean (df1 ++ df2) = clean df1 ++ clean df2) /\
  (forall r : raw_row (T:=R),
      (forall c, In c (subset r) -> c = Some 0) -> clean [r] = []) /\
  (forall r : raw_row (T:=R),
      (forall c, In c (subset r) -> c = None) -> clean [r] = []) /\
  (forall (r : raw_row (T:=R)) x,
      In (Some x) (subset r) -> x <> 0 ->
      exists o, clean [r] = [o] /\ labels o = map fillna0 (subset r)) /\
  (forall r : raw_row (T:=R),
      (forall c, In c (subset r) -> c = None \/ c = Some 0) ->
      In None (subset r) -> In (Some 0) (subset r) ->
      exists o, clean [r] = [o] /\ labels o = [0; 0; 0; 0; 0; 0]).
Proof.
  split; [exact clean_app|]. split; [|split; [|split]].
  - intros r Hall. rewrite clean_one.
    replace (existsb cell_ne_0 (subset r)) with false; [reflexivity|].
    symmetry. apply not_true_is_false. intros E.
    apply existsb_exists in E. destruct E as (c & Hc & Ec).
    rewrite (Hall c Hc) in Ec. cbn in Ec. now rewrite Reqb_true in Ec.
  - intros r Hall. rewrite clean_one.
    replace (forallb isna (subset r)) with true;
      [now rewrite andb_false_r|].
    symmetry. apply forallb_forall. intros c Hc. now rewrite (Hall c Hc).
  - intros r x Hin Hx. rewrite clean_one.
    replace (existsb cell_ne_0 (subset r)) with true.
    + replace (forallb isna (subset r)) with false.
      * eexists. split; reflexivity.
      * symmetry. apply not_true_is_false. intros E.
        rewrite forallb_forall in E. specialize (E _ Hin). discriminate.
    + symmetry. apply existsb_exists. exists (Some x). split; [exact Hin|].
      cbn. now rewrite Reqb_false.
  - intros r Hall Hna Hzero. rewrite clean_one.
    replace (existsb cell_ne_0 (subset r)) with true.
    + replace (forallb isna (subset r)) with false.
      * eexists. split; [reflexivity|].
        unfold labels. cbn [No_label N15 _5C13 _5C13N15 _10C13 _10C13N15].
        assert (Hf : forall c, In c (subset r) -> fillna0 c = 0).
        { intros c Hc. destruct (Hall c Hc) as [-> | ->]; reflexivity. }
        unfold subset in Hf.
        rewrite !Hf by (cbn; tauto). reflexivity.
      * symmetry. apply not_true_is_false. intros E.
        rewrite forallb_forall in E. specialize (E _ Hzero). discriminate.
    + symmetry. apply existsb_exists. exists None. split; [exact Hna|].
      reflexivity.
Qed.

Lemma clean_line_by_line_witness :
  exists o : row (T:=R),
    clean [MoreExamples.na_and_zeros] = [o] /\
    labels o = [0; 0; 0; 0; 0; 0].
Proof.
  destruct clean_line_by_line as (_ & _ & _ & _ & H).
  apply (H MoreExamples.na_and_zeros).
  - intros c Hc. cbn in Hc. intuition.
  - cbn. tauto.
  - cbn. tauto.
Defined.

Lemma percent_in_range (a t : R) :
  0 <= a <= t -> 0 < t -> 0 <= a / t * 100 <= 100.
Proof.
  intros Ha Ht. set (q := a / t).
  assert (Hq : q * t = a) by (unfold q; field; lra).
  assert (0 <= q <= 1) by nra. lra.
Qed.

(** X8: On measurements without missing or negative values, and without
    isotopologue correction, every line that [analyse_rawfiles] returns
    has a positive total, both percentages lie between 0 and 100 and add
    up to 100, and the optional scaled columns add up to the scaling
    amount (exact arithmetic; [sort_index] only reorders lines). *)
Theorem analyse_rawfiles_percentages_well_defined
    (read_glob : string -> list (list (raw_row (T:=R))))
    (splitext_basename : string -> string)
    (sort_index correction : list (row (T:=R)) -> list (row (T:=R)))
    (i : input_data) (show : bool)
    (df : list raw_row) (name : string) (rows : list out_row) :
  (forall l r, In r (sort_index l) -> In r l) ->
  load read_glob splitext_basename i = Ok (df, name) ->
  (forall r c, In r df -> In c (subset r) -> exists x, c = Some x /\ 0 <= x) ->
  analyse_rawfiles read_glob splitext_basename sort_index correction
    i false show = Ok rows ->
  forall o, In o rows ->
    0 < out_No_label o + sum_labelled o /\
    0 <= no_label_percent o <= 100 /\
    0 <= sum_labelled_percent o <= 100 /\
    no_label_percent o + sum_labelled_percent o = 100 /\
    forall k a b, scaled_columns (Some k) o = Some (a, b) -> a + b = k.
Proof.
  intros Hsort Hload Hdata E o Ho.
  unfold analyse_rawfiles in E. rewrite Hload in E. cbn [bind fst snd] in E.
  injection E as <-. apply in_map_iff in Ho. destruct Ho as (r & <- & Hr).
  apply Hsort in Hr. unfold clean in Hr.
  apply in_map_iff in Hr. destruct Hr as (raw & <- & Hraw).
  apply filter_In in Hraw. destruct Hraw as (Hraw & _).
  apply filter_In in Hraw. destruct Hraw as (Hraw & Hne).
  apply existsb_exists in Hne. destruct Hne as (c & Hc & Hcne).
  assert (Hpos : forall c', In c' (subset raw) -> 0 <= fillna0 c').
  { intros c' Hc'. destruct (Hdata raw c' Hraw Hc') as (x & -> & Hx).
    exact Hx. }
  assert (Hone : 0 < fillna0 c).
  { destruct (Hdata raw c Hraw Hc) as (x & -> & Hx). cbn in Hcne |- *.
    destruct (Req_dec_T x 0) as [->|Hx0]; [now rewrite Reqb_true in Hcne|].
    lra. }
  unfold subset in Hpos, Hc.
  pose proof (Hpos _ (or_introl eq_refl)) as P1.
  pose proof (Hpos _ (or_intror (or_introl eq_refl))) as P2.
  pose proof (Hpos _ (or_intror (or_intror (or_introl eq_refl)))) as P3.
  pose proof (Hpos _ (or_intror (or_intror (or_intror (or_introl eq_refl)))))
    as P4.
  pose proof (Hpos _ (or_intror (or_intror (or_intror (or_intror
                (or_introl eq_refl)))))) as P5.
  pose proof (Hpos _ (or_intror (or_intror (or_intror (or_intror
                (or_intror (or_introl eq_refl))))))) as P6.
  cbn [percent_columns out_No_label sum_labelled no_label_percent
         sum_labelled_percent No_label N15 _5C13 _5C13N15 _10C13 _10C13N15].
  cbn [add mul div lit Arith_R].
  set (v1 := fillna0 (raw_No_label raw)) in *.
  set (v2 := fillna0 (raw_N15 raw)) in *.
  set (v3 := fillna0 (raw_5C13 raw)) in *.
  set (v4 := fillna0 (raw_5C13N15 raw)) in *.
  set (v5 := fillna0 (raw_10C13 raw)) in *.
  set (v6 := fillna0 (raw_10C13N15 raw)) in *.
  assert (Htot : 0 < v1 + (v2 + v3 + v4 + v5 + v6)).
  { cbn in Hc. destruct Hc as [<-|[<-|[<-|[<-|[<-|[<-|[]]]]]]];
      fold v1 v2 v3 v4 v5 v6 in Hone; lra. }
  split; [exact Htot|].
  split; [apply percent_in_range; lra|].
  split; [apply percent_in_range; lra|].
  assert (Hsum : v1 / (v1 + (v2 + v3 + v4 + v5 + v6)) * 100
                 + (v2 + v3 + v4 + v5 + v6)
                   / (v1 + (v2 + v3 + v4 + v5 + v6)) * 100 = 100)
    by (field; lra).
  split; [exact Hsum|].
  intros k a b. unfold scaled_columns.
  cbn [no_label_percent sum_labelled_percent eqb mul div lit Arith_R].
  destruct (Reqb k 0); [discriminate|]. intros [= <- <-].
  transitivity
    ((v1 / (v1 + (v2 + v3 + v4 + v5 + v6)) * 100
      + (v2 + v3 + v4 + v5 + v6) / (v1 + (v2 + v3 + v4 + v5 + v6)) * 100)
     * k / 100); [field; lra|].
  rewrite Hsum. field.
Qed.

Lemma analyse_rawfiles_percentages_well_defined_witness :
  exists o : out_row (T:=R),
    Examples.analyse_frame [Examples.one_to_two] = Ok [o] /\
    0 <= no_label_percent o <= 100.
Proof.
  assert (E : exists o : out_row (T:=R),
             Examples.analyse_frame [Examples.one_to_two] = Ok [o]).
  { unfold Examples.analyse_frame, analyse_rawfiles, clean. cbn.
    rewrite (Reqb_false 1 0) by lra. cbn. eexists. reflexivity. }
  destruct E as (o & E). exists o. split; [exact E|].
  unfold Examples.analyse_frame in E.
  refine (proj1 (proj2 (analyse_rawfiles_percentages_well_defined
            _ _ (fun d => d) _ _ _ [Examples.one_to_two] "exp"%string _
            _ _ _ E o _))).
  - intros l r Hr. exact Hr.
  - reflexivity.
  - intros r c [<-|[]] Hc. cbn in Hc.
    destruct Hc as [<-|[<-|[<-|[<-|[<-|[<-|[]]]]]]];
      eexists; (split; [reflexivity | cbn; lra]).
  - now left.
Defined.

Lemma Rleb_true_iff (x y : R) : Rleb x y = true <-> x <= y.
Proof.
  unfold Rleb. destruct (Rle_dec x y); split; intros; try easy.
Qed.

Lemma read_one_In (read_csv : string -> list (model_row (T:=R)))
    (basename_splitext : string -> string) (start_time : R) (file : string)
    (o : model_out) :
  In o (read_one read_csv basename_splitext start_time file) <->
  exists r, In r (read_csv file) /\ start_time <= Time r /\
    o = {| mo_Time_in_hours := (Time r - start_time) / 60;
           mo_Time_in_minutes := Time r - start_time;
           mo_sum_labelled := Values_NAD_labelled_sum r;
           mo_No_label := NAD r;
           mo_no_label_percent :=
             NAD r / (NAD r + Values_NAD_labelled_sum r) * 100;
           mo_sum_labelled_percent :=
             Values_NAD_labelled_sum r
             / (NAD r + Values_NAD_labelled_sum r) * 100;
           mo_Exp := basename_splitext file |}.
Proof.
  unfold read_one. rewrite in_map_iff. split.
  - intros ([hours [minutes r]] & <- & Hin).
    apply filter_In in Hin. destruct Hin as (Hin & Hge).
    apply in_map_iff in Hin. destruct Hin as ([m r'] & [= <- <- <-] & Hin).
    apply in_map_iff in Hin. destruct Hin as (r0 & [= <- <-] & Hin).
    cbn [fst] in Hge. cbn in Hge. apply Rleb_true_iff in Hge.
    exists r0. split; [exact Hin|]. split; [lra | reflexivity].
  - intros (r & Hin & Hge & ->).
    exists ((Time r - start_time) / 60, (Time r - start_time, r)).
    split; [reflexivity|]. apply filter_In. split.
    + apply in_map_iff. exists (Time r - start_time, r).
      split; [reflexivity|]. apply in_map_iff. exists r. now split.
    + cbn. apply Rleb_true_iff. lra.
Qed.

(** X9: [read_model_output] raises [ValueError] on an empty list of
    files.  Otherwise it returns, for every file, exactly the lines whose
    [Time] is at or after [start_time], with the time counted from
    [start_time] (in minutes and, as the index, in hours), the file's base
    name in [Exp], and percent columns that add up to 100 where the total
    is not zero (exact arithmetic). *)
Theorem read_model_output_keeps_lines_from_start
    (read_csv : string -> list (model_row (T:=R)))
    (basename_splitext : string -> string) (start_time : R) :
  read_model_output read_csv basename_splitext (inr []) start_time
    = Raise ValueError /\
  (forall file, exists rows,
      read_model_output read_csv basename_splitext (inl file) start_time
        = Ok rows) /\
  (forall files rows,
      read_model_output read_csv basename_splitext files start_time
        = Ok rows ->
      forall o, In o rows <->
        exists file r,
          In file (match files with inl f => [f] | inr fs => fs end) /\
          In r (read_csv file) /\ start_time <= Time r /\
          mo_Exp o = basename_splitext file /\
          mo_Time_in_minutes o = Time r - start_time /\
          mo_Time_in_hours o = (Time r - start_time) / 60 /\
          0 <= mo_Time_in_hours o /\
          mo_No_label o = NAD r /\
          mo_sum_labelled o = Values_NAD_labelled_sum r /\
          mo_no_label_percent o
            = NAD r / (NAD r + Values_NAD_labelled_sum r) * 100 /\
          mo_sum_labelled_percent o
            = Values_NAD_labelled_sum r
              / (NAD r + Values_NAD_labelled_sum r) * 100 /\
          (NAD r + Values_NAD_labelled_sum r <> 0 ->
           mo_no_label_percent o + mo_sum_labelled_percent o = 100)).
Proof.
  split; [reflexivity|]. split.
  - intros file. eexists. reflexivity.
  - intros files rows E o. unfold read_model_output, pd_concat in E.
    set (fs := match files with inl f => [f] | inr fs => fs end) in *.
    assert (Hrows : rows
              = List.concat
                  (map (read_one read_csv basename_splitext start_time) fs)).
    { destruct (map _ fs); [discriminate | now injection E]. }
    rewrite Hrows, in_concat. split.
    + intros (l & Hl & Ho). apply in_map_iff in Hl.
      destruct Hl as (file & <- & Hfile).
      apply read_one_In in Ho. destruct Ho as (r & Hr & Hge & ->).
      exists file, r. cbn. repeat split; try assumption; try lra.
      intros Hne. field. exact Hne.
    + intros (file & r & Hfile & Hr & Hge & H1 & H2 & H3 & _ & H5 & H6
              & H7 & H8 & _).
      exists (read_one read_csv basename_splitext start_time file).
      split; [apply in_map; exact Hfile|].
      apply read_one_In. exists r. split; [exact Hr|]. split; [exact Hge|].
      destruct o. cbn in *. subst. reflexivity.
Qed.

Lemma read_model_output_keeps_lines_from_start_witness :
  exists rows,
    read_model_output
      (fun _ => [ {| Time := 10060; Values_NAD_labelled_sum := 1; NAD := 3 |};
                  {| Time := 9000; Values_NAD_labelled_sum := 1; NAD := 3 |} ])
      (fun f => f) (inl "run.txt"%string) 10000 = Ok rows /\
    forall o, In o rows -> 0 <= mo_Time_in_hours o.
Proof.
  destruct (read_model_output_keeps_lines_from_start
              (fun _ => [ {| Time := 10060; Values_NAD_labelled_sum := 1;
                             NAD := 3 |};
                          {| Time := 9000; Values_NAD_labelled_sum := 1;
                             NAD := 3 |} ])
              (fun f => f) 10000) as (_ & Htot & Hchar).
  destruct (Htot "run.txt"%string) as (rows & E).
  exists rows. split; [exact E|].
  intros o Ho. apply (Hchar _ _ E) in Ho.
  destruct Ho as (file & r & _ & _ & _ & _ & _ & _ & H & _). exact H.
Defined.

End Frames.

(** ** Percentages of a metabolite and the low-value filter *)

Section PercentBlocks.
Import ConvertCsv FoldChanges Pools.
Local Open Scope R_scope.

Lemma row_sum_scaled (l : list R) (t a : R) :
  fold_left Rplus (map (fun v => v / t * 100) l) (a / t * 100)
  = fold_left Rplus l a / t * 100.
Proof.
  revert a. induction l as [|v l IH]; intros a; cbn; [reflexivity|].
  rewrite <- IH. f_equal. unfold Rdiv. ring.
Qed.

Lemma row_sum_nonneg (l : list R) (a : R) :
  (forall v, In v l -> 0 <= v) -> a <= fold_left Rplus l a.
Proof.
  revert a. induction l as [|v l IH]; intros a Hl; cbn; [lra|].
  pose proof (Hl v (or_introl eq_refl)).
  specialize (IH (a + v) (fun w Hw => Hl w (or_intror Hw))). lra.
Qed.

Lemma row_sum_ge_member (l : list R) (a x : R) :
  (forall v, In v l -> 0 <= v) -> In x l -> a + x <= fold_left Rplus l a.
Proof.
  revert a. induction l as [|v l IH]; intros a Hl Hx; [destruct Hx|].
  cbn. destruct Hx as [->|Hx].
  - apply row_sum_nonneg. intros w Hw. apply Hl. now right.
  - pose proof (Hl v (or_introl eq_refl)).
    specialize (IH (a + v) (fun w Hw => Hl w (or_intror Hw)) Hx). lra.
Qed.

Lemma row_sum_zeros (l : list R) :
  (forall v, In v l -> v = 0) -> fold_left Rplus l 0 = 0.
Proof.
  induction l as [|v l IH]; intros Hl; cbn; [reflexivity|].
  rewrite (Hl v (or_introl eq_refl)), Rplus_0_l.
  apply IH. intros w Hw. apply Hl. now right.
Qed.

(** X10: The percentages of a metabolite on one line ([raw_to_percent],
    [transform_percent]) keep the column names and never contain NaN.
    Where the line total is not zero they are [value / total * 100] and add
    up to 100; where every value is 0 they are all 0.  [transform_percent]
    keeps the number of lines unless the list of metabolites is empty,
    in which case it returns the empty frame. *)
Theorem percent_block_sums_to_100 (cols : frame_row (T:=R)) :
  let total := row_sum (map snd cols) in
  map fst (percent_block cols) = map fst cols /\
  (forall c, In c (percent_block cols) -> snd c <> NaN) /\
  (total <> 0 ->
   map snd (percent_block cols)
     = map (fun c => Finite (snd c / total * 100)) cols /\
   row_sum (map (fun c => snd c / total * 100) cols) = 100) /\
  ((forall c, In c cols -> snd c = 0) ->
   forall c, In c (percent_block cols) -> snd c = Finite 0) /\
  (forall df met mets,
      List.length (transform_percent df (met :: mets)) = List.length df /\
      transform_percent df [] = []).
Proof.
  intros total. unfold percent_block. fold total.
  split; [now rewrite map_map|]. split; [|split; [|split]].
  - intros c Hc. apply in_map_iff in Hc. destruct Hc as (c0 & <- & _).
    cbn [snd]. unfold np_divide.
    destruct (eqb total (lit 0)); [|discriminate].
    destruct (ltb (lit 0) (snd c0)); [discriminate|].
    destruct (ltb (snd c0) (lit 0)); discriminate.
  - intros Hne. split.
    + rewrite map_map. apply map_ext. intros c. cbn [snd].
      unfold np_divide. cbn [eqb Arith_R lit].
      now rewrite (Reqb_false total 0 Hne).
    + unfold row_sum. cbn [add lit Arith_R].
      rewrite <- (map_map snd (fun v => v / total * 100)).
      replace 0 with (0 / total * 100) at 1 by (unfold Rdiv; ring).
      rewrite row_sum_scaled.
      change (fold_left Rplus (map snd cols) 0) with total.
      field. exact Hne.
  - intros Hzero c Hc. apply in_map_iff in Hc. destruct Hc as (c0 & <- & Hc0).
    cbn [snd]. rewrite (Hzero c0 Hc0).
    assert (Ht : total = 0).
    { unfold total, row_sum. apply row_sum_zeros.
      intros v Hv. apply in_map_iff in Hv. destruct Hv as (c1 & <- & Hc1).
      now apply Hzero. }
    rewrite Ht. unfold np_divide. cbn [eqb ltb Arith_R lit].
    rewrite Reqb_true. unfold Rltb.
    destruct (Rlt_dec 0 0); [lra|]. reflexivity.
  - intros df met mets. split; [|reflexivity].
    unfold transform_percent. apply length_map.
Qed.

Lemma percent_block_sums_to_100_witness :
  map snd (percent_block [("NAD", 1); ("NAD_N15", 3)]%string)
  = [Finite (1 / (0 + 1 + 3) * 100); Finite (3 / (0 + 1 + 3) * 100)].
Proof.
  destruct (percent_block_sums_to_100 [("NAD", 1); ("NAD_N15", 3)]%string)
    as (_ & _ & H & _).
  destruct H as (H & _); [cbn; lra | exact H].
Defined.

Lemma max_of_spec (l : list R) (m : R) :
  max_of l = Some m -> In m l /\ forall x, In x l -> x <= m.
Proof.
  revert m. induction l as [|v l IH]; intros m; cbn; [discriminate|].
  destruct (max_of l) as [m'|] eqn:E.
  - destruct (IH m' eq_refl) as (Hin & Hmax). cbn [ltb Arith_R].
    unfold Rltb. destruct (Rlt_dec m' v) as [Hlt|Hge]; intros [= <-].
    + split; [now left|]. intros x [<-|Hx]; [lra|].
      specialize (Hmax x Hx). lra.
    + split; [now right|]. intros x [<-|Hx]; [lra | now apply Hmax].
  - intros [= <-]. destruct l; [|cbn in E; destruct (max_of l); discriminate].
    split; [now left|]. intros x [<-|[]]. lra.
Qed.

Lemma max_of_nonempty (l : list R) : l <> [] -> exists m, max_of l = Some m.
Proof.
  destruct l as [|v l]; [contradiction|]. intros _. cbn.
  destruct (max_of l); eexists; reflexivity.
Qed.

Lemma In_select (names : list string) (r : frame_row (T:=R)) c :
  In c (select names r) -> In c r.
Proof.
  unfold select. rewrite in_flat_map. intros (n & _ & Hc).
  now apply filter_In in Hc.
Qed.

Lemma In_get_specific_columns met columns (r : frame_row (T:=R)) c :
  In c (get_specific_columns met columns r) -> In c r.
Proof.
  unfold get_specific_columns, met_columns. rewrite in_app_iff.
  intros [Hc|Hc]; now apply filter_In in Hc.
Qed.

(** X11: On non-negative data and with a non-negative threshold, every
    line that [remove_low_values] keeps is a line of the input (reduced to
    the specified columns) whose metabolite total is positive, so that the
    percentages of the line are defined.  With a threshold below 1 and at
    least one positive value, the result is not empty. *)
Theorem remove_low_values_keeps_positive_totals
    (first : frame_row (T:=R)) (rest : list (frame_row (T:=R)))
    (met : string) (threshold : R) (columns : list string) :
  let df := first :: rest in
  let names :=
    filter (fun i => String.eqb (column_prefix i) met)
      (map fst (get_specific_columns met columns first)) in
  let total r := row_sum (map snd (select names r)) in
  0 <= threshold ->
  (forall r c, In r df -> In c r -> 0 <= snd c) ->
  (forall r, In r (remove_low_values df met threshold columns) ->
     (exists r0, In r0 df /\ r = get_specific_columns met columns r0) /\
     0 < total r) /\
  (threshold < 1 ->
   (exists r c, In r df /\
                In c (select names (get_specific_columns met columns r)) /\
                0 < snd c) ->
   remove_low_values df met threshold columns <> []).
Proof.
  intros df names total Hth Hdata.
  set (df' := map (get_specific_columns met columns) df).
  set (values := fun r : frame_row (T:=R) => map snd (select names r)).
  assert (Hvals : forall r v, In r df' -> In v (values r) -> 0 <= v).
  { intros r v Hr Hv. apply in_map_iff in Hr. destruct Hr as (r0 & <- & Hr0).
    apply in_map_iff in Hv. destruct Hv as (c & <- & Hc).
    apply In_select, In_get_specific_columns in Hc. now apply (Hdata r0). }
  assert (Hall : forall v, In v (flat_map values df') -> 0 <= v).
  { intros v Hv. apply in_flat_map in Hv. destruct Hv as (r & Hr & Hv).
    now apply (Hvals r). }
  assert (Hdef : remove_low_values df met threshold columns
                 = match max_of (flat_map values df') with
                   | None => []
                   | Some max_value =>
                       filter (fun r => Rltb (threshold * max_value)
                                          (row_sum (values r))) df'
                   end) by reflexivity.
  rewrite Hdef. clear Hdef. split.
  - intros r Hr.
    destruct (max_of (flat_map values df')) as [m|] eqn:Em; [|destruct Hr].
    apply filter_In in Hr. destruct Hr as (Hr & Hgt).
    apply Rltb_true_iff in Hgt. split.
    + apply in_map_iff in Hr. destruct Hr as (r0 & <- & Hr0). now exists r0.
    + destruct (max_of_spec _ _ Em) as (Hm & _).
      pose proof (Hall m Hm). unfold total. fold (values r). nra.
  - intros Hlt (r & c & Hr & Hc & Hpos).
    assert (Hin : In (snd c) (flat_map values df')).
    { apply in_flat_map. exists (get_specific_columns met columns r).
      split; [now apply in_map|]. unfold values. now apply in_map. }
    destruct (max_of_nonempty (flat_map values df')) as (m & Em).
    { intros E. rewrite E in Hin. destruct Hin. }
    rewrite Em. destruct (max_of_spec _ _ Em) as (Hm & Hmax).
    pose proof (Hmax _ Hin) as Hge.
    apply in_flat_map in Hm. destruct Hm as (r1 & Hr1 & Hm1).
    intros E.
    assert (Hkeep : In r1 (filter (fun r => Rltb (threshold * m)
                                              (row_sum (values r))) df')).
    { apply filter_In. split; [exact Hr1|]. apply Rltb_true_iff.
      pose proof (row_sum_ge_member (values r1) 0 m
                    (fun v Hv => Hvals r1 v Hr1 Hv) Hm1) as Hsum.
      unfold row_sum. cbn [add lit Arith_R]. nra. }
    rewrite E in Hkeep. destruct Hkeep.
Qed.

Lemma remove_low_values_keeps_positive_totals_witness :
  remove_low_values MoreExamples.raw_nad "NAD" (1 / 10) ["time"%string] <> [].
Proof.
  apply (remove_low_values_keeps_positive_totals
           (hd [] MoreExamples.raw_nad) (tl MoreExamples.raw_nad)
           "NAD" (1 / 10) ["time"%string]).
  - lra.
  - intros r c Hr Hc. cbn in Hr.
    destruct Hr as [<-|[<-|[]]]; cbn in Hc;
      destruct Hc as [<-|[<-|[<-|[<-|[]]]]]; cbn; lra.
  - lra.
  - exists (hd [] MoreExamples.raw_nad), ("NAD"%string, 5).
    split; [now left|]. split; [cbn; tauto | cbn; lra].
Defined.

End PercentBlocks.

(** ** Pools and the turnover loop *)

Section PoolsAndTurnover.
Import NewUtils Pools.
Context {T : Type} `{Arith T}.
Local Open Scope num_scope.

Lemma In_unique (l : list string) (x : string) : In x (unique l) <-> In x l.
Proof.
  induction l as [|y l IH]; cbn; [tauto|]. split.
  - intros [->|Hx]; [now left|]. apply filter_In in Hx. right. now apply IH.
  - intros [->|Hx]; [now left|].
    destruct (String.eqb_spec x y) as [->|Hne]; [now left|]. right.
    apply filter_In. split; [now apply IH|].
    now apply negb_true_iff, String.eqb_neq.
Qed.

Lemma NoDup_filter {A} (f : A -> bool) (l : list A) :
  NoDup l -> NoDup (filter f l).
Proof.
  induction 1 as [|x l Hx Hl IH]; cbn; [constructor|].
  destruct (f x); [|exact IH]. constructor; [|exact IH].
  intros Hin. apply filter_In in Hin. now destruct Hin.
Qed.

Lemma NoDup_unique (l : list string) : NoDup (unique l).
Proof.
  induction l as [|y l IH]; cbn; constructor.
  - intros Hin. apply filter_In in Hin. destruct Hin as (_ & Hne).
    now rewrite String.eqb_refl in Hne.
  - now apply NoDup_filter.
Qed.

Lemma half_life_of_map (f : dpars_row -> dpars_row (T:=T)) dpars cell :
  (forall r, cell_type (f r) = cell_type r /\
             dp_half_life (f r) = dp_half_life r) ->
  half_life_of (map f dpars) cell = half_life_of dpars cell.
Proof.
  intros Hf. unfold half_life_of. f_equal.
  induction dpars as [|r dpars IH]; cbn; [reflexivity|].
  destruct (Hf r) as (-> & Hhl).
  destruct (String.eqb (cell_type r) cell); cbn; [|exact IH].
  now rewrite Hhl, IH.
Qed.

Lemma half_life_of_member (dpars : list (dpars_row (T:=T))) r :
  In r dpars -> exists hl, half_life_of dpars (cell_type r) = Ok hl.
Proof.
  intros Hr. unfold half_life_of.
  destruct (filter _ dpars) as [|r0 l] eqn:E.
  - assert (Hin : In r (filter (fun r' => String.eqb (cell_type r')
                                            (cell_type r)) dpars)).
    { apply filter_In. split; [exact Hr | apply String.eqb_refl]. }
    rewrite E in Hin. destruct Hin.
  - cbn. eexists. reflexivity.
Qed.

(** One call of [get_turnover], line by line. *)
Lemma get_turnover_step (dpars : list (dpars_row (T:=T))) nad_conc
    (cell cell_line : string) (growth_correction : bool) (hl p : T) :
  half_life_of dpars cell = Ok hl ->
  pool_of nad_conc cell cell_line = Ok p ->
  exists f,
    get_turnover dpars nad_conc cell cell_line growth_correction
      = Ok (map f dpars) /\
    forall r,
      cell_type (f r) = cell_type r /\
      dp_half_life (f r) = dp_half_life r /\
      (cell_type r = written_cell cell cell_line ->
       turnover (f r) = Some ((p / lit 2) / hl) /\ poolsize (f r) = Some p) /\
      (cell_type r <> written_cell cell cell_line -> f r = r).
Proof.
  unfold half_life_of, pool_of, written_cell, pool_name. intros Hhl Hp.
  unfold get_turnover.
  destruct (iloc0_map_other _ dp_half_life_error _ _ Hhl) as (hle & Hhle).
  destruct (iloc0_map_other _ sd _ _ Hp) as (pe & Hpe).
  rewrite Hhl. cbn [bind]. rewrite Hhle. cbn [bind].
  rewrite Hp. cbn [bind]. rewrite Hpe. cbn [bind].
  eexists. split; [reflexivity|]. intros r. cbn beta.
  destruct (String.eqb_spec (cell_type r)
              (if String.eqb (if String.eqb cell cell_line
                              then "wt"%string else cell) "wt"
               then cell_line
               else if String.eqb cell cell_line then "wt"%string else cell))
    as [E|E]; cbn; repeat split; try reflexivity; try tauto.
Qed.

Lemma get_turnover_loop_rows (nad_conc : list (conc_row (T:=T)))
    (cell_line : string) (growth_correction : bool) (cells : list string) :
  forall dpars : list (dpars_row (T:=T)),
  NoDup cells ->
  (forall c, In c cells -> written_cell c cell_line = c) ->
  (forall c, In c cells ->
     exists hl p, half_life_of dpars c = Ok hl /\
                  pool_of nad_conc c cell_line = Ok p) ->
  exists g,
    get_turnover_loop dpars nad_conc cells cell_line growth_correction
      = Ok (map g dpars) /\
    forall r,
      cell_type (g r) = cell_type r /\
      dp_half_life (g r) = dp_half_life r /\
      (In (cell_type r) cells ->
       forall hl p,
         half_life_of dpars (cell_type r) = Ok hl ->
         pool_of nad_conc (cell_type r) cell_line = Ok p ->
         turnover (g r) = Some ((p / lit 2) / hl)) /\
      (~ In (cell_type r) cells -> g r = r).
Proof.
  induction cells as [|cell cells IH]; intros dpars Hnd Hwr Hlook.
  - exists (fun r => r). cbn. rewrite map_id. split; [reflexivity|].
    intros r. repeat split; tauto.
  - inversion Hnd as [|? ? Hnotin Hnd']; subst.
    destruct (Hlook cell (or_introl eq_refl)) as (hl0 & p0 & Hhl0 & Hp0).
    destruct (get_turnover_step dpars nad_conc cell cell_line
                growth_correction hl0 p0 Hhl0 Hp0) as (f & Ef & Hf).
    rewrite (Hwr cell (or_introl eq_refl)) in Hf.
    assert (Hpres : forall r, cell_type (f r) = cell_type r /\
                              dp_half_life (f r) = dp_half_life r).
    { intros r. destruct (Hf r) as (A & B & _). now split. }
    destruct (IH (map f dpars) Hnd'
                (fun c Hc => Hwr c (or_intror Hc))) as (g & Eg & Hg).
    { intros c Hc. destruct (Hlook c (or_intror Hc)) as (hl & p & Hhl & Hp).
      exists hl, p. split; [|exact Hp].
      now rewrite (half_life_of_map f dpars c Hpres). }
    exists (fun r => g (f r)). cbn [get_turnover_loop]. rewrite Ef, Eg.
    split; [now rewrite map_map|]. intros r.
    destruct (Hf r) as (Fc & Fh & Fw & Fo).
    destruct (Hg (f r)) as (Gc & Gh & Gw & Go).
    split; [congruence|]. split; [congruence|]. split.
    + intros Hin hl p Hhl Hp.
      destruct (String.eqb_spec (cell_type r) cell) as [Ec|Ec].
      * rewrite Go by (rewrite Fc, Ec; exact Hnotin).
        destruct (Fw Ec) as (Ft & _). rewrite Ft.
        rewrite Ec in Hhl, Hp. congruence.
      * destruct Hin as [Hin|Hin]; [congruence|].
        apply Gw; rewrite ?Fc; try assumption.
        now rewrite (half_life_of_map f dpars _ Hpres).
    + intros Hnot. rewrite Go, Fo.
      * reflexivity.
      * intros E. apply Hnot. now left.
      * rewrite Fc. intros Hin. apply Hnot. now right.
Qed.

Lemma written_cell_self (c cell_line : string) :
  (c = "wt"%string -> cell_line = "wt"%string) -> written_cell c cell_line = c.
Proof.
  intros Hwt. unfold written_cell, pool_name.
  destruct (String.eqb_spec c cell_line) as [->|Hne]; [reflexivity|].
  destruct (String.eqb_spec c "wt") as [E|_]; [|reflexivity].
  exfalso. apply Hne. rewrite (Hwt E). exact E.
Qed.

(** X12: The loop of [estimate_turnover] gives every line its turnover:
    when no cell is called "wt" (unless "wt" is the cell line) and every
    cell has a pool size listed (the cell line under "wt"), the loop
    returns, keeps the lines, their cell types and half-lives, and every
    line ends with the turnover (poolsize / 2) / half_life of its own
    cell; a later call never overwrites the result of an earlier one. *)
Theorem estimate_turnover_loop_fills_every_line
    (dpars : list (dpars_row (T:=T))) (nad_conc : list (conc_row (T:=T)))
    (cell_line : string) (growth_correction : bool) :
  (forall r, In r dpars -> cell_type r = "wt"%string ->
             cell_line = "wt"%string) ->
  (forall r, In r dpars ->
     exists p, pool_of nad_conc (cell_type r) cell_line = Ok p) ->
  exists dpars',
    estimate_turnover_loop dpars nad_conc cell_line growth_correction
      = Ok dpars' /\
    List.length dpars' = List.length dpars /\
    forall i r, nth_error dpars i = Some r ->
      exists r' hl p,
        nth_error dpars' i = Some r' /\
        cell_type r' = cell_type r /\
        dp_half_life r' = dp_half_life r /\
        half_life_of dpars (cell_type r) = Ok hl /\
        pool_of nad_conc (cell_type r) cell_line = Ok p /\
        turnover r' = Some ((p / lit 2) / hl).
Proof.
  intros Hwt Hpool. unfold estimate_turnover_loop.
  assert (Hmem : forall c, In c (unique (map cell_type dpars)) ->
                           exists r, In r dpars /\ cell_type r = c).
  { intros c Hc. apply In_unique, in_map_iff in Hc.
    destruct Hc as (r & <- & Hr). now exists r. }
  destruct (get_turnover_loop_rows nad_conc cell_line growth_correction
              (unique (map cell_type dpars)) dpars) as (g & Eg & Hg).
  - apply NoDup_unique.
  - intros c Hc. destruct (Hmem c Hc) as (r & Hr & <-).
    apply written_cell_self. now apply Hwt.
  - intros c Hc. destruct (Hmem c Hc) as (r & Hr & <-).
    destruct (half_life_of_member dpars r Hr) as (hl & Hhl).
    destruct (Hpool r Hr) as (p & Hp). now exists hl, p.
  - exists (map g dpars). split; [exact Eg|]. split; [apply length_map|].
    intros i r Hi. assert (Hr : In r dpars) by (eapply nth_error_In; eauto).
    destruct (half_life_of_member dpars r Hr) as (hl & Hhl).
    destruct (Hpool r Hr) as (p & Hp).
    exists (g r), hl, p. rewrite nth_error_map, Hi. cbn [option_map].
    destruct (Hg r) as (Gc & Gh & Gw & _).
    repeat split; try assumption.
    apply Gw; try assumption.
    apply In_unique, in_map. exact Hr.
Qed.

(** X13: A call of [get_turnover] for a cell called "wt", when "wt" is not
    the cell line, reads the half-life and the pool of "wt" but writes the
    turnover into the lines of the cell line; the lines of "wt" stay as
    they are. *)
Theorem get_turnover_wt_writes_cell_line
    (dpars : list (dpars_row (T:=T))) (nad_conc : list (conc_row (T:=T)))
    (cell_line : string) (growth_correction : bool) (hl p : T) :
  cell_line <> "wt"%string ->
  half_life_of dpars "wt" = Ok hl ->
  pool_of nad_conc "wt" cell_line = Ok p ->
  exists dpars',
    get_turnover dpars nad_conc "wt" cell_line growth_correction
      = Ok dpars' /\
    forall i r, nth_error dpars i = Some r ->
      exists r', nth_error dpars' i = Some r' /\
        (cell_type r = "wt"%string -> r' = r) /\
        (cell_type r = cell_line ->
         turnover r' = Some ((p / lit 2) / hl) /\ poolsize r' = Some p).
Proof.
  intros Hne Hhl Hp.
  destruct (get_turnover_step dpars nad_conc "wt" cell_line
              growth_correction hl p Hhl Hp) as (f & Ef & Hf).
  assert (Hw : written_cell "wt" cell_line = cell_line).
  { unfold written_cell, pool_name.
    destruct (String.eqb_spec "wt" cell_line) as [E|_];
      [now symmetry in E|]. reflexivity. }
  rewrite Hw in Hf.
  exists (map f dpars). split; [exact Ef|]. intros i r Hi.
  exists (f r). rewrite nth_error_map, Hi. cbn [option_map].
  destruct (Hf r) as (_ & _ & Fw & Fo). repeat split.
  - intros E. apply Fo. congruence.
  - now apply Fw.
  - now apply Fw.
Qed.

End PoolsAndTurnover.

Section TurnoverLoopExamples.
Import NewUtils Pools.

Lemma estimate_turnover_loop_fills_every_line_witness :
  exists dpars',
    estimate_turnover_loop (T:=float) Examples.dpars_hela
      Examples.nad_conc_hela "HeLa" false = Ok dpars' /\
    map turnover dpars' = [Some 1.25%float; Some 1.5%float].
Proof.
  destruct (estimate_turnover_loop_fills_every_line (T:=float)
              Examples.dpars_hela Examples.nad_conc_hela "HeLa" false)
    as (dpars' & E & _ & _).
  - intros r [<-|[<-|[]]]; discriminate.
  - intros r [<-|[<-|[]]]; eexists; vm_compute; reflexivity.
  - exists dpars'. split; [exact E|].
    vm_compute in E. injection E as <-. vm_compute. reflexivity.
Defined.

Lemma get_turnover_wt_writes_cell_line_witness :
  exists dpars',
    get_turnover (T:=float) MoreExamples.dpars_with_wt
      Examples.nad_conc_hela "wt" "HeLa" false = Ok dpars' /\
    map turnover dpars' = [Some 2.5%float; None].
Proof.
  destruct (get_turnover_wt_writes_cell_line (T:=float)
              MoreExamples.dpars_with_wt Examples.nad_conc_hela "HeLa" false
              2%float 10%float)
    as (dpars' & E & _).
  - discriminate.
  - vm_compute. reflexivity.
  - vm_compute. reflexivity.
  - exists dpars'. split; [exact E|].
    vm_compute in E. injection E as <-. vm_compute. reflexivity.
Defined.

End TurnoverLoopExamples.

(** ** Pool correction *)

Section PoolCorrection.
Import NewUtils Pools.
Local Open Scope R_scope.

Lemma pool_entry_raises (nad_conc : list (conc_row (T:=R))) cell e :
  pool_entry nad_conc cell = Raise e -> e = IndexError.
Proof.
  unfold pool_entry, conc_of, iloc0.
  destruct (filter _ nad_conc); [|discriminate].
  destruct (filter _ nad_conc); [|discriminate]. now intros [= <-].
Qed.

Lemma conc_of_absent (nad_conc : list (conc_row (T:=R))) cell :
  (forall c, In c nad_conc -> conc_cell_type c <> cell) ->
  conc_of nad_conc cell = Raise IndexError.
Proof.
  intros Habs. unfold conc_of.
  destruct (filter _ nad_conc) as [|c l] eqn:E; [reflexivity|].
  assert (Hc : In c (filter (fun c0 => String.eqb (conc_cell_type c0) cell)
                       nad_conc)) by (rewrite E; now left).
  apply filter_In in Hc. destruct Hc as (Hc & Ec).
  apply String.eqb_eq in Ec. now destruct (Habs c Hc).
Qed.

(** X14: [get_pool_corrected] returns every line of the percentage frame
    (grouped by cell type) with its labelled and unlabelled percentage
    scaled by mean / 100 of the pool of its cell, or of the pool "wt" when
    the cell has none; so where the two percentages add up to 100 the two
    scaled values add up to the pool mean.  If a cell of the frame has no
    pool and there is no pool "wt", the call raises [IndexError]. *)
Theorem get_pool_corrected_scales_by_pool
    (iso_corr_percent : list (percent_row (T:=R)))
    (nad_conc : list (conc_row (T:=R))) :
  (forall rows,
      get_pool_corrected iso_corr_percent nad_conc = Ok rows ->
      (forall r, In r iso_corr_percent ->
                 exists p, In p rows /\ pool_source p = r) /\
      (forall p, In p rows ->
         In (pool_source p) iso_corr_percent /\
         exists c,
           pool_entry nad_conc (pr_cell_type (pool_source p)) = Ok c /\
           pool_corr p = pr_sum_labelled (pool_source p) * (mean c / 100) /\
           pool_corr_unlabelled p = pr_met (pool_source p) * (mean c / 100) /\
           (pr_sum_labelled (pool_source p) + pr_met (pool_source p) = 100 ->
            pool_corr p + pool_corr_unlabelled p = mean c))) /\
  (forall cell c,
      (forall c', In c' nad_conc -> conc_cell_type c' <> cell) ->
      conc_of nad_conc "wt" = Ok c ->
      pool_entry nad_conc cell = Ok c) /\
  (forall r,
      In r iso_corr_percent ->
      (forall c, In c nad_conc ->
         conc_cell_type c <> pr_cell_type r /\
         conc_cell_type c <> "wt"%string) ->
      get_pool_corrected iso_corr_percent nad_conc = Raise IndexError).
Proof.
  split; [|split].
  - intros rows E. unfold get_pool_corrected in E.
    match type of E with
    | bind ?m _ = _ => destruct m as [groups|e] eqn:Em
    end; cbn [bind] in E; [|discriminate].
    injection E as <-. split.
    + intros r Hr.
      assert (Hcell : In (pr_cell_type r)
                        (unique (map pr_cell_type iso_corr_percent)))
        by (apply In_unique, in_map; exact Hr).
      destruct (mapM_In_rev _ _ _ _ Em Hcell) as (g & Eg & Hg).
      destruct (pool_entry nad_conc (pr_cell_type r)) as [c|e];
        cbn [bind] in Eg; [|discriminate].
      injection Eg as <-.
      eexists. split.
      * apply in_concat. eexists. split; [exact Hg|].
        apply in_map. apply filter_In. split; [exact Hr|].
        apply String.eqb_refl.
      * reflexivity.
    + intros p Hp. apply in_concat in Hp. destruct Hp as (g & Hg & Hp).
      destruct (mapM_In _ _ _ _ Em Hg) as (cell & _ & Eg).
      destruct (pool_entry nad_conc cell) as [c|e] eqn:Ec;
        cbn [bind] in Eg; [|discriminate].
      injection Eg as <-. apply in_map_iff in Hp.
      destruct Hp as (r & <- & Hr). apply filter_In in Hr.
      destruct Hr as (Hr & Ecell). apply String.eqb_eq in Ecell.
      cbn [pool_source pool_corr pool_corr_unlabelled].
      split; [exact Hr|]. exists c. rewrite Ecell.
      split; [exact Ec|]. split; [reflexivity|]. split; [reflexivity|].
      intros Hsum. cbn.
      transitivity ((pr_sum_labelled r + pr_met r) * (mean c / 100));
        [ring|]. rewrite Hsum. field.
  - intros cell c Habs Hwt. unfold pool_entry.
    now rewrite (conc_of_absent nad_conc cell Habs).
  - intros r Hr Habs. unfold get_pool_corrected.
    match goal with
    | |- bind ?m _ = _ => destruct m as [groups|e] eqn:Em
    end; cbn [bind].
    + exfalso.
      assert (Hcell : In (pr_cell_type r)
                        (unique (map pr_cell_type iso_corr_percent)))
        by (apply In_unique, in_map; exact Hr).
      destruct (mapM_In_rev _ _ _ _ Em Hcell) as (g & Eg & _).
      unfold pool_entry in Eg.
      rewrite (conc_of_absent nad_conc (pr_cell_type r)) in Eg
        by (intros c Hc; now destruct (Habs c Hc)).
      rewrite (conc_of_absent nad_conc "wt") in Eg
        by (intros c Hc; now destruct (Habs c Hc)).
      discriminate.
    + f_equal. apply mapM_Raise in Em. destruct Em as (cell & _ & Ecell).
      destruct (pool_entry nad_conc cell) as [c|e'] eqn:Ec;
        cbn [bind] in Ecell; [discriminate|].
      injection Ecell as <-. now apply pool_entry_raises in Ec.
Qed.

Lemma get_pool_corrected_scales_by_pool_witness :
  exists rows,
    get_pool_corrected (T:=R) MoreExamples.percentages Examples.nad_conc_hela
      = Ok rows /\
    forall p, In p rows -> In (pool_source p) MoreExamples.percentages.
Proof.
  destruct (get_pool_corrected_scales_by_pool MoreExamples.percentages
              Examples.nad_conc_hela) as (H & _ & _).
  assert (E : exists rows,
             get_pool_corrected (T:=R) MoreExamples.percentages
               Examples.nad_conc_hela = Ok rows)
    by (eexists; reflexivity).
  destruct E as (rows & E). exists rows. split; [exact E|].
  intros p Hp. now apply (H rows E).
Defined.

End PoolCorrection.

(** ** Sample labels *)

Section Labels.
Import Pools.

Lemma py_split_nonempty (sep : ascii) (s : string) : py_split sep s <> [].
Proof.
  destruct s as [|c s]; cbn; [discriminate|].
  destruct (Ascii.eqb c sep); [discriminate|].
  destruct (py_split sep s); discriminate.
Qed.

Lemma py_split_no_sep (sep : ascii) (s : string) :
  has_char sep s = false -> py_split sep s = [s].
Proof.
  induction s as [|c s IH]; cbn; [reflexivity|].
  intros E. apply orb_false_iff in E. destruct E as (Ec & Es).
  rewrite Ec, (IH Es). reflexivity.
Qed.

Lemma py_split_app (sep : ascii) (a b : string) :
  py_split sep (a ++ String sep b) = py_split sep a ++ py_split sep b.
Proof.
  induction a as [|c a IH]; cbn.
  - now rewrite Ascii.eqb_refl.
  - destruct (Ascii.eqb c sep); [now rewrite IH|].
    rewrite IH. pose proof (py_split_nonempty sep a).
    destruct (py_split sep a); [contradiction | reflexivity].
Qed.

Lemma py_join_split (sep : ascii) (s : string) :
  py_join sep (py_split sep s) = s.
Proof.
  unfold py_join. induction s as [|c s IH]; cbn; [reflexivity|].
  destruct (Ascii.eqb_spec c sep) as [->|Hne].
  - pose proof (py_split_nonempty sep s).
    cbn. destruct (py_split sep s) eqn:E; [contradiction|].
    cbn in *. now rewrite IH.
  - pose proof (py_split_nonempty sep s).
    destruct (py_split sep s) as [|w ws] eqn:E; [contradiction|].
    cbn in *. destruct ws; cbn in *; now rewrite <- IH.
Qed.

Lemma has_char_app (c : ascii) (a b : string) :
  has_char c (a ++ b) = has_char c a || has_char c b.
Proof.
  induction a as [|x a IH]; cbn; [reflexivity|].
  now rewrite IH, orb_assoc.
Qed.

Lemma py_last_app {A} (l l' : list A) :
  l' <> [] -> py_last (l ++ l') = py_last l'.
Proof.
  intros Hne. induction l as [|x l IH]; cbn; [reflexivity|].
  destruct (l ++ l') eqn:E; [|exact IH].
  apply app_eq_nil in E. now destruct E.
Qed.

Lemma py_index_app (x : string) (l l' : list string) :
  ~ In x l -> py_index x (l ++ x :: l') = Ok (List.length l).
Proof.
  induction l as [|y l IH]; cbn; intros Hnot.
  - now rewrite String.eqb_refl.
  - destruct (String.eqb_spec y x) as [->|_]; [tauto|].
    rewrite IH by tauto. reflexivity.
Qed.

Lemma py_index_absent (x : string) (l : list string) :
  ~ In x l -> py_index x l = Raise ValueError.
Proof.
  induction l as [|y l IH]; cbn; intros Hnot; [reflexivity|].
  destruct (String.eqb_spec y x) as [->|_]; [tauto|].
  rewrite IH by tauto. reflexivity.
Qed.

Lemma firstn_app_exact {A} (l l' : list A) :
  firstn (List.length l) (l ++ l') = l.
Proof. induction l as [|x l IH]; cbn; [reflexivity | now rewrite IH]. Qed.

(** The three label functions on a sample of the form
    [cell type ++ " Cell " ++ time]. *)
Lemma sample_parts (cell_type time : string) :
  ~ In "Cell"%string (py_split " " cell_type) ->
  has_char " " time = false ->
  time_of (cell_type ++ " Cell " ++ time) = Ok time /\
  cell_type_of (cell_type ++ " Cell " ++ time) = Ok cell_type.
Proof.
  intros Hcell Htime. unfold time_of, cell_type_of.
  change (cell_type ++ " Cell " ++ time)%string
    with (cell_type ++ String " " ("Cell" ++ String " " time))%string.
  rewrite py_split_app, (py_split_app " " "Cell" time).
  rewrite (py_split_no_sep " " time Htime).
  change (py_split " " "Cell") with ["Cell"%string]. cbn [app]. split.
  - rewrite py_last_app by discriminate. reflexivity.
  - rewrite py_index_app by exact Hcell. cbn [bind].
    rewrite firstn_app_exact. now rewrite py_join_split.
Qed.

(** X15: The label functions of [read_data] take a sample label apart:
    on a label [cell type ++ " Cell " ++ time], where no word of the cell
    type is "Cell" and the time has no blank, [add_time_column] gives the
    time and [add_cell_type_column] gives the cell type back; on
    [text ++ "#" ++ number], where the number has no '#',
    [add_replicate_column] gives the number.  A label without the word
    "Cell" makes [add_cell_type_column] raise [ValueError]; the other two
    never raise. *)
Theorem sample_label_round_trip :
  (forall cell_type time,
      ~ In "Cell"%string (py_split " " cell_type) ->
      has_char " " time = false ->
      time_of (cell_type ++ " Cell " ++ time) = Ok time /\
      cell_type_of (cell_type ++ " Cell " ++ time) = Ok cell_type) /\
  (forall text number,
      has_char "#" number = false ->
      replicate_of (text ++ "#" ++ number) = Ok number) /\
  (forall sample,
      ~ In "Cell"%string (py_split " " sample) ->
      cell_type_of sample = Raise ValueError) /\
  (forall label, exists time replicate,
      time_of label = Ok time /\ replicate_of label = Ok replicate).
Proof.
  split; [exact sample_parts|]. split; [|split].
  - intros text number Hn. unfold replicate_of.
    change (text ++ "#" ++ number)%string
      with (text ++ String "#" number)%string.
    rewrite py_split_app, (py_split_no_sep "#" number Hn).
    rewrite py_last_app by discriminate. reflexivity.
  - intros sample Hnot. unfold cell_type_of.
    now rewrite py_index_absent.
  - intros label. unfold time_of, replicate_of.
    assert (Hlast : forall l : list string, l <> [] ->
                                            exists x, py_last l = Ok x).
    { induction l as [|x l IH]; [contradiction|]. intros _.
      destruct l as [|y l]; [now exists x|].
      destruct IH as (z & Ez); [discriminate|]. exists z. exact Ez. }
    destruct (Hlast _ (py_split_nonempty " " label)) as (t & Et).
    destruct (Hlast _ (py_split_nonempty "#" label)) as (r & Er).
    now exists t, r.
Qed.

Lemma sample_label_round_trip_witness :
  time_of "HeLa wt Cell 4h" = Ok "4h"%string /\
  cell_type_of "HeLa wt Cell 4h" = Ok "HeLa wt"%string /\
  replicate_of " replicate #2" = Ok "2"%string /\
  cell_type_of "HeLa wt 4h" = Raise ValueError.
Proof.
  destruct sample_label_round_trip as (H1 & H2 & H3 & _).
  destruct (H1 "HeLa wt" "4h")%string as (Ht & Hc).
  - cbn. intuition discriminate.
  - reflexivity.
  - split; [exact Ht|]. split; [exact Hc|]. split.
    + apply (H2 " replicate " "2")%string. reflexivity.
    + apply H3. cbn. intuition discriminate.
Defined.

Lemma mapM_map_ok {A B C} (f : B -> result C) (g : A -> B) (h : A -> C)
    (l : list A) :
  (forall x, In x l -> f (g x) = Ok (h x)) ->
  mapM f (map g l) = Ok (map h l).
Proof.
  induction l as [|x l IH]; cbn; intros Hf; [reflexivity|].
  rewrite (Hf x (or_introl eq_refl)), IH; [reflexivity|].
  intros y Hy. apply Hf. now right.
Qed.

Lemma combine_map3 {A B C D} (a : A -> B) (b : A -> C) (c : A -> D)
    (l : list A) :
  combine (combine (map a l) (map b l)) (map c l)
  = map (fun x => (a x, b x, c x)) l.
Proof. induction l as [|x l IH]; cbn; [reflexivity | now rewrite IH]. Qed.

Lemma max_of_threes {A} (l : list A) :
  l <> [] -> fold_right Nat.max 0%nat (map (fun _ => 3%nat) l) = 3%nat.
Proof.
  induction l as [|x l IH]; [contradiction|]. intros _. cbn [map fold_right].
  destruct l as [|y l]; [reflexivity|]. rewrite IH by discriminate.
  reflexivity.
Qed.

(** The three comma-separated parts of a well-formed label. *)
Lemma label_of_split (p : MoreExamples.label_parts) :
  let sample := (MoreExamples.lp_cell_type p ++ " Cell "
                   ++ MoreExamples.lp_time p)%string in
  let replicate := (MoreExamples.lp_text p ++ "#"
                      ++ MoreExamples.lp_number p)%string in
  has_char "," sample = false ->
  has_char "," replicate = false ->
  has_char "," (MoreExamples.lp_date p) = false ->
  py_split "," (MoreExamples.label_of p)
  = [sample; replicate; MoreExamples.lp_date p].
Proof.
  intros sample replicate Hs Hr Hd. unfold MoreExamples.label_of.
  fold sample replicate.
  change (sample ++ "," ++ replicate ++ "," ++ MoreExamples.lp_date p)%string
    with (sample ++ String ","
            (replicate ++ String "," (MoreExamples.lp_date p)))%string.
  rewrite py_split_app, py_split_app.
  now rewrite (py_split_no_sep _ _ Hs), (py_split_no_sep _ _ Hr),
    (py_split_no_sep _ _ Hd).
Qed.

(** X16: On a non-empty column of labels [cell type Cell time,text#number,
    date] (no comma inside the parts, no word "Cell" in the cell type, no
    blank in the time, no '#' in the number) the label branch of
    [read_data] returns, line by line, the time, the cell type and the
    replicate number. *)
Theorem read_sample_labels_round_trip (parts : list MoreExamples.label_parts) :
  parts <> [] ->
  (forall p, In p parts ->
     has_char "," (MoreExamples.lp_cell_type p) = false /\
     has_char "," (MoreExamples.lp_time p) = false /\
     has_char "," (MoreExamples.lp_text p) = false /\
     has_char "," (MoreExamples.lp_number p) = false /\
     has_char "," (MoreExamples.lp_date p) = false /\
     ~ In "Cell"%string (py_split " " (MoreExamples.lp_cell_type p)) /\
     has_char " " (MoreExamples.lp_time p) = false /\
     has_char "#" (MoreExamples.lp_number p) = false) ->
  read_sample_labels (map MoreExamples.label_of parts)
  = Ok (map (fun p => (MoreExamples.lp_time p, MoreExamples.lp_cell_type p,
                       MoreExamples.lp_number p)) parts).
Proof.
  intros Hne Hwf.
  assert (Hsplit : forall p, In p parts ->
            py_split "," (MoreExamples.label_of p)
            = [(MoreExamples.lp_cell_type p ++ " Cell "
                  ++ MoreExamples.lp_time p)%string;
               (MoreExamples.lp_text p ++ "#"
                  ++ MoreExamples.lp_number p)%string;
               MoreExamples.lp_date p]).
  { intros p Hp. destruct (Hwf p Hp) as (H1 & H2 & H3 & H4 & H5 & _).
    apply label_of_split.
    - rewrite !has_char_app, H1, H2. reflexivity.
    - rewrite !has_char_app, H3, H4. reflexivity.
    - exact H5. }
  unfold read_sample_labels, split_column_into_multiple_columns.
  rewrite !map_map.
  rewrite (map_ext_in _ (fun _ => 3%nat)) by
    (intros p Hp; now rewrite (Hsplit p Hp)).
  rewrite (max_of_threes parts Hne). cbn [List.length Nat.eqb bind].
  rewrite (map_ext_in _
             (fun p => [Some (MoreExamples.lp_cell_type p ++ " Cell "
                                ++ MoreExamples.lp_time p)%string;
                        Some (MoreExamples.lp_text p ++ "#"
                                ++ MoreExamples.lp_number p)%string;
                        Some (MoreExamples.lp_date p)]))
    by (intros p Hp; now rewrite (Hsplit p Hp)).
  rewrite (mapM_map_ok _ _ MoreExamples.lp_time).
  2:{ intros p Hp. destruct (Hwf p Hp) as (_ & _ & _ & _ & _ & Hc & Ht & _).
      cbn [nth]. now apply sample_parts. }
  cbn [bind].
  rewrite (mapM_map_ok _ _ MoreExamples.lp_cell_type).
  2:{ intros p Hp. destruct (Hwf p Hp) as (_ & _ & _ & _ & _ & Hc & Ht & _).
      cbn [nth]. now apply sample_parts. }
  cbn [bind].
  rewrite (mapM_map_ok _ _ MoreExamples.lp_number).
  2:{ intros p Hp. destruct (Hwf p Hp) as (_ & _ & _ & _ & _ & _ & _ & Hn).
      cbn [nth]. unfold replicate_of.
      change (MoreExamples.lp_text p ++ "#" ++ MoreExamples.lp_number p)%string
        with (MoreExamples.lp_text p
                ++ String "#" (MoreExamples.lp_number p))%string.
      rewrite py_split_app, (py_split_no_sep "#" _ Hn).
      rewrite py_last_app by discriminate. reflexivity. }
  cbn [bind]. now rewrite combine_map3.
Qed.

Lemma read_sample_labels_round_trip_witness :
  read_sample_labels ["HeLa wt Cell 4h, replicate #2, 2021-03-01"%string]
  = Ok [("4h", "HeLa wt", "2")%string].
Proof.
  apply (read_sample_labels_round_trip [MoreExamples.hela_4h]).
  - discriminate.
  - intros p [<-|[]]. cbn. intuition discriminate.
Defined.

End Labels.

Section TagsAndTitles.
Import FoldChanges Pools.
Local Open Scope string_scope.

(** X17: [find_cols] goes through the columns in their order and keeps a
    column, each time it is listed, exactly when one of the three tags
    occurs as a piece of its name ([pre ++ tag ++ post]): the result for
    [x :: cols] is [x] followed by the result for [cols] when [x] carries
    a tag, and the result for [cols] otherwise.  Hence a column is in the
    result if and only if it is searched and carries a tag, and searching
    the result again changes nothing. *)
Theorem find_cols_keeps_columns_with_a_tag (t0 t1 t2 : string) :
  let carries_tag x :=
    exists tag pre post,
      (tag = t0 \/ tag = t1 \/ tag = t2) /\ x = pre ++ tag ++ post in
  find_cols (t0, t1, t2) [] = [] /\
  (forall x cols,
      carries_tag x ->
      find_cols (t0, t1, t2) (x :: cols) = x :: find_cols (t0, t1, t2) cols) /\
  (forall x cols,
      ~ carries_tag x ->
      find_cols (t0, t1, t2) (x :: cols) = find_cols (t0, t1, t2) cols) /\
  (forall cols x,
      In x (find_cols (t0, t1, t2) cols) <-> In x cols /\ carries_tag x) /\
  (forall cols,
      find_cols (t0, t1, t2) (find_cols (t0, t1, t2) cols)
      = find_cols (t0, t1, t2) cols).
Proof.
  intros carries_tag. split; [reflexivity|]. split; [|split; [|split]].
  - intros x cols Hx. apply has_tag_spec in Hx.
    unfold find_cols. cbn [filter]. now rewrite Hx.
  - intros x cols Hx. unfold find_cols. cbn [filter].
    destruct (contains t0 x || contains t1 x || contains t2 x) eqn:E;
      [|reflexivity].
    apply has_tag_spec in E. contradiction.
  - intros cols x. unfold find_cols. rewrite filter_In.
    now rewrite has_tag_spec.
  - intros cols. unfold find_cols. induction cols as [|c cols IH];
      cbn [filter]; [reflexivity|].
    destruct (contains t0 c || contains t1 c || contains t2 c) eqn:E;
      cbn [filter]; [rewrite E; now f_equal | exact IH].
Qed.

Lemma find_cols_keeps_columns_with_a_tag_witness :
  find_cols (tags mitoParp)
    ["Abundance: F1, 126"; "Abundance: F3, 127N"; "Abundance: F3, 127N"]
  = ["Abundance: F3, 127N"; "Abundance: F3, 127N"].
Proof.
  destruct (find_cols_keeps_columns_with_a_tag "F3, 127N" "F2, 130N" "F1, 129C")
    as (Hnil & Hkeep & Hskip & _).
  change (tags mitoParp) with ("F3, 127N", "F2, 130N", "F1, 129C").
  rewrite Hskip.
  - rewrite Hkeep by (exists "F3, 127N", "Abundance: ", ""; auto).
    rewrite Hkeep by (exists "F3, 127N", "Abundance: ", ""; auto).
    now rewrite Hnil.
  - intros Htag. apply has_tag_spec in Htag. discriminate Htag.
Defined.

(** X18: [update_cell_type] is not meant to be applied twice.  For the
    cell lines HeLa and U2OS no new label is a key of the dict, so a second
    application turns the whole column into NaN; a label that is not a key
    becomes NaN at the first one.  For a cell line other than HeLa, U2OS
    and 293 the dict is never bound and the function fails. *)
Theorem update_cell_type_twice_erases_labels :
  (forall cell_line cell_types once,
      cell_line = "HeLa" \/ cell_line = "U2OS" ->
      update_cell_type cell_types cell_line = Some once ->
      update_cell_type once cell_line
      = Some (map (fun _ => None) cell_types)) /\
  (forall cell_line cell_types,
      cell_line <> "HeLa" -> cell_line <> "U2OS" -> cell_line <> "293" ->
      update_cell_type cell_types cell_line = None).
Proof.
  split.
  - intros cell_line cell_types once Hline Honce.
    assert (Hvalues : forall d, cell_type_dict cell_line = Some d ->
              forall label v, dict_get d label = Some v ->
                              dict_get d v = None).
    { intros d Hd label v Hv.
      destruct Hline as [-> | ->]; cbn in Hd; injection Hd as <-;
        cbn in Hv;
        repeat match type of Hv with
               | (if ?b then _ else _) = _ => destruct b
               end;
        try discriminate; injection Hv as <-; reflexivity. }
    unfold update_cell_type in *.
    destruct (cell_type_dict cell_line) as [d|] eqn:Hd; [|discriminate].
    injection Honce as <-. f_equal. rewrite map_map. apply map_ext.
    intros [label|]; [|reflexivity].
    destruct (dict_get d label) as [v|] eqn:Hv; [|reflexivity].
    exact (Hvalues d eq_refl label v Hv).
  - intros cell_line cell_types H1 H2 H3.
    unfold update_cell_type, cell_type_dict.
    destruct (String.eqb_spec cell_line "HeLa"); [contradiction|].
    destruct (String.eqb_spec cell_line "U2OS"); [contradiction|].
    destruct (String.eqb_spec cell_line "293"); [contradiction|].
    reflexivity.
Qed.

Lemma update_cell_type_twice_erases_labels_witness :
  update_cell_type [Some "mP"; None; Some "HeLa"] "HeLa"
  = Some [None; None; None] /\
  update_cell_type [Some "HeLa wt"] "MCF7" = None.
Proof.
  destruct update_cell_type_twice_erases_labels as (Htwice & Hunbound).
  split.
  - apply (Htwice "HeLa" [Some "HeLa mP"; None; Some "HeLa wt"]
             [Some "mP"; None; Some "HeLa"]); [now left | reflexivity].
  - apply Hunbound; discriminate.
Defined.

(** X19: The figure title of [get_filename_and_figtitle] always names the
    cell line, whatever the cell is called; and a cell called "wt" gets
    the title and the file of the cell line itself (unless "wt" contains
    the name of the cell line), so that the two plots are written to the
    same file. *)
Theorem figtitle_names_cell_line (cell_line growth_or_decay : string) :
  (forall cell,
      contains cell_line
        (fst (get_filename_and_figtitle cell_line cell growth_or_decay))
      = true) /\
  (contains cell_line "wt" = false ->
   get_filename_and_figtitle cell_line "wt" growth_or_decay
   = get_filename_and_figtitle cell_line cell_line growth_or_decay).
Proof.
  split.
  - intros cell. unfold get_filename_and_figtitle.
    destruct (String.eqb cell cell_line); cbn [fst].
    + apply contains_spec. now exists "", " wt".
    + destruct (contains cell_line cell) eqn:E; [exact E|].
      apply contains_spec. now exists "", (" " ++ cell).
  - intros Hwt. unfold get_filename_and_figtitle.
    rewrite String.eqb_refl, Hwt.
    destruct (String.eqb_spec "wt" cell_line) as [<-|_]; reflexivity.
Qed.

Lemma figtitle_names_cell_line_witness :
  get_filename_and_figtitle "U2OS" "wt" "decay"
  = get_filename_and_figtitle "U2OS" "U2OS" "decay".
Proof.
  apply (proj2 (figtitle_names_cell_line "U2OS" "decay")). reflexivity.
Defined.

End TagsAndTitles.

Section GeneNameFile.
Import Pools GeneNames.
Local Open Scope string_scope.

Lemma drop_last_app (s : string) (c : ascii) :
  drop_last (s ++ String c "") = s.
Proof.
  induction s as [|d s IH]; [reflexivity|].
  cbn [append drop_last]. rewrite IH.
  destruct s; reflexivity.
Qed.

Lemma py_split_two (sep : ascii) (a b : string) :
  has_char sep a = false -> has_char sep b = false ->
  py_split sep (a ++ String sep b) = [a; b].
Proof.
  intros Ha Hb.
  now rewrite py_split_app, (py_split_no_sep _ _ Ha), (py_split_no_sep _ _ Hb).
Qed.

(** One well-formed line: the entry is put in front of the dict. *)
Lemma gene_line_of (d : list (string * string)) (entry : string * string) :
  has_char tab (fst entry) = false -> has_char tab (snd entry) = false ->
  gene_line d (line_of entry) = Ok (entry :: d).
Proof.
  destruct entry as (id, name). cbn [fst snd]. intros Hid Hname.
  unfold gene_line, line_of. cbn [fst snd].
  rewrite py_split_two; [now rewrite drop_last_app | exact Hid |].
  now rewrite has_char_app, Hname.
Qed.

Lemma read_gene_names_app (d : list (string * string))
    (entries : list (string * string)) :
  (forall e, In e entries ->
     has_char tab (fst e) = false /\ has_char tab (snd e) = false) ->
  read_gene_names d (map line_of entries) = Ok (rev entries ++ d)%list.
Proof.
  revert d. induction entries as [|e entries IH]; intros d Hwf;
    [reflexivity|].
  cbn [map read_gene_names].
  destruct (Hwf e (or_introl eq_refl)) as (Hid & Hname).
  rewrite (gene_line_of d e Hid Hname). cbn [bind].
  rewrite IH by (intros e' He'; apply Hwf; now right).
  cbn [rev]. now rewrite <- app_assoc.
Qed.

(** X20: Reading [gene_names.txt].  When every line is
    [id <tab> name <newline>] (no tab inside the id or the name), the loop
    ends with the entries of the file, and a protein gets the name on the
    last line that carries its id (none if there is no such line).  The
    last character of the second field is cut whatever it is, so a last
    line that does not end in a newline loses the last letter of its name;
    and a line without a tab stops the script with [IndexError]. *)
Theorem gene_names_are_read_line_by_line :
  (forall entries,
      (forall e, In e entries ->
         has_char tab (fst e) = false /\ has_char tab (snd e) = false) ->
      exists gene_translation,
        read_gene_names [] (map line_of entries) = Ok gene_translation /\
        forall x, gene_name gene_translation x = dict_get (rev entries) x) /\
  (forall gene_translation id name c,
      has_char tab id = false -> has_char tab name = false ->
      Ascii.eqb c tab = false ->
      gene_line gene_translation (id ++ String tab (name ++ String c ""))
      = Ok ((id, name) :: gene_translation)) /\
  (forall gene_translation line rest,
      has_char tab line = false ->
      read_gene_names gene_translation (line :: rest) = Raise IndexError).
Proof.
  split; [|split].
  - intros entries Hwf. exists (rev entries). split; [|reflexivity].
    rewrite (read_gene_names_app [] entries Hwf). now rewrite app_nil_r.
  - intros d id name c Hid Hname Hc. unfold gene_line.
    rewrite py_split_two; [now rewrite drop_last_app | exact Hid |].
    rewrite has_char_app, Hname. cbn. now rewrite Hc.
  - intros d line rest Hline. cbn [read_gene_names]. unfold gene_line.
    now rewrite (py_split_no_sep _ _ Hline).
Qed.

Lemma gene_names_are_read_line_by_line_witness :
  (exists gene_translation,
      read_gene_names []
        (map line_of [("P09874", "PARP1"); ("Q9Y6F1", "PARP3");
                      ("P09874", "ARTD1")])
      = Ok gene_translation /\
      gene_name gene_translation "P09874" = Some "ARTD1") /\
  gene_line [] (String.append "P09874" (String tab "PARP1"))
  = Ok [("P09874", "PARP")] /\
  read_gene_names [] ["P09874 PARP1"] = Raise IndexError.
Proof.
  destruct gene_names_are_read_line_by_line as (Hfile & Hline & Herr).
  split; [|split].
  - destruct (Hfile [("P09874", "PARP1"); ("Q9Y6F1", "PARP3");
                     ("P09874", "ARTD1")]) as (d & Hd & Hget).
    { intros e [<-|[<-|[<-|[]]]]; split; reflexivity. }
    exists d. split; [exact Hd|]. now rewrite Hget.
  - apply (Hline [] "P09874" "PARP" "1"%char); reflexivity.
  - apply Herr. reflexivity.
Defined.

End GeneNameFile.

Section NadMeanProperties.
Import PlotFunction.
Local Open Scope R_scope.

Lemma truthy_nonzero (x : R) : x <> 0 -> truthy (Some x) = Some x.
Proof.
  intros Hx. unfold truthy. cbn. now rewrite (Reqb_false x 0 Hx).
Qed.

(** The error of a product [m * mu] from the errors of its factors. *)
Lemma product_error (m s mu sd : R) :
  0 < m -> 0 < mu ->
  m * mu * R_sqrt.sqrt (s / m * (s / m) + sd / mu * (sd / mu))
  = R_sqrt.sqrt ((s * mu) * (s * mu) + (m * sd) * (m * sd)).
Proof.
  intros Hm Hmu.
  assert (Ha : 0 <= s / m * (s / m)) by nra.
  assert (Hb : 0 <= sd / mu * (sd / mu)) by nra.
  transitivity (R_sqrt.sqrt ((m * mu) * (m * mu))
                * R_sqrt.sqrt (s / m * (s / m) + sd / mu * (sd / mu))).
  - rewrite sqrt_square by nra. reflexivity.
  - rewrite <- sqrt_mult by nra. f_equal. field. lra.
Qed.

(** X21: [calc_nad_mean] in exact arithmetic.  With a measured NAD amount
    [m > 0] with standard deviation [s <> 0], and positive mean labelled
    percentages, the labelled amount at every time is [m] times the
    labelled fraction [mu], and its standard deviation is
    [sqrt ((s * mu)^2 + (m * sd)^2)], the first-order error of the
    product.  A measured amount of zero is treated like a missing one: the
    percentages and their standard deviations come back unchanged. *)
Theorem calc_nad_mean_propagates_product_error (groups : list (R * R)) :
  (forall m s,
      0 < m -> s <> 0 ->
      (forall g, In g groups -> 0 < fst g) ->
      calc_nad_mean groups (Some m) (Some s)
      = Ok (map (fun g => m * (fst g / 100)) groups,
            map (fun g =>
                   R_sqrt.sqrt ((s * (fst g / 100)) * (s * (fst g / 100))
                         + (m * (snd g / 100)) * (m * (snd g / 100))))
              groups)) /\
  (forall nad_measured_mean nad_measured_std,
      nad_measured_mean = None \/ nad_measured_mean = Some 0 ->
      calc_nad_mean groups nad_measured_mean nad_measured_std
      = Ok (map fst groups, map snd groups)).
Proof.
  split.
  - intros m s Hm Hs Hpos. unfold calc_nad_mean.
    rewrite (truthy_nonzero m) by lra. rewrite (truthy_nonzero s Hs).
    rewrite py_square_R. cbn [bind]. f_equal. f_equal.
    + now rewrite map_map.
    + induction groups as [|g groups IH]; [reflexivity|].
      cbn [map combine fst snd]. f_equal.
      * unfold sqr. cbn [add mul div sqrt lit Arith_R].
        apply product_error; [exact Hm|].
        specialize (Hpos g (or_introl eq_refl)). cbn. lra.
      * apply IH. intros g' Hg'. apply Hpos. now right.
  - intros mean std Hmean. unfold calc_nad_mean.
    assert (Ht : truthy mean = None).
    { destruct Hmean as [-> | ->]; [reflexivity|].
      unfold truthy. cbn. now rewrite Reqb_true. }
    rewrite Ht, !map_map. f_equal. f_equal; apply map_ext; intros g; cbn;
      field.
Qed.

Lemma calc_nad_mean_propagates_product_error_witness :
  calc_nad_mean [(50, 10)] (Some 4) (Some 1)
  = Ok ([4 * (50 / 100)],
        [R_sqrt.sqrt ((1 * (50 / 100)) * (1 * (50 / 100))
               + (4 * (10 / 100)) * (4 * (10 / 100)))]) /\
  calc_nad_mean [(50, 10)] (Some 0) (Some 1) = Ok ([50], [10]).
Proof.
  destruct (calc_nad_mean_propagates_product_error [(50, 10)])
    as (Hgiven & Hmissing).
  split.
  - apply (Hgiven 4 1); [lra | lra |].
    intros g [<-|[]]. cbn. lra.
  - apply Hmissing. now right.
Defined.

End NadMeanProperties.
